(** * Position and profit/loss aggregation of the Augur SDK

    A shallow embedding of the numeric core of
    [packages/augur-sdk/src/state/getter/Users.ts]: the rollup aggregator
    [sumTradingPositions], the time bucketer [bucketRangeByInterval], the
    latest-before resolver [getLastDocBeforeTimestamp], the escrow estimator
    [addEscrowedAmountsDecrementShares], the position calculator
    [getTradingPositionFromProfitLossFrame], the per-bucket valuation of
    [getProfitLoss] and the full-loss detector [getFullMarketPositionLoss].

    Numbers are bignumber.js values.  Every string-valued money field of the
    TypeScript records holds the [toFixed()] rendering of such a value and is
    read back with [new BigNumber(...)]; the embedding keeps the value the
    string denotes, so ["0"] is [BigNumber.zero] and a field holding ["NaN"]
    is [NaN]. *)

From Stdlib Require Import ZArith QArith Qabs Qcanon Qround Qcabs Lia Ascii Sorted.
From stdpp Require Import base numbers option list strings gmap fin_maps pretty.

Local Open Scope Z_scope.

(** ** bignumber.js values *)

(** A value is a finite rational with a terminating decimal expansion, one
    of the two infinities, or NaN.  The library's signed zero is not
    distinguished from zero. *)
Inductive BigNumber : Type :=
| Num (q : Qc)
| Infinity (negative : bool)
| NaN.

Module BigNumber.

(** Library defaults: [DECIMAL_PLACES = 20], [ROUNDING_MODE = ROUND_HALF_UP]. *)
Definition DECIMAL_PLACES : nat := 20.

Definition ofZ (z : Z) : BigNumber := Num (Qc_of_Z z).

(** [ofDecimal m dp] is the decimal literal [m * 10^-dp]. *)
Definition ofDecimal (m : Z) (dp : nat) : BigNumber :=
  Num (Q2Qc (Qmake m (Z.to_pos (10 ^ Z.of_nat dp)))).

Definition zero : BigNumber := ofZ 0.

(** Rounding to [dp] decimal places, ties away from zero. *)
Definition roundHalfUp (dp : nat) (q : Qc) : Qc :=
  let scale := 10 ^ Z.of_nat dp in
  let r := Qfloor (Qabs (this q) * inject_Z scale + (1 # 2))%Q in
  let m := Q2Qc (Qmake r (Z.to_pos scale)) in
  if bool_decide (0 ≤ q)%Qc then m else (- m)%Qc.

Definition isNaN (a : BigNumber) : bool :=
  match a with NaN => true | _ => false end.

Definition isFinite (a : BigNumber) : bool :=
  match a with Num _ => true | _ => false end.

Definition isZero (a : BigNumber) : bool :=
  match a with Num q => bool_decide (q = 0%Qc) | _ => false end.

Definition isNegative (a : BigNumber) : bool :=
  match a with
  | Num q => bool_decide (q < 0)%Qc
  | Infinity s => s
  | NaN => false
  end.

Definition negated (a : BigNumber) : BigNumber :=
  match a with
  | Num q => Num (- q)%Qc
  | Infinity s => Infinity (negb s)
  | NaN => NaN
  end.

Definition abs (a : BigNumber) : BigNumber :=
  match a with
  | Num q => Num (Qcabs q)
  | Infinity _ => Infinity false
  | NaN => NaN
  end.

Definition plus (a b : BigNumber) : BigNumber :=
  match a, b with
  | NaN, _ | _, NaN => NaN
  | Num x, Num y => Num (x + y)%Qc
  | Num _, Infinity s | Infinity s, Num _ => Infinity s
  | Infinity s1, Infinity s2 => if bool_decide (s1 = s2) then Infinity s1 else NaN
  end.

Definition minus (a b : BigNumber) : BigNumber := plus a (negated b).

Definition times (a b : BigNumber) : BigNumber :=
  match a, b with
  | NaN, _ | _, NaN => NaN
  | Num x, Num y => Num (x * y)%Qc
  | Num x, Infinity s | Infinity s, Num x =>
      if bool_decide (x = 0%Qc) then NaN
      else Infinity (xorb s (bool_decide (x < 0)%Qc))
  | Infinity s1, Infinity s2 => Infinity (xorb s1 s2)
  end.

(** Division is the one rounding operation: the quotient is cut to
    [DECIMAL_PLACES].  A zero divisor gives NaN or an infinity, never an
    exception. *)
Definition dividedBy (a b : BigNumber) : BigNumber :=
  match a, b with
  | NaN, _ | _, NaN => NaN
  | Num x, Num y =>
      if bool_decide (y = 0%Qc) then
        if bool_decide (x = 0%Qc) then NaN else Infinity (bool_decide (x < 0)%Qc)
      else Num (roundHalfUp DECIMAL_PLACES (x / y)%Qc)
  | Num _, Infinity _ => Num 0%Qc
  | Infinity s, Num y => Infinity (xorb s (bool_decide (y < 0)%Qc))
  | Infinity _, Infinity _ => NaN
  end.

(** Three-way comparison; [None] when either side is NaN. *)
Definition comparedTo (a b : BigNumber) : option comparison :=
  match a, b with
  | NaN, _ | _, NaN => None
  | Num x, Num y => Some (x ?= y)%Qc
  | Num _, Infinity s => Some (if s then Gt else Lt)
  | Infinity s, Num _ => Some (if s then Lt else Gt)
  | Infinity s1, Infinity s2 =>
      Some (match s1, s2 with
            | true, false => Lt
            | false, true => Gt
            | _, _ => Eq
            end)
  end.

Definition eq (a b : BigNumber) : bool :=
  match comparedTo a b with Some Eq => true | _ => false end.
Definition lt (a b : BigNumber) : bool :=
  match comparedTo a b with Some Lt => true | _ => false end.
Definition gt (a b : BigNumber) : bool :=
  match comparedTo a b with Some Gt => true | _ => false end.
Definition lte (a b : BigNumber) : bool :=
  match comparedTo a b with Some Lt | Some Eq => true | _ => false end.
Definition gte (a b : BigNumber) : bool :=
  match comparedTo a b with Some Gt | Some Eq => true | _ => false end.

(** [BigNumber.min(a, b)]: NaN as soon as one argument is NaN. *)
Definition min2 (a b : BigNumber) : BigNumber :=
  match comparedTo a b with
  | None => NaN
  | Some Gt => b
  | Some _ => a
  end.

(** [BigNumber.min(...args)] on a non-empty argument list. *)
Definition min (first : BigNumber) (rest : list BigNumber) : BigNumber :=
  foldl min2 first rest.

(** [toFixed(dp)]: the value rounded to [dp] places; [toFixed()] prints the
    value in full and is the identity on values. *)
Definition toFixed (dp : nat) (a : BigNumber) : BigNumber :=
  match a with
  | Num q => Num (roundHalfUp dp q)
  | other => other
  end.

(** [new BigNumber(s)] on the strings that name outcomes: an unsigned
    whole number, hexadecimal after a [0x] prefix and decimal otherwise;
    anything else is NaN. *)
Definition digitValue (c : Ascii.ascii) : option Z :=
  let n := Z.of_N (Ascii.N_of_ascii c) in
  if (48 <=? n) && (n <=? 57) then Some (n - 48)
  else if (97 <=? n) && (n <=? 102) then Some (n - 87)
  else if (65 <=? n) && (n <=? 70) then Some (n - 55)
  else None.

Fixpoint parseDigits (base : Z) (acc : Z) (s : string) : option Z :=
  match s with
  | EmptyString => Some acc
  | String c rest =>
      match digitValue c with
      | Some d => if d <? base then parseDigits base (base * acc + d) rest else None
      | None => None
      end
  end.

Definition ofString (s : string) : BigNumber :=
  let parsed :=
    match s with
    | EmptyString => None
    | String "0"%char (String "x"%char (String c rest)) =>
        parseDigits 16 0 (String c rest)
    | _ => parseDigits 10 0 s
    end in
  match parsed with Some z => ofZ z | None => NaN end.

(** [arr[b.toNumber()]]: the array slot a value selects, if it is a
    non-negative whole number. *)
Definition toIndex (a : BigNumber) : option nat :=
  match a with
  | Num q =>
      if bool_decide (0 ≤ q)%Qc && bool_decide (Qden (this q) = 1%positive)
      then Some (Z.to_nat (Qnum (this q)))
      else None
  | _ => None
  end.

End BigNumber.

#[global] Instance BigNumber_eq_dec : EqDecision BigNumber.
Proof. solve_decision. Defined.

(** The literal [10 ** 18] of the getter. *)
Definition tenToThe18 : BigNumber := BigNumber.ofZ (10 ^ 18).

(** Modelled from the spec: [QUINTILLION] is imported from the SDK's utils,
    which are not among these sources; the spec fixes the scale between
    on-chain and display quantities at 18 decimals. *)
Definition QUINTILLION : BigNumber := BigNumber.ofZ (10 ^ 18).

(** Closed equations between values are settled by the decision procedure:
    two canonical rationals with the same fraction are equal whatever the
    proofs of canonicity they carry. *)
Ltac bn_decide := apply (bool_decide_unpack _); vm_compute; exact I.

(** ** Records of the getter *)

(** The rollup record.  The optional fields that only
    [getUserTradingPositions] fills in afterwards are left out. *)
Module MarketTradingPosition.
Record t : Type := {
  timestamp : Z;
  frozenFunds : BigNumber;
  marketId : string;
  realized : BigNumber;
  unrealized : BigNumber;
  unrealized24Hr : BigNumber;
  total : BigNumber;
  unrealizedCost : BigNumber;
  realizedCost : BigNumber;
  totalCost : BigNumber;
  realizedPercent : BigNumber;
  unrealizedPercent : BigNumber;
  unrealized24HrPercent : BigNumber;
  totalPercent : BigNumber;
  currentValue : BigNumber;
  userSharesBalances : gmap string BigNumber
}.
End MarketTradingPosition.

(** The per-outcome position the position calculator returns. *)
Module TradingPosition.
Record t : Type := {
  timestamp : Z;
  frozenFunds : BigNumber;
  marketId : string;
  outcome : BigNumber;
  netPosition : BigNumber;
  rawPosition : BigNumber;
  averagePrice : BigNumber;
  realized : BigNumber;
  unrealized : BigNumber;
  unrealized24Hr : BigNumber;
  total : BigNumber;
  unrealizedCost : BigNumber;
  realizedCost : BigNumber;
  totalCost : BigNumber;
  realizedPercent : BigNumber;
  unrealizedPercent : BigNumber;
  unrealized24HrPercent : BigNumber;
  totalPercent : BigNumber;
  currentValue : BigNumber
}.

(** A [TradingPosition] is passed where a [MarketTradingPosition] is
    expected; the rollup reads the fields the two interfaces share. *)
Definition asMarketTradingPosition (p : t) : MarketTradingPosition.t :=
  {| MarketTradingPosition.timestamp := timestamp p;
     MarketTradingPosition.frozenFunds := frozenFunds p;
     MarketTradingPosition.marketId := marketId p;
     MarketTradingPosition.realized := realized p;
     MarketTradingPosition.unrealized := unrealized p;
     MarketTradingPosition.unrealized24Hr := unrealized24Hr p;
     MarketTradingPosition.total := total p;
     MarketTradingPosition.unrealizedCost := unrealizedCost p;
     MarketTradingPosition.realizedCost := realizedCost p;
     MarketTradingPosition.totalCost := totalCost p;
     MarketTradingPosition.realizedPercent := realizedPercent p;
     MarketTradingPosition.unrealizedPercent := unrealizedPercent p;
     MarketTradingPosition.unrealized24HrPercent := unrealized24HrPercent p;
     MarketTradingPosition.totalPercent := totalPercent p;
     MarketTradingPosition.currentValue := currentValue p;
     MarketTradingPosition.userSharesBalances := ∅ |}.
End TradingPosition.

(** ** Rollup aggregator *)

(** The initial accumulator of the fold: every field ["0"]. *)
Definition zeroTradingPosition : MarketTradingPosition.t :=
  {| MarketTradingPosition.timestamp := 0;
     MarketTradingPosition.frozenFunds := BigNumber.zero;
     MarketTradingPosition.marketId := "";
     MarketTradingPosition.realized := BigNumber.zero;
     MarketTradingPosition.unrealized := BigNumber.zero;
     MarketTradingPosition.unrealized24Hr := BigNumber.zero;
     MarketTradingPosition.total := BigNumber.zero;
     MarketTradingPosition.unrealizedCost := BigNumber.zero;
     MarketTradingPosition.realizedCost := BigNumber.zero;
     MarketTradingPosition.totalCost := BigNumber.zero;
     MarketTradingPosition.realizedPercent := BigNumber.zero;
     MarketTradingPosition.unrealizedPercent := BigNumber.zero;
     MarketTradingPosition.unrealized24HrPercent := BigNumber.zero;
     MarketTradingPosition.totalPercent := BigNumber.zero;
     MarketTradingPosition.currentValue := BigNumber.zero;
     MarketTradingPosition.userSharesBalances := ∅ |}.

(** The reducer of [sumTradingPositions]: seven sums, the derived fields
    reset to ["0"]. *)
Definition sumStep (resultPosition tradingPosition : MarketTradingPosition.t)
  : MarketTradingPosition.t :=
  let frozenFunds :=
    BigNumber.plus (MarketTradingPosition.frozenFunds resultPosition)
                   (MarketTradingPosition.frozenFunds tradingPosition) in
  let realized :=
    BigNumber.plus (MarketTradingPosition.realized resultPosition)
                   (MarketTradingPosition.realized tradingPosition) in
  let unrealized :=
    BigNumber.plus (MarketTradingPosition.unrealized resultPosition)
                   (MarketTradingPosition.unrealized tradingPosition) in
  let unrealized24Hr :=
    BigNumber.plus (MarketTradingPosition.unrealized24Hr resultPosition)
                   (MarketTradingPosition.unrealized24Hr tradingPosition) in
  let realizedCost :=
    BigNumber.plus (MarketTradingPosition.realizedCost resultPosition)
                   (MarketTradingPosition.realizedCost tradingPosition) in
  let unrealizedCost :=
    BigNumber.plus (MarketTradingPosition.unrealizedCost resultPosition)
                   (MarketTradingPosition.unrealizedCost tradingPosition) in
  let currentValue :=
    BigNumber.plus (MarketTradingPosition.currentValue resultPosition)
                   (MarketTradingPosition.currentValue tradingPosition) in
  {| MarketTradingPosition.timestamp := MarketTradingPosition.timestamp tradingPosition;
     MarketTradingPosition.frozenFunds := frozenFunds;
     MarketTradingPosition.marketId := MarketTradingPosition.marketId tradingPosition;
     MarketTradingPosition.realized := realized;
     MarketTradingPosition.unrealized := unrealized;
     MarketTradingPosition.unrealized24Hr := unrealized24Hr;
     MarketTradingPosition.total := BigNumber.zero;
     MarketTradingPosition.unrealizedCost := unrealizedCost;
     MarketTradingPosition.realizedCost := realizedCost;
     MarketTradingPosition.totalCost := BigNumber.zero;
     MarketTradingPosition.realizedPercent := BigNumber.zero;
     MarketTradingPosition.unrealizedPercent := BigNumber.zero;
     MarketTradingPosition.unrealized24HrPercent := BigNumber.zero;
     MarketTradingPosition.totalPercent := BigNumber.zero;
     MarketTradingPosition.currentValue := currentValue;
     MarketTradingPosition.userSharesBalances := ∅ |}.

Definition sumTradingPositions (tradingPositions : list MarketTradingPosition.t)
  : MarketTradingPosition.t :=
  let summedTrade := foldl sumStep zeroTradingPosition tradingPositions in
  let frozenFunds := MarketTradingPosition.frozenFunds summedTrade in
  let realized := MarketTradingPosition.realized summedTrade in
  let unrealized := MarketTradingPosition.unrealized summedTrade in
  let unrealized24Hr := MarketTradingPosition.unrealized24Hr summedTrade in
  let realizedCost := MarketTradingPosition.realizedCost summedTrade in
  let unrealizedCost := MarketTradingPosition.unrealizedCost summedTrade in
  let total := BigNumber.plus realized unrealized in
  let totalCost := BigNumber.abs (BigNumber.plus realizedCost unrealizedCost) in
  {| MarketTradingPosition.timestamp := MarketTradingPosition.timestamp summedTrade;
     MarketTradingPosition.frozenFunds := frozenFunds;
     MarketTradingPosition.marketId := MarketTradingPosition.marketId summedTrade;
     MarketTradingPosition.realized := realized;
     MarketTradingPosition.unrealized := unrealized;
     MarketTradingPosition.unrealized24Hr := unrealized24Hr;
     MarketTradingPosition.total := total;
     MarketTradingPosition.unrealizedCost := MarketTradingPosition.unrealizedCost summedTrade;
     MarketTradingPosition.realizedCost := MarketTradingPosition.realizedCost summedTrade;
     MarketTradingPosition.totalCost := totalCost;
     MarketTradingPosition.realizedPercent :=
       if BigNumber.isZero realizedCost then BigNumber.zero
       else BigNumber.toFixed 4 (BigNumber.dividedBy realized realizedCost);
     MarketTradingPosition.unrealizedPercent :=
       if BigNumber.isZero unrealizedCost then BigNumber.zero
       else BigNumber.toFixed 4 (BigNumber.dividedBy unrealized unrealizedCost);
     MarketTradingPosition.unrealized24HrPercent :=
       if BigNumber.isZero unrealizedCost then BigNumber.zero
       else BigNumber.toFixed 4 (BigNumber.dividedBy unrealized24Hr unrealizedCost);
     MarketTradingPosition.totalPercent :=
       if BigNumber.isZero totalCost then BigNumber.zero
       else BigNumber.toFixed 4 (BigNumber.dividedBy total totalCost);
     MarketTradingPosition.currentValue := MarketTradingPosition.currentValue summedTrade;
     MarketTradingPosition.userSharesBalances :=
       MarketTradingPosition.userSharesBalances summedTrade |}.

(** ** Time bucketer *)

(** A call either returns or throws an [Error] with a message. *)
Inductive completion (A : Type) : Type :=
| Ok (value : A)
| Throw (message : string).
Arguments Ok {A} value.
Arguments Throw {A} message.

Definition DEFAULT_NUMBER_OF_BUCKETS : Z := 30.

(** [Math.ceil(a / b)] on whole numbers. *)
Definition ceilDiv (a b : Z) : Z := - ((- a) / b).

(** The [for] loop of [bucketRangeByInterval].  Each iteration uses one unit
    of fuel; [None] means the fuel ran out before the loop condition failed. *)
Fixpoint bucketLoop (fuel : nat) (endTime interval bucketEndTime : Z)
  (buckets : list Z) : option (list Z) :=
  if bucketEndTime <? endTime then
    match fuel with
    | O => None
    | S fuel' =>
        bucketLoop fuel' endTime interval (bucketEndTime + interval)
                   (buckets ++ [bucketEndTime])
    end
  else Some buckets.

(** Timestamps are whole seconds; [periodInterval] is [None] for [null]. *)
Definition bucketRangeByInterval (fuel : nat) (startTime endTime : Z)
  (periodInterval : option Z) : option (completion (list Z)) :=
  if startTime <? 0 then
    Some (Throw "startTime must be a valid unix timestamp, greater than 0")
  else if endTime <? 0 then
    Some (Throw "endTime must be a valid unix timestamp, greater than 0")
  else if endTime <? startTime then
    Some (Throw "endTime must be greater than or equal startTime")
  else if match periodInterval with Some p => p <=? 0 | None => false end then
    Some (Throw "periodInterval must be positive integer (seconds)")
  else
    let interval :=
      match periodInterval with
      | None => ceilDiv (endTime - startTime) DEFAULT_NUMBER_OF_BUCKETS
      | Some p => p
      end in
    buckets ← bucketLoop fuel endTime interval startTime [];
    Some (Ok (buckets ++ [endTime])).

(** ** Logs and market documents *)

Module ProfitLossChangedLog.
Record t : Type := {
  market : string;
  outcome : string;
  timestamp : Z;
  netPosition : BigNumber;
  avgPrice : BigNumber;
  realizedProfit : BigNumber;
  realizedCost : BigNumber;
  frozenFunds : BigNumber
}.
End ProfitLossChangedLog.

Module ParsedOrderEventLog.
Record t : Type := {
  market : string;
  outcome : string;
  timestamp : Z;
  price : BigNumber
}.
End ParsedOrderEventLog.

Module MarketFinalizedLog.
Record t : Type := {
  market : string;
  timestamp : Z;
  winningPayoutNumerators : list BigNumber
}.
End MarketFinalizedLog.

Module MarketData.
Record t : Type := {
  market : string;
  prices : list BigNumber;
  numTicks : BigNumber;
  winningPayoutNumerators : option (list BigNumber)
}.
End MarketData.

Module Order.
Record t : Type := {
  amount : BigNumber;
  price : BigNumber;
  tokensEscrowed : BigNumber;
  sharesEscrowed : BigNumber
}.
End Order.

(** [new BigNumber(arr[i])]: a missing slot is [undefined], which reads as NaN. *)
Definition numberAt (arr : list BigNumber) (i : nat) : BigNumber :=
  default NaN (arr !! i).

(** ** Latest-before resolver *)

(** The documents the resolver accepts: anything with a timestamp. *)
Class Timestamped (TDoc : Type) : Type := timestampOf : TDoc → Z.

#[global] Instance ProfitLossChangedLog_timestamped : Timestamped ProfitLossChangedLog.t :=
  ProfitLossChangedLog.timestamp.
#[global] Instance ParsedOrderEventLog_timestamped : Timestamped ParsedOrderEventLog.t :=
  ParsedOrderEventLog.timestamp.

(** lodash [_.takeWhile]. *)
Fixpoint takeWhile {A : Type} (predicate : A → bool) (array : list A) : list A :=
  match array with
  | [] => []
  | x :: rest => if predicate x then x :: takeWhile predicate rest else []
  end.

Definition getLastDocBeforeTimestamp {TDoc : Type} `{Timestamped TDoc}
  (docs : list TDoc) (timestamp : Z) : option TDoc :=
  let allBeforeTimestamp := takeWhile (λ doc, timestampOf doc <=? timestamp) docs in
  if (0 <? length allBeforeTimestamp)%nat then last allBeforeTimestamp else None.

(** ** Escrow estimator *)

(** One call of [addEscrowedAmountsDecrementShares]: the order with its two
    escrow fields written, and the balance object after the in-place
    decrement.  [orderType] 0 is a bid, anything else an ask. *)
Definition addEscrowedAmountsDecrementShares (order : Order.t) (outcome : string)
  (orderType : Z) (market : MarketData.t) (userSharesBalances : gmap string BigNumber)
  : Order.t * gmap string BigNumber :=
  let ZERO := BigNumber.zero in
  let maxPrice := numberAt (MarketData.prices market) 1 in
  let minPrice := numberAt (MarketData.prices market) 0 in
  let displayMaxPrice := BigNumber.dividedBy maxPrice QUINTILLION in
  let displayMinPrice := BigNumber.dividedBy minPrice QUINTILLION in
  let '(cost, sharesUsed, balances) :=
    if orderType =? 0 return BigNumber * BigNumber * gmap string BigNumber then
      let userSharesBalancesRemoveOutcome :=
        omap (λ entry : string * BigNumber,
                if decide (outcome = entry.1) then None else Some entry.2)
             (map_to_list userSharesBalances) in
      let minOutcomeShareAmount :=
        match userSharesBalancesRemoveOutcome with
        | first :: rest => BigNumber.min first rest
        | [] => ZERO
        end in
      let sharesUsed := BigNumber.min2 (Order.amount order) minOutcomeShareAmount in
      let amt := BigNumber.minus (Order.amount order) sharesUsed in
      let cost := BigNumber.times amt (BigNumber.minus (Order.price order) displayMinPrice) in
      (cost, sharesUsed,
       map_imap (λ o balance,
                   Some (if decide (outcome = o) then balance
                         else BigNumber.minus balance sharesUsed))
                userSharesBalances)
    else
      let sharesBN := default BigNumber.zero (userSharesBalances !! outcome) in
      let sharesUsed := BigNumber.min2 (Order.amount order) sharesBN in
      let cost :=
        BigNumber.times (BigNumber.minus (Order.amount order) sharesUsed)
                        (BigNumber.minus displayMaxPrice (Order.price order)) in
      (cost, sharesUsed,
       <[outcome := if BigNumber.gt sharesBN ZERO
                    then BigNumber.minus sharesBN sharesUsed
                    else sharesBN]> userSharesBalances)
  in
  ({| Order.amount := Order.amount order;
      Order.price := Order.price order;
      Order.tokensEscrowed := cost;
      Order.sharesEscrowed := sharesUsed |},
   balances).

(** The order loop of [getUserOpenOrders] for one market: the orders come in
    the iteration order of the nested objects (outcome, order type, order
    id); one balance object is threaded through all of them and every
    order's escrowed tokens are added to the running total. *)
Fixpoint escrowMarketOrders (market : MarketData.t)
  (orders : list (string * Z * Order.t))
  (userSharesBalances : gmap string BigNumber) (totalCost : BigNumber)
  : list Order.t * gmap string BigNumber * BigNumber :=
  match orders with
  | [] => ([], userSharesBalances, totalCost)
  | (outcome, orderType, order) :: rest =>
      let '(order', balances) :=
        addEscrowedAmountsDecrementShares order outcome orderType market
                                          userSharesBalances in
      let '(orders', balances', totalCost') :=
        escrowMarketOrders market rest balances
          (BigNumber.plus totalCost (Order.tokensEscrowed order')) in
      (order' :: orders', balances', totalCost')
  end.

(** ** Position calculator *)

(** The converters the getter imports from the SDK's index module.  Their
    bodies are not among these sources, so the calculator takes them as an
    interface. *)
Class SdkUtils : Type := {
  numTicksToTickSize : BigNumber → BigNumber → BigNumber → BigNumber;
  convertOnChainAmountToDisplayAmount : BigNumber → BigNumber → BigNumber;
  convertOnChainPriceToDisplayPrice : BigNumber → BigNumber → BigNumber → BigNumber
}.

(** Modelled from the spec: the converter bodies are missing.  The spec
    gives the tick size as the price range divided by the number of ticks
    and an 18-decimal scale between on-chain and display quantities; the
    amount and price conversions below are the linear maps that fit it (a
    display amount is the on-chain amount over tick size times the scale, a
    display price is ticks times tick size above the minimum price).  The
    instance serves to evaluate the calculator on concrete inputs. *)
#[global] Instance displayUtils : SdkUtils := {|
  numTicksToTickSize numTicks minPrice maxPrice :=
    BigNumber.dividedBy
      (BigNumber.dividedBy (BigNumber.minus maxPrice minPrice) numTicks) QUINTILLION;
  convertOnChainAmountToDisplayAmount onChainAmount tickSize :=
    BigNumber.dividedBy onChainAmount (BigNumber.times tickSize QUINTILLION);
  convertOnChainPriceToDisplayPrice onChainPrice minPrice tickSize :=
    BigNumber.plus (BigNumber.times onChainPrice tickSize)
                   (BigNumber.dividedBy minPrice QUINTILLION)
|}.

Section PositionCalculator.
Context `{SdkUtils}.

(** The share balances are keyed by market, then by outcome id; each entry
    is the [balance] of the rollup document.  [None] stands for [null]. *)
Definition getTradingPositionFromProfitLossFrame
  (profitLossFrame : ProfitLossChangedLog.t) (marketDoc : MarketData.t)
  (onChainOutcomeValue : BigNumber) (onChain24HrOutcomeValue : option BigNumber)
  (timestamp : Z)
  (shareTokenBalancesByMarketAndOutcome : option (gmap string (gmap string BigNumber)))
  (finalized : bool) : TradingPosition.t :=
  let minPrice := numberAt (MarketData.prices marketDoc) 0 in
  let maxPrice := numberAt (MarketData.prices marketDoc) 1 in
  let numTicks := MarketData.numTicks marketDoc in
  let tickSize := numTicksToTickSize numTicks minPrice maxPrice in
  let onChainFrozenFunds :=
    BigNumber.dividedBy (ProfitLossChangedLog.frozenFunds profitLossFrame) tenToThe18 in
  let onChainNetPosition := ProfitLossChangedLog.netPosition profitLossFrame in
  let onChainAvgPrice :=
    BigNumber.dividedBy (ProfitLossChangedLog.avgPrice profitLossFrame) tenToThe18 in
  let onChainRealizedProfit :=
    BigNumber.dividedBy (ProfitLossChangedLog.realizedProfit profitLossFrame) tenToThe18 in
  let onChainRealizedCost :=
    BigNumber.dividedBy (ProfitLossChangedLog.realizedCost profitLossFrame) tenToThe18 in
  let onChainRawPosition :=
    match (shareTokenBalancesByMarketAndOutcome
           ≫= (λ byMarket : gmap string (gmap string BigNumber),
                 byMarket !! MarketData.market marketDoc))
          ≫= (λ byOutcome : gmap string BigNumber,
                byOutcome !! ProfitLossChangedLog.outcome profitLossFrame)
    with
    | Some balance => balance
    | None => BigNumber.zero
    end in
  let onChainAvgCost :=
    if BigNumber.isNegative onChainNetPosition
    then BigNumber.minus numTicks onChainAvgPrice
    else onChainAvgPrice in
  let onChainUnrealizedCost :=
    BigNumber.times (BigNumber.abs onChainNetPosition) onChainAvgCost in
  let frozenFunds := BigNumber.dividedBy onChainFrozenFunds tenToThe18 in
  let netPosition := convertOnChainAmountToDisplayAmount onChainNetPosition tickSize in
  let rawPosition := convertOnChainAmountToDisplayAmount onChainRawPosition tickSize in
  let realizedProfit := BigNumber.dividedBy onChainRealizedProfit tenToThe18 in
  let avgPrice := convertOnChainPriceToDisplayPrice onChainAvgPrice minPrice tickSize in
  let realizedCost := BigNumber.dividedBy onChainRealizedCost tenToThe18 in
  let unrealizedCost := BigNumber.dividedBy onChainUnrealizedCost tenToThe18 in
  let lastTradePrice :=
    convertOnChainPriceToDisplayPrice onChainOutcomeValue minPrice tickSize in
  let last24HrTradePrice :=
    match onChain24HrOutcomeValue with
    | Some _ => Some (convertOnChainPriceToDisplayPrice onChainOutcomeValue minPrice tickSize)
    | None => None
    end in
  let unrealized :=
    BigNumber.times (BigNumber.abs netPosition)
      (if BigNumber.isNegative onChainNetPosition
       then BigNumber.minus avgPrice lastTradePrice
       else BigNumber.minus lastTradePrice avgPrice) in
  let unrealized24Hr :=
    match onChain24HrOutcomeValue with
    | Some _ =>
        BigNumber.times (BigNumber.abs netPosition)
          (if BigNumber.isNegative onChainNetPosition
           then BigNumber.minus avgPrice (default NaN last24HrTradePrice)
           else BigNumber.minus (default NaN last24HrTradePrice) avgPrice)
    | None => BigNumber.zero
    end in
  let shortPrice :=
    BigNumber.minus (BigNumber.dividedBy maxPrice tenToThe18) lastTradePrice in
  let currentValue :=
    BigNumber.times (BigNumber.abs netPosition)
      (if BigNumber.isNegative onChainNetPosition then shortPrice else lastTradePrice) in
  let totalCost := BigNumber.plus unrealizedCost realizedCost in
  (* if (finalized) { ... }: the six assignments, in source order *)
  let realizedCost :=
    if finalized then BigNumber.plus unrealizedCost realizedCost else realizedCost in
  let realizedProfit :=
    if finalized then BigNumber.plus realizedProfit unrealized else realizedProfit in
  let unrealized := if finalized then BigNumber.zero else unrealized in
  let unrealized24Hr := if finalized then BigNumber.zero else unrealized24Hr in
  let unrealizedCost := if finalized then BigNumber.zero else unrealizedCost in
  let avgPrice :=
    if finalized
    then (if BigNumber.eq onChainNetPosition BigNumber.zero
          then BigNumber.zero else avgPrice)
    else avgPrice in
  let unrealized24HrPercent :=
    if BigNumber.isZero unrealizedCost then BigNumber.zero
    else BigNumber.dividedBy unrealized24Hr unrealizedCost in
  let unrealizedPercent :=
    if BigNumber.isZero unrealizedCost then BigNumber.zero
    else BigNumber.dividedBy unrealized unrealizedCost in
  let totalPercent :=
    BigNumber.dividedBy (BigNumber.plus realizedProfit unrealized)
                        (BigNumber.plus realizedCost unrealizedCost) in
  let realizedPercent :=
    if BigNumber.isZero realizedCost then BigNumber.zero
    else BigNumber.dividedBy realizedProfit (BigNumber.abs realizedCost) in
  {| TradingPosition.timestamp := timestamp;
     TradingPosition.frozenFunds := frozenFunds;
     TradingPosition.marketId := ProfitLossChangedLog.market profitLossFrame;
     TradingPosition.outcome :=
       BigNumber.ofString (ProfitLossChangedLog.outcome profitLossFrame);
     TradingPosition.netPosition := netPosition;
     TradingPosition.rawPosition := rawPosition;
     TradingPosition.averagePrice := avgPrice;
     TradingPosition.realized := realizedProfit;
     TradingPosition.unrealized := unrealized;
     TradingPosition.unrealized24Hr := unrealized24Hr;
     TradingPosition.total := BigNumber.plus realizedProfit unrealized;
     TradingPosition.unrealizedCost := unrealizedCost;
     TradingPosition.realizedCost := realizedCost;
     TradingPosition.totalCost := totalCost;
     TradingPosition.realizedPercent := BigNumber.toFixed 4 realizedPercent;
     TradingPosition.unrealizedPercent := BigNumber.toFixed 4 unrealizedPercent;
     TradingPosition.unrealized24HrPercent := BigNumber.toFixed 4 unrealized24HrPercent;
     TradingPosition.totalPercent := BigNumber.toFixed 4 totalPercent;
     TradingPosition.currentValue := currentValue |}.

End PositionCalculator.

(** ** Valuation inside the bucketed profit/loss series *)

(** The record [getProfitLoss] returns for an outcome it does not value at
    a bucket. *)
Definition unvaluedBucketPosition (bucketTimestamp : Z) : MarketTradingPosition.t :=
  {| MarketTradingPosition.timestamp := bucketTimestamp;
     MarketTradingPosition.frozenFunds := BigNumber.zero;
     MarketTradingPosition.marketId := "";
     MarketTradingPosition.realized := BigNumber.zero;
     MarketTradingPosition.unrealized := BigNumber.zero;
     MarketTradingPosition.unrealized24Hr := BigNumber.zero;
     MarketTradingPosition.total := BigNumber.zero;
     MarketTradingPosition.unrealizedCost := BigNumber.zero;
     MarketTradingPosition.realizedCost := BigNumber.zero;
     MarketTradingPosition.totalCost := BigNumber.zero;
     MarketTradingPosition.realizedPercent := BigNumber.zero;
     MarketTradingPosition.unrealizedPercent := BigNumber.zero;
     MarketTradingPosition.unrealized24HrPercent := BigNumber.zero;
     MarketTradingPosition.totalPercent := BigNumber.zero;
     MarketTradingPosition.currentValue := BigNumber.zero;
     MarketTradingPosition.userSharesBalances := ∅ |}.

(** The dictionaries below are the query results [getProfitLoss] has grouped
    by market (and outcome): the finalization logs dated inside the queried
    window, and the fills inside the window sorted by block and log index. *)

(** The fills of one outcome of one market, if the window has any. *)
Definition outcomeFills
  (ordersFilledResultsByMarketAndOutcome :
     gmap string (gmap string (list ParsedOrderEventLog.t)))
  (marketId outcome : string) : option (list ParsedOrderEventLog.t) :=
  ordersFilledResultsByMarketAndOutcome !! marketId
  ≫= (λ byOutcome : gmap string (list ParsedOrderEventLog.t), byOutcome !! outcome).

(** Whether the market counts as finalized at the bucket instant. *)
Definition finalizedAt (marketFinalizedByMarket : gmap string MarketFinalizedLog.t)
  (marketId : string) (bucketTimestamp : Z) : bool :=
  match marketFinalizedByMarket !! marketId with
  | Some marketFinalized => MarketFinalizedLog.timestamp marketFinalized <=? bucketTimestamp
  | None => false
  end.

(** The valuation price ([outcomeValue]) the callback of [getProfitLoss]
    passes to the position calculator. *)
Definition bucketOutcomeValue
  (marketFinalizedByMarket : gmap string MarketFinalizedLog.t)
  (ordersFilledResultsByMarketAndOutcome :
     gmap string (gmap string (list ParsedOrderEventLog.t)))
  (marketId : string) (marketDoc : MarketData.t)
  (latestOutcomePLValue : ProfitLossChangedLog.t) (outcome : string)
  (finalized : bool) (bucketTimestamp : Z) : BigNumber :=
  if finalized then
    match marketFinalizedByMarket !! marketId with
    | Some marketFinalized =>
        default NaN
          (BigNumber.toIndex (BigNumber.ofString outcome)
           ≫= (λ i : nat, MarketFinalizedLog.winningPayoutNumerators marketFinalized !! i))
    | None => NaN
    end
  else
    let outcomeValues :=
      default [] (outcomeFills ordersFilledResultsByMarketAndOutcome marketId outcome) in
    let last := getLastDocBeforeTimestamp outcomeValues bucketTimestamp in
    (* if market not traded in timeframe use last pl avg price
       if market is finalized set last price to minPrice *)
    match marketFinalizedByMarket !! marketId with
    | Some _ => numberAt (MarketData.prices marketDoc) 0
    | None =>
        match last with
        | Some last => ParsedOrderEventLog.price last
        | None =>
            BigNumber.dividedBy
              (ProfitLossChangedLog.avgPrice latestOutcomePLValue) tenToThe18
        end
    end.

Section BucketValuation.
Context `{SdkUtils}.

(** The callback [getProfitLoss] maps over the profit/loss records of one
    outcome of one market, at one bucket instant: [inl] is the unvalued
    record, [inr] a call of the position calculator. *)
Definition bucketTradingPosition
  (marketFinalizedByMarket : gmap string MarketFinalizedLog.t)
  (ordersFilledResultsByMarketAndOutcome :
     gmap string (gmap string (list ParsedOrderEventLog.t)))
  (shareTokenBalancesByMarketAndOutcome : gmap string (gmap string BigNumber))
  (ignoreFinalizedMarkets : bool)
  (marketId : string) (marketDoc : MarketData.t)
  (outcomePLValues : list ProfitLossChangedLog.t) (outcome : string)
  (bucketTimestamp : Z) : MarketTradingPosition.t + TradingPosition.t :=
  let latestOutcomePLValue := getLastDocBeforeTimestamp outcomePLValues bucketTimestamp in
  let finalized := finalizedAt marketFinalizedByMarket marketId bucketTimestamp in
  let hasOutcomeValues :=
    bool_decide
      (is_Some (outcomeFills ordersFilledResultsByMarketAndOutcome marketId outcome))
    || finalized in
  match latestOutcomePLValue with
  | Some latestOutcomePLValue =>
      if negb hasOutcomeValues || (ignoreFinalizedMarkets && finalized)
      then inl (unvaluedBucketPosition bucketTimestamp)
      else
        let outcomeValue :=
          bucketOutcomeValue marketFinalizedByMarket ordersFilledResultsByMarketAndOutcome
                             marketId marketDoc latestOutcomePLValue outcome finalized
                             bucketTimestamp in
        inr (getTradingPositionFromProfitLossFrame
               latestOutcomePLValue marketDoc outcomeValue None bucketTimestamp
               (if finalized then Some shareTokenBalancesByMarketAndOutcome else None)
               finalized)
  | None => inl (unvaluedBucketPosition bucketTimestamp)
  end.

End BucketValuation.

(** ** Full-loss detector *)

(** lodash [_.reduce] over an array with the three-argument callback
    [(accumulator, value, index)]. *)
Fixpoint reduceWithIndex {A B : Type} (iteratee : B → A → nat → B)
  (array : list A) (accumulator : B) (index : nat) : B :=
  match array with
  | [] => accumulator
  | value :: rest => reduceWithIndex iteratee rest (iteratee accumulator value index) (S index)
  end.

(** The inner reduce of [getFullMarketPositionLoss]: the balance of outcome
    [index] is looked up under the key [`0x0${index}`] and is 0 when absent. *)
Definition totalPositionValue (payoutNumerators : list BigNumber)
  (outcomeBalance : gmap string BigNumber) : BigNumber :=
  reduceWithIndex
    (λ sum outcome index,
       let balance := default BigNumber.zero (outcomeBalance !! ("0x0" +:+ pretty index)) in
       BigNumber.plus sum (BigNumber.times balance outcome))
    payoutNumerators BigNumber.zero 0%nat.

(** The detector after its two queries: [finalizedMarketIds] are the markets
    of the finalization logs found for the positions, [markets] the market
    documents keyed by id.  Reading a property of [undefined] throws. *)
Fixpoint getFullMarketPositionLoss (finalizedMarketIds : list string)
  (markets : gmap string MarketData.t)
  (shareTokenBalancesByMarketAndOutcome : gmap string (gmap string BigNumber))
  (result : list string) : completion (list string) :=
  match finalizedMarketIds with
  | [] => Ok result
  | marketId :: rest =>
      match markets !! marketId with
      | None => Throw "TypeError"
      | Some marketDoc =>
          let payoutNumerators := default [] (MarketData.winningPayoutNumerators marketDoc) in
          match shareTokenBalancesByMarketAndOutcome !! marketId, payoutNumerators with
          | None, _ :: _ => Throw "TypeError"
          | outcomeBalance, _ =>
              getFullMarketPositionLoss rest markets shareTokenBalancesByMarketAndOutcome
                (if BigNumber.gt
                      (totalPositionValue payoutNumerators (default ∅ outcomeBalance))
                      BigNumber.zero
                 then result else result ++ [marketId])
          end
      end
  end.

(** ** Notions used to state the properties *)

(** The additive fold of one field over the inputs, from ["0"]. *)
Definition sumOf (field : MarketTradingPosition.t → BigNumber)
  (tradingPositions : list MarketTradingPosition.t) : BigNumber :=
  foldl (λ acc p, BigNumber.plus acc (field p)) BigNumber.zero tradingPositions.

(** The instants [start, start + interval, ...], [n] of them. *)
Definition bucketInstants (startTime interval : Z) (n : nat) : list Z :=
  map (λ k, startTime + Z.of_nat k * interval) (seq 0 n).


(** The same position record with its net position negated. *)
Definition negatePosition (profitLossFrame : ProfitLossChangedLog.t) : ProfitLossChangedLog.t :=
  {| ProfitLossChangedLog.market := ProfitLossChangedLog.market profitLossFrame;
     ProfitLossChangedLog.outcome := ProfitLossChangedLog.outcome profitLossFrame;
     ProfitLossChangedLog.timestamp := ProfitLossChangedLog.timestamp profitLossFrame;
     ProfitLossChangedLog.netPosition :=
       BigNumber.negated (ProfitLossChangedLog.netPosition profitLossFrame);
     ProfitLossChangedLog.avgPrice := ProfitLossChangedLog.avgPrice profitLossFrame;
     ProfitLossChangedLog.realizedProfit := ProfitLossChangedLog.realizedProfit profitLossFrame;
     ProfitLossChangedLog.realizedCost := ProfitLossChangedLog.realizedCost profitLossFrame;
     ProfitLossChangedLog.frozenFunds := ProfitLossChangedLog.frozenFunds profitLossFrame |}.

(** A binary market with prices 0 and 1 (on-chain [0] and [10^18]) and 100
    ticks, used in the examples. *)
Definition yesNoMarket : MarketData.t :=
  {| MarketData.market := "0xmarket";
     MarketData.prices := [BigNumber.zero; BigNumber.ofZ (10 ^ 18)];
     MarketData.numTicks := BigNumber.ofZ 100;
     MarketData.winningPayoutNumerators := None |}.

(** A long position of 10 shares at an average price of 0.40 in
    [yesNoMarket] (on-chain: [10^17] attoshares at 40 ticks), with nothing
    realized yet. *)
Definition longPosition : ProfitLossChangedLog.t :=
  {| ProfitLossChangedLog.market := "0xmarket";
     ProfitLossChangedLog.outcome := "0x01";
     ProfitLossChangedLog.timestamp := 1000;
     ProfitLossChangedLog.netPosition := BigNumber.ofZ (10 ^ 17);
     ProfitLossChangedLog.avgPrice := BigNumber.ofZ (40 * 10 ^ 18);
     ProfitLossChangedLog.realizedProfit := BigNumber.zero;
     ProfitLossChangedLog.realizedCost := BigNumber.zero;
     ProfitLossChangedLog.frozenFunds := BigNumber.ofZ (4 * 10 ^ 36) |}.

(** A position record with no shares and nothing realized: zero cost on
    both sides. *)
Definition emptyPosition : ProfitLossChangedLog.t :=
  {| ProfitLossChangedLog.market := "0xmarket";
     ProfitLossChangedLog.outcome := "0x01";
     ProfitLossChangedLog.timestamp := 1000;
     ProfitLossChangedLog.netPosition := BigNumber.zero;
     ProfitLossChangedLog.avgPrice := BigNumber.zero;
     ProfitLossChangedLog.realizedProfit := BigNumber.zero;
     ProfitLossChangedLog.realizedCost := BigNumber.zero;
     ProfitLossChangedLog.frozenFunds := BigNumber.zero |}.

(** The latest document at or before an instant: the last one, in the order
    of the sequence, whose timestamp does not exceed it. *)
Definition latestAtOrBefore {TDoc : Type} `{Timestamped TDoc}
  (docs : list TDoc) (timestamp : Z) : option TDoc :=
  last (filter (λ doc, timestampOf doc ≤ timestamp) docs).

(** Timestamps never decrease along the sequence. *)
Definition timestampMonotonic {TDoc : Type} `{Timestamped TDoc} (docs : list TDoc) : Prop :=
  StronglySorted (λ earlier later, timestampOf earlier ≤ timestampOf later) docs.

(** A fill of outcome [0x01] of [yesNoMarket] at 70 ticks, and the
    dictionaries of a query window in which that market also finalizes, at
    instant 3000. *)
Definition fillAt1500 : ParsedOrderEventLog.t :=
  {| ParsedOrderEventLog.market := "0xmarket";
     ParsedOrderEventLog.outcome := "0x01";
     ParsedOrderEventLog.timestamp := 1500;
     ParsedOrderEventLog.price := BigNumber.ofZ 70 |}.

Definition fillsInWindow : gmap string (gmap string (list ParsedOrderEventLog.t)) :=
  {[ "0xmarket" := {[ "0x01" := [fillAt1500] ]} ]}.

Definition finalizedAt3000 : gmap string MarketFinalizedLog.t :=
  {[ "0xmarket" :=
       {| MarketFinalizedLog.market := "0xmarket";
          MarketFinalizedLog.timestamp := 3000;
          MarketFinalizedLog.winningPayoutNumerators :=
            [BigNumber.zero; BigNumber.ofZ 100; BigNumber.zero] |} ]}.

(** A finite value that is not below zero. *)
Definition nonNegative (a : BigNumber) : bool :=
  match a with
  | Num q => bool_decide (0 ≤ q)%Qc
  | _ => false
  end.

(** Every tracked balance is a non-negative number. *)
Definition allNonNegative (userSharesBalances : gmap string BigNumber) : Prop :=
  map_Forall (λ _ balance, nonNegative balance = true) userSharesBalances.

(** A bid for 10 shares at 0.60 and an ask for 10 shares at 0.70, not yet
    estimated. *)
Definition bidOrder : Order.t :=
  {| Order.amount := BigNumber.ofZ 10;
     Order.price := BigNumber.ofDecimal 6 1;
     Order.tokensEscrowed := BigNumber.zero;
     Order.sharesEscrowed := BigNumber.zero |}.

Definition askOrder : Order.t :=
  {| Order.amount := BigNumber.ofZ 10;
     Order.price := BigNumber.ofDecimal 7 1;
     Order.tokensEscrowed := BigNumber.zero;
     Order.sharesEscrowed := BigNumber.zero |}.

(** Holdings of 4 and 7 shares in the two outcomes other than [0x01]. *)
Definition complementaryShares : gmap string BigNumber :=
  {[ "0x00" := BigNumber.ofZ 4; "0x02" := BigNumber.ofZ 7 ]}.

(** The number a finite value stands for (0 for the others). *)
Definition valueOf (a : BigNumber) : Qc :=
  match a with
  | Num q => q
  | _ => 0%Qc
  end.

(** The sum, over the outcomes from [index] on, of the outcome's balance
    times its payout numerator, as a rational number. *)
Fixpoint payoutSum (balanceOf : nat → Qc) (payoutNumerators : list Qc) (index : nat) : Qc :=
  match payoutNumerators with
  | [] => 0%Qc
  | numerator :: rest =>
      (balanceOf index * numerator + payoutSum balanceOf rest (S index))%Qc
  end.

(** The balance the detector reads for outcome [index]. *)
Definition outcomeBalanceAt (outcomeBalance : gmap string BigNumber) (index : nat) : BigNumber :=
  default BigNumber.zero (outcomeBalance !! ("0x0" +:+ pretty index)).

(** The value the detector computes for one market: the payout-weighted sum
    of the account's balances in it. *)
Definition marketPositionValue (markets : gmap string MarketData.t)
  (shareTokenBalancesByMarketAndOutcome : gmap string (gmap string BigNumber))
  (marketId : string) : BigNumber :=
  totalPositionValue
    (default [] (markets !! marketId ≫= MarketData.winningPayoutNumerators))
    (default ∅ (shareTokenBalancesByMarketAndOutcome !! marketId)).

(** The market documents and balances the detector works on are well formed
    for a finalized market: the document exists, the account has a balance
    entry for the market, and numerators and balances are non-negative
    numbers. *)
Definition finalizedMarketData (markets : gmap string MarketData.t)
  (shareTokenBalancesByMarketAndOutcome : gmap string (gmap string BigNumber))
  (marketId : string) : Prop :=
  ∃ marketDoc outcomeBalance,
    markets !! marketId = Some marketDoc
    ∧ shareTokenBalancesByMarketAndOutcome !! marketId = Some outcomeBalance
    ∧ Forall (λ numerator, nonNegative numerator = true)
             (default [] (MarketData.winningPayoutNumerators marketDoc))
    ∧ allNonNegative outcomeBalance.

(** [yesNoMarket] finalized with winning payout numerators [0, 1]. *)
Definition resolvedMarket : MarketData.t :=
  {| MarketData.market := "0xmarket";
     MarketData.prices := [BigNumber.zero; BigNumber.ofZ (10 ^ 18)];
     MarketData.numTicks := BigNumber.ofZ 100;
     MarketData.winningPayoutNumerators := Some [BigNumber.ofZ 0; BigNumber.ofZ 1] |}.

(** An account holding 5 shares of the losing outcome, and one holding 3
    shares of the winning outcome. *)
Definition losingShares : gmap string (gmap string BigNumber) :=
  {[ "0xmarket" := {[ "0x00" := BigNumber.ofZ 5; "0x01" := BigNumber.ofZ 0 ]} ]}.

Definition winningShares : gmap string (gmap string BigNumber) :=
  {[ "0xmarket" := {[ "0x00" := BigNumber.ofZ 0; "0x01" := BigNumber.ofZ 3 ]} ]}.

(** The amounts of a position before the finalization collapse, written
    from the formulas of the position calculator's description rather than
    read off a call of the calculator: profit and cost of a record are on the
    on-chain scale and are brought to display scale by two divisions by
    [10^18]; the average price and the valuation price go through the price
    converter, the net position through the amount converter. *)
Section PreCollapse.
Context `{SdkUtils}.
Variables (profitLossFrame : ProfitLossChangedLog.t) (marketDoc : MarketData.t).

Definition displayValue (onChain : BigNumber) : BigNumber :=
  BigNumber.dividedBy (BigNumber.dividedBy onChain tenToThe18) tenToThe18.

Definition marketTickSize : BigNumber :=
  numTicksToTickSize (MarketData.numTicks marketDoc)
                     (numberAt (MarketData.prices marketDoc) 0)
                     (numberAt (MarketData.prices marketDoc) 1).

Definition displayPrice (onChainPrice : BigNumber) : BigNumber :=
  convertOnChainPriceToDisplayPrice onChainPrice
    (numberAt (MarketData.prices marketDoc) 0) marketTickSize.

Definition preCollapseRealized : BigNumber :=
  displayValue (ProfitLossChangedLog.realizedProfit profitLossFrame).

Definition preCollapseRealizedCost : BigNumber :=
  displayValue (ProfitLossChangedLog.realizedCost profitLossFrame).

Definition preCollapseAveragePrice : BigNumber :=
  displayPrice (BigNumber.dividedBy (ProfitLossChangedLog.avgPrice profitLossFrame)
                                    tenToThe18).

(** [|netPosition| * (short ? avgPrice - lastPrice : lastPrice - avgPrice)]. *)
Definition preCollapseUnrealized (onChainOutcomeValue : BigNumber) : BigNumber :=
  let netPosition :=
    convertOnChainAmountToDisplayAmount
      (ProfitLossChangedLog.netPosition profitLossFrame) marketTickSize in
  let lastPrice := displayPrice onChainOutcomeValue in
  BigNumber.times (BigNumber.abs netPosition)
    (if BigNumber.isNegative (ProfitLossChangedLog.netPosition profitLossFrame)
     then BigNumber.minus preCollapseAveragePrice lastPrice
     else BigNumber.minus lastPrice preCollapseAveragePrice).

(** [|netPosition| * avgCost] with
    [avgCost = short ? numTicks - avgPrice : avgPrice], on the on-chain
    scale, then brought to display scale. *)
Definition preCollapseUnrealizedCost : BigNumber :=
  let avgPrice :=
    BigNumber.dividedBy (ProfitLossChangedLog.avgPrice profitLossFrame) tenToThe18 in
  let avgCost :=
    if BigNumber.isNegative (ProfitLossChangedLog.netPosition profitLossFrame)
    then BigNumber.minus (MarketData.numTicks marketDoc) avgPrice
    else avgPrice in
  BigNumber.dividedBy
    (BigNumber.times (BigNumber.abs (ProfitLossChangedLog.netPosition profitLossFrame))
                     avgCost)
    tenToThe18.

End PreCollapse.

(** A short position of 10 shares sold at 0.40 in [yesNoMarket], with 2
    tokens of profit already realized at a cost of 3. *)
Definition shortPosition : ProfitLossChangedLog.t :=
  {| ProfitLossChangedLog.market := "0xmarket";
     ProfitLossChangedLog.outcome := "0x01";
     ProfitLossChangedLog.timestamp := 1000;
     ProfitLossChangedLog.netPosition := BigNumber.ofZ (- 10 ^ 17);
     ProfitLossChangedLog.avgPrice := BigNumber.ofZ (40 * 10 ^ 18);
     ProfitLossChangedLog.realizedProfit := BigNumber.ofZ (2 * 10 ^ 36);
     ProfitLossChangedLog.realizedCost := BigNumber.ofZ (3 * 10 ^ 36);
     ProfitLossChangedLog.frozenFunds := BigNumber.ofZ (6 * 10 ^ 36) |}.

(** The least holding under the outcomes of a market other than [outcome],
    as the escrow estimator's description has it: the minimum is over all the
    other outcomes of the market, and an outcome the account holds nothing of
    counts as 0. *)
Definition leastOtherHolding (outcomes : list string)
  (userSharesBalances : gmap string BigNumber) (outcome : string) : BigNumber :=
  match omap (λ o, if decide (outcome = o) then None
                   else Some (default BigNumber.zero (userSharesBalances !! o)))
             outcomes with
  | first :: rest => BigNumber.min first rest
  | [] => BigNumber.zero
  end.

(** The three outcomes of [yesNoMarket], and an account that holds 7 shares
    of outcome [0x02] and has never held outcome [0x00]: the balance object
    has no entry for [0x00].  The same holdings with the zero written out. *)
Definition yesNoOutcomes : list string := ["0x00"; "0x01"; "0x02"].

Definition sharesOfOneOutcome : gmap string BigNumber :=
  {[ "0x02" := BigNumber.ofZ 7 ]}.

Definition sharesWithZeroEntry : gmap string BigNumber :=
  {[ "0x00" := BigNumber.ofZ 0; "0x02" := BigNumber.ofZ 7 ]}.

(** * Further functions of the getter *)

(** ** Log headers, grouping and the latest/prior reducers *)

(** The fields of a log document the grouping and reducing helpers read:
    its market and outcome, and the block number, log index and block hash
    of the [Log] interface. *)
Class MarketOutcomeLog (TDoc : Type) : Type := {
  marketOf : TDoc → string;
  outcomeOf : TDoc → string;
  blockNumberOf : TDoc → Z;
  logIndexOf : TDoc → Z;
  blockHashOf : TDoc → string
}.

(** A document together with the header every log carries. *)
Module Logged.
Record t (TDoc : Type) : Type := {
  blockNumber : Z;
  logIndex : Z;
  blockHash : string;
  doc : TDoc
}.
Arguments blockNumber {TDoc} _.
Arguments logIndex {TDoc} _.
Arguments blockHash {TDoc} _.
Arguments doc {TDoc} _.
End Logged.

#[global] Instance ProfitLossChangedLog_log : MarketOutcomeLog (Logged.t ProfitLossChangedLog.t) := {|
  marketOf d := ProfitLossChangedLog.market (Logged.doc d);
  outcomeOf d := ProfitLossChangedLog.outcome (Logged.doc d);
  blockNumberOf := Logged.blockNumber;
  logIndexOf := Logged.logIndex;
  blockHashOf := Logged.blockHash
|}.

#[global] Instance ParsedOrderEventLog_log : MarketOutcomeLog (Logged.t ParsedOrderEventLog.t) := {|
  marketOf d := ParsedOrderEventLog.market (Logged.doc d);
  outcomeOf d := ParsedOrderEventLog.outcome (Logged.doc d);
  blockNumberOf := Logged.blockNumber;
  logIndexOf := Logged.logIndex;
  blockHashOf := Logged.blockHash
|}.

#[global] Instance Logged_timestamped {TDoc : Type} `{Timestamped TDoc} : Timestamped (Logged.t TDoc) :=
  λ d, timestampOf (Logged.doc d).

(** lodash [_.groupBy]: the values of each key in their order of
    appearance. *)
Definition groupBy {A : Type} (iteratee : A → string) (collection : list A)
  : gmap string (list A) :=
  foldl (λ result value,
           <[iteratee value := default [] (result !! iteratee value) ++ [value]]> result)
        ∅ collection.

(** [a] comes strictly before [b] in (blockNumber, logIndex) order. *)
Definition logBefore {TDoc : Type} `{MarketOutcomeLog TDoc} (a b : TDoc) : bool :=
  (blockNumberOf a <? blockNumberOf b)
  || ((blockNumberOf a =? blockNumberOf b) && (logIndexOf a <? logIndexOf b)).

(** lodash [_.sortBy(docs, ['blockNumber', 'logIndex'])]: the stable
    ascending sort.  Each document is placed before the first document of
    the already sorted rest that does not come strictly before it, so
    documents with equal keys keep their order. *)
Fixpoint insertByLog {TDoc : Type} `{MarketOutcomeLog TDoc} (x : TDoc) (sorted : list TDoc)
  : list TDoc :=
  match sorted with
  | [] => [x]
  | y :: rest => if logBefore y x then y :: insertByLog x rest else x :: sorted
  end.

Definition sortByLog {TDoc : Type} `{MarketOutcomeLog TDoc} (docs : list TDoc) : list TDoc :=
  foldr insertByLog [] docs.

(** [outcomeField] is the projection named by the string argument of the
    source (always ['outcome']). *)
Definition groupDocumentsByMarketAndOutcome {TDoc : Type} `{MarketOutcomeLog TDoc}
  (docs : list TDoc) (outcomeField : TDoc → string) : gmap string (gmap string (list TDoc)) :=
  let byMarket := groupBy marketOf docs in
  (λ marketResult,
     let outcomeResultsInMarket := groupBy outcomeField marketResult in
     sortByLog <$> outcomeResultsInMarket) <$> byMarket.

(** The reducer of [reduceMarketAndOutcomeDocsToOnlyLatest] on one group:
    it starts from the first document and keeps the document with the
    greater (blockNumber, logIndex). *)
Definition latestOf {TDoc : Type} `{MarketOutcomeLog TDoc} (outcomeResults : list TDoc)
  : option TDoc :=
  foldl (λ latestResult outcomeResult,
           match latestResult with
           | None => Some outcomeResult
           | Some latest =>
               if (blockNumberOf latest <? blockNumberOf outcomeResult)
                  || ((blockNumberOf latest =? blockNumberOf outcomeResult)
                      && (logIndexOf latest <? logIndexOf outcomeResult))
               then Some outcomeResult
               else Some latest
           end)
        (head outcomeResults) outcomeResults.

Definition reduceMarketAndOutcomeDocsToOnlyLatest {TDoc : Type} `{MarketOutcomeLog TDoc}
  (docs : gmap string (gmap string (list TDoc))) : gmap string (gmap string (option TDoc)) :=
  (λ marketResults : gmap string (list TDoc), latestOf <$> marketResults) <$> docs.

(** [latest[outcomeResult.market][outcomeResult.outcome]]; reading a
    property of [undefined] throws. *)
Definition latestFor {TDoc : Type} `{MarketOutcomeLog TDoc}
  (latest : gmap string (gmap string (option TDoc))) (outcomeResult : TDoc) : option TDoc :=
  mjoin ((latest !! marketOf outcomeResult)
         ≫= (λ byOutcome : gmap string (option TDoc), byOutcome !! outcomeOf outcomeResult)).

(** The reducer of [reduceMarketAndOutcomeDocsToOnlyPriorLatest] on one
    group. *)
Definition priorLatestStep {TDoc : Type} `{MarketOutcomeLog TDoc}
  (latest : gmap string (gmap string (option TDoc)))
  (priorResult : option TDoc) (outcomeResult : TDoc) : completion (option TDoc) :=
  match latestFor latest outcomeResult with
  | None => Throw "TypeError"
  | Some endResult =>
      if String.eqb (blockHashOf endResult) (blockHashOf outcomeResult) then Ok priorResult
      else
        match priorResult with
        | None => Ok (Some outcomeResult)
        | Some prior =>
            let result := prior in
            let result :=
              if blockNumberOf prior <? blockNumberOf outcomeResult
              then outcomeResult else result in
            let result :=
              if (blockNumberOf prior =? blockNumberOf outcomeResult)
                 && (logIndexOf prior <? logIndexOf outcomeResult)
              then outcomeResult else result in
            let result :=
              if blockNumberOf endResult <? blockNumberOf result then prior else result in
            let result :=
              if (blockNumberOf endResult =? blockNumberOf result)
                 && (logIndexOf endResult <? logIndexOf result)
              then prior else result in
            Ok (Some result)
        end
  end.

Definition priorLatestOf {TDoc : Type} `{MarketOutcomeLog TDoc}
  (latest : gmap string (gmap string (option TDoc))) (outcomeResults : list TDoc)
  : completion (option TDoc) :=
  foldl (λ acc outcomeResult,
           match acc with
           | Throw message => Throw message
           | Ok priorResult => priorLatestStep latest priorResult outcomeResult
           end)
        (Ok (head outcomeResults)) outcomeResults.

(** ** Bucket schedule and period summary of the profit/loss getters *)

Definition ONE_DAY : Z := 1.
Definition DAYS_IN_MONTH : Z := 30.

(** [a || b] on an optional number: [undefined] and [0] are falsy. *)
Definition orElse (a : option Z) (b : Z) : Z :=
  match a with
  | Some a => if a =? 0 then b else a
  | None => b
  end.

(** The bucket instants of [getProfitLoss]: the guard on [startTime], the
    defaults of [endTime] and [periodInterval], and the call of the bucketer.
    [None] is an absent parameter, [now] the time of the chain. *)
Definition getProfitLossBuckets (fuel : nat) (now : Z)
  (startTime endTime periodInterval : option Z) : option (completion (list Z)) :=
  match startTime with
  | None => Some (Throw "'getProfitLoss' requires a 'startTime' param be provided")
  | Some startTime =>
      if startTime =? 0
      then Some (Throw "'getProfitLoss' requires a 'startTime' param be provided")
      else
        let endTime := orElse endTime now in
        let periodInterval :=
          match periodInterval with
          | None => ceilDiv (endTime - startTime) DEFAULT_NUMBER_OF_BUCKETS
          | Some periodInterval => periodInterval
          end in
        bucketRangeByInterval fuel startTime endTime (Some periodInterval)
  end.

(** The bucket instants [getProfitLossSummary] asks [getProfitLoss] for, for
    a period of [days] days. *)
Definition getProfitLossSummaryBuckets (fuel : nat) (now : Z) (endTime : option Z)
  (days : Z) : option (completion (list Z)) :=
  let endTime := orElse endTime now in
  let periodInterval := days * 60 * 60 * 24 in
  let startTime := endTime - periodInterval in
  getProfitLossBuckets fuel now (Some startTime) (Some endTime) (Some periodInterval).

(** The record [getProfitLossSummary] adds to the end of the period. *)
Definition negativeStartProfit (startProfit : MarketTradingPosition.t)
  : MarketTradingPosition.t :=
  {| MarketTradingPosition.timestamp := MarketTradingPosition.timestamp startProfit;
     MarketTradingPosition.realized := MarketTradingPosition.realized startProfit;
     MarketTradingPosition.unrealized := MarketTradingPosition.unrealized startProfit;
     MarketTradingPosition.unrealized24Hr := BigNumber.zero;
     MarketTradingPosition.frozenFunds := BigNumber.zero;
     MarketTradingPosition.marketId := "";
     MarketTradingPosition.total := BigNumber.zero;
     MarketTradingPosition.unrealizedCost := BigNumber.zero;
     MarketTradingPosition.realizedCost := BigNumber.zero;
     MarketTradingPosition.totalCost := BigNumber.zero;
     MarketTradingPosition.realizedPercent := BigNumber.zero;
     MarketTradingPosition.unrealizedPercent := BigNumber.zero;
     MarketTradingPosition.unrealized24HrPercent := BigNumber.zero;
     MarketTradingPosition.totalPercent := BigNumber.zero;
     MarketTradingPosition.currentValue := BigNumber.zero;
     MarketTradingPosition.userSharesBalances := ∅ |}.

(** One round of the loop of [getProfitLossSummary], from the series
    [getProfitLoss] returned: the destructuring
    [[startProfit, endProfit, ...rest]], the check on [rest], and the rollup
    of the end with the start.  Reading a field of an [undefined] element
    throws. *)
Definition summarizePeriod (profitLoss : list MarketTradingPosition.t)
  : completion MarketTradingPosition.t :=
  match profitLoss with
  | [] => Throw "TypeError"
  | [startProfit] => Throw "TypeError"
  | [startProfit; endProfit] =>
      Ok (sumTradingPositions [endProfit; negativeStartProfit startProfit])
  | startProfit :: endProfit :: _ :: _ =>
      Throw "PL calculation in summary returning more thant two bucket"
  end.

(** ** Display values of a prior position *)

(** The object [getDisplayValuesForPosition] returns; it becomes the
    [priorPosition] of a trading position. *)
Module PriorPosition.
Record t : Type := {
  unrealizedCost : BigNumber;
  avgPrice : BigNumber;
  netPosition : BigNumber
}.
End PriorPosition.

Section DisplayValues.
Context `{SdkUtils}.

Definition getDisplayValuesForPosition
  (profitLossFrame : ProfitLossChangedLog.t) (marketDoc : MarketData.t)
  : PriorPosition.t :=
  let minPrice := numberAt (MarketData.prices marketDoc) 0 in
  let maxPrice := numberAt (MarketData.prices marketDoc) 1 in
  let numTicks := MarketData.numTicks marketDoc in
  let tickSize := numTicksToTickSize numTicks minPrice maxPrice in
  let onChainAvgPrice :=
    BigNumber.dividedBy (ProfitLossChangedLog.avgPrice profitLossFrame) tenToThe18 in
  let onChainNetPosition := ProfitLossChangedLog.netPosition profitLossFrame in
  (* convert prior to display values *)
  let netPosition :=
    convertOnChainAmountToDisplayAmount
      (ProfitLossChangedLog.netPosition profitLossFrame) tickSize in
  let avgPrice := convertOnChainPriceToDisplayPrice onChainAvgPrice minPrice tickSize in
  let onChainAvgCost :=
    if BigNumber.isNegative onChainNetPosition
    then BigNumber.minus numTicks onChainAvgPrice
    else onChainAvgPrice in
  let onChainUnrealizedCost :=
    BigNumber.times (BigNumber.abs onChainNetPosition) onChainAvgCost in
  {| PriorPosition.unrealizedCost := BigNumber.dividedBy onChainUnrealizedCost tenToThe18;
     PriorPosition.avgPrice := avgPrice;
     PriorPosition.netPosition := netPosition |}.

End DisplayValues.

(** ** Open orders *)

(** The loop of [getUserOpenOrders] over the markets that have orders, in
    the iteration order of the order book: [markets] are the market
    documents by id and [positions] the per-market rollups of
    [getUserTradingPositions], whose share balances the orders of a market
    are estimated against (no balances when the market has no rollup).  The
    estimator reads the prices of the market document, which throws when the
    document is missing. *)
Fixpoint escrowOrdersByMarket (markets : gmap string MarketData.t)
  (positions : gmap string MarketTradingPosition.t)
  (orders : list (string * list (string * Z * Order.t))) (totalCost : BigNumber)
  : completion (list (string * list Order.t) * BigNumber) :=
  match orders with
  | [] => Ok ([], totalCost)
  | (marketId, marketOrders) :: rest =>
      let market := markets !! marketId in
      let marketPositions := positions !! marketId in
      let userSharesBalances :=
        match marketPositions with
        | Some marketPositions => MarketTradingPosition.userSharesBalances marketPositions
        | None => ∅
        end in
      match market, marketOrders with
      | None, _ :: _ => Throw "TypeError"
      | None, [] =>
          match escrowOrdersByMarket markets positions rest totalCost with
          | Ok (rest', total) => Ok ((marketId, []) :: rest', total)
          | Throw message => Throw message
          end
      | Some market, _ =>
          let '(marketOrders', _, totalCost') :=
            escrowMarketOrders market marketOrders userSharesBalances totalCost in
          match escrowOrdersByMarket markets positions rest totalCost' with
          | Ok (rest', total) => Ok ((marketId, marketOrders') :: rest', total)
          | Throw message => Throw message
          end
      end
  end.

(** [getUserOpenOrders] after its queries: the order book with the escrow
    fields written, and [totalOpenOrdersFrozenFunds]. *)
Definition getUserOpenOrders (orders : list (string * list (string * Z * Order.t)))
  (positions : gmap string MarketTradingPosition.t) (markets : gmap string MarketData.t)
  : completion (list (string * list Order.t) * BigNumber) :=
  match orders with
  | [] => Ok ([], BigNumber.zero)
  | _ => escrowOrdersByMarket markets positions orders BigNumber.zero
  end.

(** ** Account statistics *)

(** The local function [compareArrays] of [getAccountTimeRangedStats]: the
    flag starts at 1 and is cleared by every item of [lhs] that [rhs] does
    not hold at the same index. *)
Definition compareArrays (lhs rhs : list string) : Z :=
  reduceWithIndex
    (λ equal item index,
       if (length rhs <=? index)%nat || negb (bool_decide (rhs !! index = Some item))
       then 0 else equal)
    lhs 1 0%nat.

(** lodash [_.uniqWith]: a value is kept unless the comparator matches it
    with a value kept before. *)
Definition uniqWith {A : Type} (comparator : A → A → bool) (array : list A) : list A :=
  foldl (λ result value,
           if existsb (λ seen, comparator value seen) result
           then result else result ++ [value])
        [] array.

(** The fields of a fill the statistics read. *)
Module OrderEvent.
Record t : Type := {
  market : string;
  tradeGroupId : string
}.
End OrderEvent.

(** The three counts [getAccountTimeRangedStats] takes with [_.uniqWith],
    from the logs its queries returned. *)
Definition numberOfTrades (orderFilledLogs : list OrderEvent.t) : nat :=
  length (uniqWith (λ a b, bool_decide (OrderEvent.tradeGroupId a = OrderEvent.tradeGroupId b))
                   orderFilledLogs).

Definition marketsTraded (orderFilledLogs : list OrderEvent.t) : nat :=
  length (uniqWith (λ a b, bool_decide (OrderEvent.market a = OrderEvent.market b))
                   orderFilledLogs).

Definition positions (profitLossChangedLogs : list ProfitLossChangedLog.t) : nat :=
  length (uniqWith
            (λ a b, bool_decide (ProfitLossChangedLog.market a = ProfitLossChangedLog.market b)
                    && bool_decide (ProfitLossChangedLog.outcome a
                                    = ProfitLossChangedLog.outcome b))
            profitLossChangedLogs).

(** ** Frozen funds *)

(** [getTotalOnChainFrozenFunds] after its queries: [allProfitLossResults]
    are the latest profit/loss records of the account, one per market and
    outcome, [fullTotalLossMarketsPositions] the markets the full-loss
    detector flagged, [totalValidityBonds] the bonds of the markets the
    account created. *)
Definition getTotalOnChainFrozenFunds (allProfitLossResults : list ProfitLossChangedLog.t)
  (fullTotalLossMarketsPositions : list string) (totalValidityBonds : BigNumber)
  : BigNumber :=
  let frozenFunds :=
    BigNumber.dividedBy
      (foldl (λ value tradingPosition,
                if bool_decide (ProfitLossChangedLog.market tradingPosition
                                ∈ fullTotalLossMarketsPositions)
                then value
                else BigNumber.plus value (ProfitLossChangedLog.frozenFunds tradingPosition))
             BigNumber.zero allProfitLossResults)
      QUINTILLION in
  BigNumber.dividedBy (BigNumber.plus totalValidityBonds frozenFunds) QUINTILLION.

(** [frozenFundsTotal] of [getUserTradingPositions], from the same records. *)
Definition frozenFundsTotal (allProfitLossResults : list ProfitLossChangedLog.t)
  : BigNumber :=
  let frozenFundsTotal :=
    BigNumber.dividedBy
      (foldl (λ value tradingPosition,
                BigNumber.plus value (ProfitLossChangedLog.frozenFunds tradingPosition))
             BigNumber.zero allProfitLossResults)
      QUINTILLION in
  BigNumber.dividedBy frozenFundsTotal QUINTILLION.

(** ** The bucketed profit/loss series *)

(** A callback mapped over an array ([_.map], [_.mapValues]): the first
    call that throws ends the run. *)
Fixpoint traverse {A B : Type} (callback : A → completion B) (array : list A)
  : completion (list B) :=
  match array with
  | [] => Ok []
  | value :: rest =>
      match callback value with
      | Throw message => Throw message
      | Ok result =>
          match traverse callback rest with
          | Throw message => Throw message
          | Ok results => Ok (result :: results)
          end
      end
  end.

(** What the rollup reads of an element of [tradingPositions], which holds
    unvalued records and positions of the calculator alike. *)
Definition rollupInput (position : MarketTradingPosition.t + TradingPosition.t)
  : MarketTradingPosition.t :=
  match position with
  | inl unvalued => unvalued
  | inr valued => TradingPosition.asMarketTradingPosition valued
  end.

Section ProfitLossSeries.
Context `{SdkUtils}.
Variables (markets : gmap string MarketData.t)
          (marketFinalizedByMarket : gmap string MarketFinalizedLog.t)
          (ordersFilledResultsByMarketAndOutcome :
             gmap string (gmap string (list ParsedOrderEventLog.t)))
          (shareTokenBalancesByMarketAndOutcome : gmap string (gmap string BigNumber))
          (ignoreFinalizedMarkets : bool).

(** The callback of [getProfitLoss] for one outcome of one market, with the
    market document looked up under the market id.  Without a document the
    unvalued record is still returned where the callback returns early;
    past that point reading [marketDoc.prices] throws. *)
Definition profitLossOutcomeAt (marketId : string)
  (outcomePLValues : list ProfitLossChangedLog.t) (outcome : string)
  (bucketTimestamp : Z) : completion (MarketTradingPosition.t + TradingPosition.t) :=
  match markets !! marketId with
  | Some marketDoc =>
      Ok (bucketTradingPosition marketFinalizedByMarket
            ordersFilledResultsByMarketAndOutcome shareTokenBalancesByMarketAndOutcome
            ignoreFinalizedMarkets marketId marketDoc outcomePLValues outcome
            bucketTimestamp)
  | None =>
      let latestOutcomePLValue := getLastDocBeforeTimestamp outcomePLValues bucketTimestamp in
      let finalized := finalizedAt marketFinalizedByMarket marketId bucketTimestamp in
      let hasOutcomeValues :=
        bool_decide
          (is_Some (outcomeFills ordersFilledResultsByMarketAndOutcome marketId outcome))
        || finalized in
      match latestOutcomePLValue with
      | Some _ =>
          if negb hasOutcomeValues || (ignoreFinalizedMarkets && finalized)
          then Ok (inl (unvaluedBucketPosition bucketTimestamp))
          else Throw "TypeError"
      | None => Ok (inl (unvaluedBucketPosition bucketTimestamp))
      end
  end.

(** One point of the series: the callbacks over the profit/loss records
    grouped by market and outcome, in the iteration order of the two
    dictionaries, flattened and rolled up. *)
Definition profitLossAt
  (profitLossByMarketAndOutcome :
     list (string * list (string * list ProfitLossChangedLog.t)))
  (bucketTimestamp : Z) : completion MarketTradingPosition.t :=
  match
    traverse
      (λ byMarket : string * list (string * list ProfitLossChangedLog.t),
         traverse
           (λ byOutcome : string * list ProfitLossChangedLog.t,
              profitLossOutcomeAt byMarket.1 byOutcome.2 byOutcome.1 bucketTimestamp)
           byMarket.2)
      profitLossByMarketAndOutcome
  with
  | Ok tradingPositionsByMarketAndOutcome =>
      let tradingPositions := concat tradingPositionsByMarketAndOutcome in
      Ok (sumTradingPositions (rollupInput <$> tradingPositions))
  | Throw message => Throw message
  end.

(** The series over the bucket instants. *)
Definition profitLossSeries
  (profitLossByMarketAndOutcome :
     list (string * list (string * list ProfitLossChangedLog.t)))
  (buckets : list Z) : completion (list MarketTradingPosition.t) :=
  traverse (profitLossAt profitLossByMarketAndOutcome) buckets.

End ProfitLossSeries.

(** ** Positions of [getUserTradingPositions] *)

(** A market document as [getUserTradingPositions] reads it: the fields the
    calculator uses, the tentative winning payout numerators, and whether
    [reportingState] is [MarketReportingState.AwaitingFinalization]. *)
Module MarketDocument.
Record t : Type := {
  data : MarketData.t;
  tentativeWinningPayoutNumerators : option (list BigNumber);
  awaitingFinalization : bool
}.
End MarketDocument.

(** [d[market] && d[market][outcome]] on a dictionary keyed by market and
    outcome. *)
Definition atMarketAndOutcome {A : Type} (documents : gmap string (gmap string A))
  (market outcome : string) : option A :=
  documents !! market ≫= (λ byOutcome : gmap string A, byOutcome !! outcome).

(** [numerators[new BigNumber(outcome).toNumber()]] as a number. *)
Definition numeratorOf (numerators : list BigNumber) (outcome : string) : BigNumber :=
  default NaN (BigNumber.toIndex (BigNumber.ofString outcome)
               ≫= (λ i : nat, numerators !! i)).

Section TradingPositions.
Context `{SdkUtils}.
Variables (markets : gmap string MarketDocument.t)
          (marketFinalizedByMarket : gmap string MarketFinalizedLog.t)
          (ordersFilledResultsByMarketAndOutcome
           allOrdersFilledResultsByMarketAndOutcome
           last24HrFilledOrdersFilledResultsByMarketAndOutcome :
             gmap string (gmap string ParsedOrderEventLog.t))
          (profitLossResultsByMarketAndOutcomePrior :
             gmap string (gmap string ProfitLossChangedLog.t))
          (shareTokenBalancesByMarketAndOutcome : gmap string (gmap string BigNumber)).

(** The callback that maps the latest profit/loss record of an outcome to a
    trading position: [None] is [null], the second component the
    [priorPosition].  Reading a field of a missing document throws. *)
Definition tradingPositionOf (profitLossResult : ProfitLossChangedLog.t)
  : completion (option (TradingPosition.t * option PriorPosition.t)) :=
  let market := ProfitLossChangedLog.market profitLossResult in
  let outcome := ProfitLossChangedLog.outcome profitLossResult in
  let marketDoc := markets !! market in
  match atMarketAndOutcome ordersFilledResultsByMarketAndOutcome market outcome with
  | None => Ok None
  | Some _ =>
      let outcomeValue24Hr :=
        ParsedOrderEventLog.price
        <$> atMarketAndOutcome last24HrFilledOrdersFilledResultsByMarketAndOutcome
              market outcome in
      match atMarketAndOutcome allOrdersFilledResultsByMarketAndOutcome market outcome,
            marketDoc with
      | None, _ => Throw "TypeError"
      | _, None => Throw "TypeError"
      | Some latestFill, Some marketDoc =>
          let outcomeValue := ParsedOrderEventLog.price latestFill in
          let outcomeValue :=
            match marketFinalizedByMarket !! market with
            | Some marketFinalized =>
                numeratorOf (MarketFinalizedLog.winningPayoutNumerators marketFinalized)
                            outcome
            | None =>
                match MarketDocument.tentativeWinningPayoutNumerators marketDoc with
                | Some tentativeWinningPayoutNumerators =>
                    if MarketDocument.awaitingFinalization marketDoc
                    then numeratorOf tentativeWinningPayoutNumerators outcome
                    else outcomeValue
                | None => outcomeValue
                end
            end in
          (* net position is 0, must have claimed, get prior order for display use *)
          let priorPosition :=
            if BigNumber.eq (ProfitLossChangedLog.netPosition profitLossResult)
                            BigNumber.zero
            then
              match atMarketAndOutcome profitLossResultsByMarketAndOutcomePrior
                      market outcome with
              | Some prior =>
                  Some (getDisplayValuesForPosition prior (MarketDocument.data marketDoc))
              | None => None
              end
            else None in
          Ok (Some (getTradingPositionFromProfitLossFrame
                      profitLossResult (MarketDocument.data marketDoc) outcomeValue
                      outcomeValue24Hr (ProfitLossChangedLog.timestamp profitLossResult)
                      (Some shareTokenBalancesByMarketAndOutcome)
                      (bool_decide (is_Some (marketFinalizedByMarket !! market))),
                    priorPosition))
      end
  end.

(** The rollup of one market: the positions of its outcomes that are not
    [null], summed. *)
Definition marketTradingPosition
  (profitLossResultsByOutcome : list (string * ProfitLossChangedLog.t))
  : completion MarketTradingPosition.t :=
  match traverse (λ byOutcome : string * ProfitLossChangedLog.t,
                    tradingPositionOf byOutcome.2)
                 profitLossResultsByOutcome with
  | Ok tradingPositionsByOutcome =>
      let tradingPositions :=
        omap (λ position : option (TradingPosition.t * option PriorPosition.t),
                TradingPosition.asMarketTradingPosition <$> (fst <$> position))
             tradingPositionsByOutcome in
      Ok (sumTradingPositions tradingPositions)
  | Throw message => Throw message
  end.

End TradingPositions.

(** ** Notions used to state the further properties *)

(** A non-empty list or nothing: how a group shows up under a key. *)
Definition groupOf {A : Type} (docs : list A) : option (list A) :=
  match docs with
  | [] => None
  | _ => Some docs
  end.

(** [a] does not come after [b] in (blockNumber, logIndex) order: the order
    the groups are sorted by. *)
Definition logNotAfter {TDoc : Type} `{MarketOutcomeLog TDoc} (a b : TDoc) : Prop :=
  logBefore b a = false.

(** The position record [longPosition] logged at a block and log index. *)
Definition loggedAt (blockNumber logIndex : Z) (blockHash : string)
  : Logged.t ProfitLossChangedLog.t :=
  {| Logged.blockNumber := blockNumber;
     Logged.logIndex := logIndex;
     Logged.blockHash := blockHash;
     Logged.doc := longPosition |}.

(** A document that may stand as the prior of the latest document [e]: it
    is from another block (by hash) and does not come after [e]. *)
Definition eligiblePrior {TDoc : Type} `{MarketOutcomeLog TDoc} (e d : TDoc) : Prop :=
  blockHashOf d ≠ blockHashOf e ∧ logNotAfter d e.

(** Three records of one position: two in block 1 and one in block 2,
    listed out of order. *)
Definition threeRecords : list (Logged.t ProfitLossChangedLog.t) :=
  [loggedAt 2 0 "0xb2"; loggedAt 1 1 "0xb1"; loggedAt 1 0 "0xb1"].

(** The figures of a rollup: the seven sums and the six derived fields,
    that is every field but the timestamp, the market id and the share
    balances. *)
Definition amounts (p : MarketTradingPosition.t) : list BigNumber :=
  [ MarketTradingPosition.frozenFunds p;
    MarketTradingPosition.realized p;
    MarketTradingPosition.unrealized p;
    MarketTradingPosition.unrealized24Hr p;
    MarketTradingPosition.total p;
    MarketTradingPosition.unrealizedCost p;
    MarketTradingPosition.realizedCost p;
    MarketTradingPosition.totalCost p;
    MarketTradingPosition.realizedPercent p;
    MarketTradingPosition.unrealizedPercent p;
    MarketTradingPosition.unrealized24HrPercent p;
    MarketTradingPosition.totalPercent p;
    MarketTradingPosition.currentValue p ].

(** A rollup input with the given realized and unrealized profit and the
    given costs. *)
Definition positionOf (realized unrealized realizedCost unrealizedCost : Z)
  : MarketTradingPosition.t :=
  {| MarketTradingPosition.timestamp := 1000;
     MarketTradingPosition.frozenFunds := BigNumber.ofZ 1;
     MarketTradingPosition.marketId := "0xmarket";
     MarketTradingPosition.realized := BigNumber.ofZ realized;
     MarketTradingPosition.unrealized := BigNumber.ofZ unrealized;
     MarketTradingPosition.unrealized24Hr := BigNumber.zero;
     MarketTradingPosition.total := BigNumber.zero;
     MarketTradingPosition.unrealizedCost := BigNumber.ofZ unrealizedCost;
     MarketTradingPosition.realizedCost := BigNumber.ofZ realizedCost;
     MarketTradingPosition.totalCost := BigNumber.zero;
     MarketTradingPosition.realizedPercent := BigNumber.zero;
     MarketTradingPosition.unrealizedPercent := BigNumber.zero;
     MarketTradingPosition.unrealized24HrPercent := BigNumber.zero;
     MarketTradingPosition.totalPercent := BigNumber.zero;
     MarketTradingPosition.currentValue := BigNumber.ofZ unrealized;
     MarketTradingPosition.userSharesBalances := ∅ |}.

(** The sum of a list of values, from 0. *)
Definition totalOf (values : list BigNumber) : BigNumber :=
  foldl BigNumber.plus BigNumber.zero values.

(** The order's price is a number inside the market's display price range. *)
Definition pricedWithin (market : MarketData.t) (order : Order.t) : Prop :=
  ∃ displayMinPrice displayMaxPrice price : Qc,
    BigNumber.dividedBy (numberAt (MarketData.prices market) 0) QUINTILLION
    = Num displayMinPrice
    ∧ BigNumber.dividedBy (numberAt (MarketData.prices market) 1) QUINTILLION
      = Num displayMaxPrice
    ∧ Order.price order = Num price
    ∧ (displayMinPrice ≤ price)%Qc ∧ (price ≤ displayMaxPrice)%Qc.

(** The order as entered and as estimated: same amount, same price. *)
Definition sameOrder (entered estimated : Order.t) : Prop :=
  Order.amount estimated = Order.amount entered
  ∧ Order.price estimated = Order.price entered.

(** What the full-loss detector needs to read for a finalized market
    without throwing: the market document, and the account's balance entry
    for the market unless the document has no winning payout numerators. *)
Definition readableMarket (markets : gmap string MarketData.t)
  (shareTokenBalancesByMarketAndOutcome : gmap string (gmap string BigNumber))
  (marketId : string) : Prop :=
  is_Some (markets !! marketId)
  ∧ (is_Some (shareTokenBalancesByMarketAndOutcome !! marketId)
     ∨ default [] (markets !! marketId ≫= MarketData.winningPayoutNumerators) = []).

(** The figures of a point of the series, when the point was computed. *)
Definition figures (point : completion MarketTradingPosition.t)
  : completion (list BigNumber) :=
  match point with
  | Ok position => Ok (amounts position)
  | Throw message => Throw message
  end.

(** No record of the group is at or before the instant when the group is
    read from its first record on: the group is empty or its first record is
    later. *)
Definition startsAfter (bucketTimestamp : Z) (outcomePLValues : list ProfitLossChangedLog.t)
  : Prop :=
  match outcomePLValues with
  | [] => True
  | first :: _ => bucketTimestamp < ProfitLossChangedLog.timestamp first
  end.

(** [resolvedMarket] as read by [getUserTradingPositions], and the latest
    fill of its outcome [0x01]. *)
Definition resolvedMarketDocument : MarketDocument.t :=
  {| MarketDocument.data := resolvedMarket;
     MarketDocument.tentativeWinningPayoutNumerators := None;
     MarketDocument.awaitingFinalization := false |}.

Definition latestFills : gmap string (gmap string ParsedOrderEventLog.t) :=
  {[ "0xmarket" := {[ "0x01" := fillAt1500 ]} ]}.

(** [emptyPosition] after the long position was closed: the prior record of
    the outcome is [longPosition]. *)
Definition priorRecords : gmap string (gmap string ProfitLossChangedLog.t) :=
  {[ "0xmarket" := {[ "0x01" := longPosition ]} ]}.
(** * Properties *)

Example ofString_hex : BigNumber.ofString "0x0a" = BigNumber.ofZ 10.
Proof. bn_decide. Qed.

Example toFixed_ties_away :
  BigNumber.toFixed 4 (BigNumber.ofDecimal (-123455) 5) = BigNumber.ofDecimal (-12346) 4.
Proof. bn_decide. Qed.

Example dividedBy_third :
  BigNumber.toFixed 4 (BigNumber.dividedBy (BigNumber.ofZ 2) (BigNumber.ofZ 3))
  = BigNumber.ofDecimal 6667 4.
Proof. bn_decide. Qed.

(** ** Facts about bignumber.js values *)

Module BigNumberFacts.

Local Open Scope Qc_scope.

Lemma zero_Num : BigNumber.zero = Num 0.
Proof. bn_decide. Qed.

Lemma Qcopp_0 : - 0 = 0 :> Qc.
Proof. ring. Qed.

Lemma Qcopp_eq_0 (y : Qc) : - y = 0 ↔ y = 0.
Proof.
  split; intros Hy.
  - rewrite <- (Qcopp_involutive y), Hy. ring.
  - rewrite Hy. ring.
Qed.

Lemma Qcopp_lt_0 (y : Qc) : - y < 0 ↔ 0 < y.
Proof.
  rewrite Qclt_minus_iff. replace (0 + - - y) with y by ring. reflexivity.
Qed.

Lemma Qcopp_neg_flip (y : Qc) :
  y ≠ 0 → bool_decide (- y < 0) = negb (bool_decide (y < 0)).
Proof.
  intros Hy. destruct (Qclt_le_dec y 0) as [Hlt|Hge].
  - rewrite (bool_decide_eq_true_2 _ Hlt). simpl. apply bool_decide_eq_false_2.
    rewrite Qcopp_lt_0. apply Qcle_not_lt, Qclt_le_weak, Hlt.
  - rewrite (bool_decide_eq_false_2 (y < 0)) by (apply Qcle_not_lt, Hge). simpl.
    apply bool_decide_eq_true_2, Qcopp_lt_0.
    destruct (Qcle_lt_or_eq _ _ Hge) as [Hlt|Heq]; [exact Hlt|congruence].
Qed.

Lemma negated_involutive (a : BigNumber) : BigNumber.negated (BigNumber.negated a) = a.
Proof.
  destruct a as [q|s|]; simpl; [|destruct s|]; try reflexivity.
  f_equal. apply Qcopp_involutive.
Qed.

Lemma abs_negated (a : BigNumber) : BigNumber.abs (BigNumber.negated a) = BigNumber.abs a.
Proof. destruct a; simpl; [f_equal; apply Qcabs_opp|reflexivity|reflexivity]. Qed.

(** [x - y] and [y - x] are negations of each other, infinities and NaN
    included. *)
Lemma minus_antisym (x y : BigNumber) :
  BigNumber.minus x y = BigNumber.negated (BigNumber.minus y x).
Proof.
  destruct x as [p|s|], y as [q|t|]; simpl; try reflexivity.
  - f_equal. ring.
  - rewrite negb_involutive. reflexivity.
  - destruct s, t; reflexivity.
Qed.

Lemma times_negated_r (a b : BigNumber) :
  BigNumber.times a (BigNumber.negated b) = BigNumber.negated (BigNumber.times a b).
Proof.
  destruct a as [p|s|], b as [q|t|]; simpl; try reflexivity.
  - f_equal. ring.
  - case_bool_decide; [reflexivity|]. simpl. destruct t, (bool_decide (p < 0)); reflexivity.
  - destruct (decide (q = 0)) as [->|Hq].
    + rewrite Qcopp_0. rewrite bool_decide_eq_true_2 by reflexivity. reflexivity.
    + rewrite (bool_decide_eq_false_2 (- q = 0)) by (rewrite Qcopp_eq_0; exact Hq).
      rewrite (bool_decide_eq_false_2 (q = 0)) by exact Hq.
      rewrite Qcopp_neg_flip by exact Hq. simpl.
      destruct s, (bool_decide (q < 0)); reflexivity.
  - destruct s, t; reflexivity.
Qed.

(** A value and its negation are never both negative; if neither is, the
    value is zero or NaN. *)
Lemma isNegative_negated (n : BigNumber) :
  BigNumber.isNegative n = true → BigNumber.isNegative (BigNumber.negated n) = false.
Proof.
  destruct n as [q|s|]; simpl; [|intros ->; reflexivity|discriminate].
  intros Hq. apply bool_decide_eq_true_1 in Hq. apply bool_decide_eq_false_2.
  rewrite Qcopp_lt_0. apply Qcle_not_lt, Qclt_le_weak, Hq.
Qed.

Lemma not_negative_both (n : BigNumber) :
  BigNumber.isNegative n = false → BigNumber.isNegative (BigNumber.negated n) = false →
  n = Num 0 ∨ n = NaN.
Proof.
  destruct n as [q|s|]; simpl; [|destruct s; discriminate|right; reflexivity].
  intros H1 H2. left. f_equal.
  apply bool_decide_eq_false_1 in H1. apply bool_decide_eq_false_1 in H2.
  rewrite Qcopp_lt_0 in H2.
  apply Qcle_antisym; [apply Qcnot_lt_le, H2|apply Qcnot_lt_le, H1].
Qed.

Lemma self_negated (c : BigNumber) :
  c = BigNumber.negated c → c = Num 0 ∨ c = NaN.
Proof.
  destruct c as [q|s|]; simpl; [|destruct s; discriminate|right; reflexivity].
  intros Hq. injection Hq as Hq. left. f_equal.
  assert (q + q = 0) as Hqq by (rewrite Hq at 1; ring).
  destruct (decide (q = 0)) as [|Hne]; [assumption|].
  exfalso. apply Hne.
  rewrite Qcplus_diag in Hqq. apply Qcmult_integral in Hqq as [H2|]; [|assumption].
  assert (bool_decide ((2 : Qc) = 0) = false) as Hd by (vm_compute; reflexivity).
  apply bool_decide_eq_false_1 in Hd. contradiction.
Qed.

Lemma times_zero_or_NaN (c x : BigNumber) :
  c = Num 0 ∨ c = NaN →
  BigNumber.negated (BigNumber.times c x) = BigNumber.times c x.
Proof.
  intros [->| ->]; [|reflexivity].
  destruct x as [q|s|]; simpl; try reflexivity.
  f_equal. ring.
Qed.

(** Rounding is symmetric about zero. *)
Lemma roundHalfUp_opp (dp : nat) (q : Qc) :
  BigNumber.roundHalfUp dp (- q) = - BigNumber.roundHalfUp dp q.
Proof.
  unfold BigNumber.roundHalfUp.
  assert (Habs : (Qabs (this (- q)) == Qabs (this q))%Q).
  { simpl. rewrite Qred_correct. apply Qabs_opp. }
  rewrite (Qfloor_comp _ _ (Qplus_comp _ _ (Qmult_comp _ _ Habs _ _ (Qeq_refl _)) _ _ (Qeq_refl _))).
  set (m := Q2Qc (Qmake (Qfloor _) _)).
  destruct (decide (q = 0)) as [->|Hq].
  - assert (Hm : m = 0).
    { subst m. apply Qc_is_canon. simpl. rewrite Qred_correct.
      unfold Qeq. simpl. reflexivity. }
    rewrite Hm, !Qcopp_0. destruct (bool_decide (0 ≤ 0)); symmetry; apply Qcopp_0.
  - destruct (Qclt_le_dec q 0) as [Hlt|Hge].
    + rewrite (bool_decide_eq_false_2 (0 ≤ q)) by (apply Qclt_not_le, Hlt).
      rewrite bool_decide_eq_true_2; [rewrite Qcopp_involutive; reflexivity|].
      apply Qclt_le_weak, Qcopp_lt_0. rewrite Qcopp_involutive. exact Hlt.
    + rewrite (bool_decide_eq_true_2 (0 ≤ q)) by exact Hge.
      rewrite bool_decide_eq_false_2; [reflexivity|].
      apply Qclt_not_le, Qcopp_lt_0.
      destruct (Qcle_lt_or_eq _ _ Hge) as [Hlt|Heq]; [exact Hlt|congruence].
Qed.

Lemma dividedBy_negated_l (a b : BigNumber) :
  BigNumber.dividedBy (BigNumber.negated a) b = BigNumber.negated (BigNumber.dividedBy a b).
Proof.
  destruct a as [p|s|], b as [q|t|];
    unfold BigNumber.dividedBy, BigNumber.negated; try reflexivity.
  - case_bool_decide as Hq.
    + destruct (decide (p = 0)) as [->|Hp].
      * rewrite Qcopp_0. rewrite bool_decide_eq_true_2 by reflexivity. reflexivity.
      * rewrite (bool_decide_eq_false_2 (- p = 0)) by (rewrite Qcopp_eq_0; exact Hp).
        rewrite (bool_decide_eq_false_2 (p = 0)) by exact Hp.
        rewrite Qcopp_neg_flip by exact Hp. reflexivity.
    + f_equal. rewrite <- roundHalfUp_opp. f_equal. unfold Qcdiv. ring.
  - destruct s, (bool_decide (q < 0)); reflexivity.
Qed.

(** Multiplying zero by anything gives zero or NaN. *)
Lemma times_zero_l (x : BigNumber) :
  BigNumber.times (Num 0) x = Num 0 ∨ BigNumber.times (Num 0) x = NaN.
Proof.
  destruct x as [q|s|]; simpl; [left; f_equal; ring|right; reflexivity|right; reflexivity].
Qed.

(** Dividing by zero or by NaN never gives a finite value. *)
Lemma dividedBy_zero_not_finite (x d : BigNumber) :
  d = Num 0 ∨ d = NaN → BigNumber.isFinite (BigNumber.dividedBy x d) = false.
Proof.
  intros [-> | ->]; destruct x as [q|s|]; simpl; try reflexivity.
  repeat case_bool_decide; reflexivity.
Qed.

Lemma toFixed_not_finite (dp : nat) (x : BigNumber) :
  BigNumber.isFinite x = false → BigNumber.isFinite (BigNumber.toFixed dp x) = false.
Proof. destruct x; simpl; [discriminate|reflexivity|reflexivity]. Qed.

(** Order on finite values. *)
Lemma lte_Num (p q : Qc) : BigNumber.lte (Num p) (Num q) = true ↔ p ≤ q.
Proof.
  unfold BigNumber.lte, BigNumber.comparedTo. rewrite Qcle_alt.
  destruct (p ?= q); naive_solver.
Qed.

Lemma gt_Num (p q : Qc) : BigNumber.gt (Num p) (Num q) = true ↔ q < p.
Proof.
  unfold BigNumber.gt, BigNumber.comparedTo. change (q < p) with (p > q). rewrite Qcgt_alt.
  destruct (p ?= q); naive_solver.
Qed.

Lemma min2_Num (p q : Qc) :
  BigNumber.min2 (Num p) (Num q) = Num (if decide (p ≤ q) then p else q).
Proof.
  unfold BigNumber.min2, BigNumber.comparedTo. destruct (decide (p ≤ q)) as [Hle|Hgt].
  - apply (proj1 (Qcle_alt p q)) in Hle. revert Hle. destruct (p ?= q); intros Hle; [reflexivity..|].
    exfalso. apply Hle. reflexivity.
  - apply Qcnot_le_lt in Hgt. change (q < p) with (p > q) in Hgt.
    apply (proj1 (Qcgt_alt p q)) in Hgt. rewrite Hgt. reflexivity.
Qed.

Lemma min2_Num_le_l (p q : Qc) : ∃ s, BigNumber.min2 (Num p) (Num q) = Num s ∧ s ≤ p ∧ s ≤ q.
Proof.
  rewrite min2_Num. destruct (decide (p ≤ q)) as [Hle|Hgt]; eexists; split; try reflexivity.
  - split; [apply Qcle_refl|exact Hle].
  - split; [apply Qclt_le_weak, Qcnot_le_lt, Hgt|apply Qcle_refl].
Qed.

(** [BigNumber.min] of finite values is one of them and is below all of
    them. *)
Lemma min_finite (first : BigNumber) (rest : list BigNumber) :
  Forall (λ v, BigNumber.isFinite v = true) (first :: rest) →
  ∃ m, BigNumber.min first rest = Num m
       ∧ Num m ∈ first :: rest
       ∧ Forall (λ v, BigNumber.lte (Num m) v = true) (first :: rest).
Proof.
  revert first. induction rest as [|x rest IH]; intros first Hfin.
  - apply Forall_cons in Hfin as [Hfirst _].
    destruct first as [p| |]; try discriminate.
    exists p. split; [reflexivity|]. split; [apply list_elem_of_here|].
    constructor; [|constructor]. apply lte_Num, Qcle_refl.
  - apply Forall_cons in Hfin as [Hfirst Hrest].
    apply Forall_cons in Hrest as [Hx Hrest].
    destruct first as [p| |]; try discriminate.
    destruct x as [q| |]; try discriminate.
    unfold BigNumber.min. simpl. fold (BigNumber.min (BigNumber.min2 (Num p) (Num q)) rest).
    destruct (min2_Num_le_l p q) as (s & Hs & Hsp & Hsq).
    assert (Hin : Num s = Num p ∨ Num s = Num q).
    { rewrite min2_Num in Hs. injection Hs as <-. destruct (decide (p ≤ q)); auto. }
    rewrite Hs.
    destruct (IH (Num s)) as (m & Hm & Hmem & Hall).
    { constructor; [reflexivity|exact Hrest]. }
    exists m. split; [exact Hm|].
    apply Forall_cons in Hall as [Hms Hall]. apply lte_Num in Hms.
    split.
    + apply elem_of_cons in Hmem as [Hmem|Hmem].
      * rewrite Hmem. destruct Hin as [-> | ->];
          [apply list_elem_of_here|apply list_elem_of_further, list_elem_of_here].
      * do 2 apply list_elem_of_further. exact Hmem.
    + constructor; [apply lte_Num; eapply Qcle_trans; eassumption|].
      constructor; [apply lte_Num; eapply Qcle_trans; eassumption|exact Hall].
Qed.

Lemma nonNegative_Num (a : BigNumber) :
  nonNegative a = true ↔ ∃ q, a = Num q ∧ 0 ≤ q.
Proof.
  destruct a as [q|s|]; simpl.
  - rewrite bool_decide_eq_true. split; [eauto|]. intros (q' & [= <-] & Hq). exact Hq.
  - split; [discriminate|]. intros (? & [=] & _).
  - split; [discriminate|]. intros (? & [=] & _).
Qed.

Lemma zero_nonNegative : nonNegative BigNumber.zero = true.
Proof. reflexivity. Qed.

(** Taking away no more than is there leaves a non-negative number. *)
Lemma minus_nonNegative (v s : Qc) :
  s ≤ v → nonNegative (BigNumber.minus (Num v) (Num s)) = true.
Proof.
  intros Hle. simpl. apply bool_decide_eq_true_2.
  apply Qcle_minus_iff in Hle. exact Hle.
Qed.

(** Comparison with zero. *)
Lemma eq_zero (a : BigNumber) : BigNumber.eq a BigNumber.zero = true ↔ a = BigNumber.zero.
Proof.
  rewrite zero_Num. unfold BigNumber.eq. destruct a as [q|s|]; simpl.
  - destruct (q ?= 0) eqn:Hc; split; intros Hq; try discriminate.
    + f_equal. apply Qceq_alt, Hc.
    + reflexivity.
    + injection Hq as ->. rewrite (proj1 (Qceq_alt 0 0) eq_refl) in Hc. discriminate.
    + injection Hq as ->. rewrite (proj1 (Qceq_alt 0 0) eq_refl) in Hc. discriminate.
  - destruct s; split; discriminate.
  - split; discriminate.
Qed.

End BigNumberFacts.

(** ** Rollup aggregator *)

Section RollupFold.

(** The reducer keeps each summed field equal to the running sum of that
    field, whatever the accumulator it started from. *)
Lemma foldl_sumStep_fields (ps : list MarketTradingPosition.t) (acc : MarketTradingPosition.t) :
  let r := foldl sumStep acc ps in
  MarketTradingPosition.frozenFunds r
    = foldl (λ a p, BigNumber.plus a (MarketTradingPosition.frozenFunds p))
            (MarketTradingPosition.frozenFunds acc) ps
  ∧ MarketTradingPosition.realized r
    = foldl (λ a p, BigNumber.plus a (MarketTradingPosition.realized p))
            (MarketTradingPosition.realized acc) ps
  ∧ MarketTradingPosition.unrealized r
    = foldl (λ a p, BigNumber.plus a (MarketTradingPosition.unrealized p))
            (MarketTradingPosition.unrealized acc) ps
  ∧ MarketTradingPosition.unrealized24Hr r
    = foldl (λ a p, BigNumber.plus a (MarketTradingPosition.unrealized24Hr p))
            (MarketTradingPosition.unrealized24Hr acc) ps
  ∧ MarketTradingPosition.realizedCost r
    = foldl (λ a p, BigNumber.plus a (MarketTradingPosition.realizedCost p))
            (MarketTradingPosition.realizedCost acc) ps
  ∧ MarketTradingPosition.unrealizedCost r
    = foldl (λ a p, BigNumber.plus a (MarketTradingPosition.unrealizedCost p))
            (MarketTradingPosition.unrealizedCost acc) ps
  ∧ MarketTradingPosition.currentValue r
    = foldl (λ a p, BigNumber.plus a (MarketTradingPosition.currentValue p))
            (MarketTradingPosition.currentValue acc) ps.
Proof.
  revert acc. induction ps as [|p ps IH]; intros acc; simpl.
  - repeat split.
  - specialize (IH (sumStep acc p)). simpl in IH. exact IH.
Qed.

End RollupFold.

(** C1. For every list of positions the rollup's seven money fields are the
    additive folds of the inputs' fields, [total] is [realized + unrealized],
    [totalCost] is [|realizedCost + unrealizedCost|], each percentage is
    recomputed from the summed profit and the summed cost (["0"] for a zero
    cost, otherwise the quotient printed with four decimals), and the rollup
    of no position is the record whose fields are all ["0"]. *)
Theorem sumTradingPositions_rollup (tradingPositions : list MarketTradingPosition.t) :
  let r := sumTradingPositions tradingPositions in
  (MarketTradingPosition.frozenFunds r = sumOf MarketTradingPosition.frozenFunds tradingPositions
   ∧ MarketTradingPosition.realized r = sumOf MarketTradingPosition.realized tradingPositions
   ∧ MarketTradingPosition.unrealized r = sumOf MarketTradingPosition.unrealized tradingPositions
   ∧ MarketTradingPosition.unrealized24Hr r
     = sumOf MarketTradingPosition.unrealized24Hr tradingPositions
   ∧ MarketTradingPosition.realizedCost r
     = sumOf MarketTradingPosition.realizedCost tradingPositions
   ∧ MarketTradingPosition.unrealizedCost r
     = sumOf MarketTradingPosition.unrealizedCost tradingPositions
   ∧ MarketTradingPosition.currentValue r
     = sumOf MarketTradingPosition.currentValue tradingPositions)
  ∧ MarketTradingPosition.total r
    = BigNumber.plus (MarketTradingPosition.realized r) (MarketTradingPosition.unrealized r)
  ∧ MarketTradingPosition.totalCost r
    = BigNumber.abs (BigNumber.plus (MarketTradingPosition.realizedCost r)
                                    (MarketTradingPosition.unrealizedCost r))
  ∧ (MarketTradingPosition.realizedPercent r
     = (if BigNumber.isZero (MarketTradingPosition.realizedCost r) then BigNumber.zero
        else BigNumber.toFixed 4
               (BigNumber.dividedBy (MarketTradingPosition.realized r)
                                    (MarketTradingPosition.realizedCost r)))
     ∧ MarketTradingPosition.unrealizedPercent r
       = (if BigNumber.isZero (MarketTradingPosition.unrealizedCost r) then BigNumber.zero
          else BigNumber.toFixed 4
                 (BigNumber.dividedBy (MarketTradingPosition.unrealized r)
                                      (MarketTradingPosition.unrealizedCost r)))
     ∧ MarketTradingPosition.unrealized24HrPercent r
       = (if BigNumber.isZero (MarketTradingPosition.unrealizedCost r) then BigNumber.zero
          else BigNumber.toFixed 4
                 (BigNumber.dividedBy (MarketTradingPosition.unrealized24Hr r)
                                      (MarketTradingPosition.unrealizedCost r)))
     ∧ MarketTradingPosition.totalPercent r
       = (if BigNumber.isZero (MarketTradingPosition.totalCost r) then BigNumber.zero
          else BigNumber.toFixed 4
                 (BigNumber.dividedBy (MarketTradingPosition.total r)
                                      (MarketTradingPosition.totalCost r))))
  ∧ sumTradingPositions [] = zeroTradingPosition.
Proof.
  intros r.
  pose proof (foldl_sumStep_fields tradingPositions zeroTradingPosition) as Hfold.
  simpl in Hfold.
  destruct Hfold as (Hff & Hre & Hun & Hu24 & Hrc & Huc & Hcv).
  split; [|split; [|split; [|split]]].
  - subst r. unfold sumTradingPositions, sumOf. simpl.
    rewrite Hff, Hre, Hun, Hu24, Hrc, Huc, Hcv. repeat split.
  - reflexivity.
  - reflexivity.
  - repeat split.
  - unfold sumTradingPositions, zeroTradingPosition. simpl. f_equal.
    all: bn_decide.
Qed.

(** The percentages of the inputs play no part: two positions at 50% each
    roll up to 50%, not 100%. *)
Example sumTradingPositions_percent_not_summed :
  let p :=
    {| MarketTradingPosition.timestamp := 7;
       MarketTradingPosition.frozenFunds := BigNumber.zero;
       MarketTradingPosition.marketId := "m";
       MarketTradingPosition.realized := BigNumber.ofZ 1;
       MarketTradingPosition.unrealized := BigNumber.zero;
       MarketTradingPosition.unrealized24Hr := BigNumber.zero;
       MarketTradingPosition.total := BigNumber.ofZ 1;
       MarketTradingPosition.unrealizedCost := BigNumber.zero;
       MarketTradingPosition.realizedCost := BigNumber.ofZ 2;
       MarketTradingPosition.totalCost := BigNumber.ofZ 2;
       MarketTradingPosition.realizedPercent := BigNumber.ofDecimal 5 1;
       MarketTradingPosition.unrealizedPercent := BigNumber.zero;
       MarketTradingPosition.unrealized24HrPercent := BigNumber.zero;
       MarketTradingPosition.totalPercent := BigNumber.ofDecimal 5 1;
       MarketTradingPosition.currentValue := BigNumber.zero;
       MarketTradingPosition.userSharesBalances := ∅ |} in
  MarketTradingPosition.realizedPercent (sumTradingPositions [p; p]) = BigNumber.ofDecimal 5 1
  ∧ MarketTradingPosition.totalPercent (sumTradingPositions [p; p]) = BigNumber.ofDecimal 5 1
  ∧ MarketTradingPosition.totalCost (sumTradingPositions [p; p]) = BigNumber.ofZ 4.
Proof. repeat split; bn_decide. Qed.

(** ** Time bucketer *)

Section Bucketer.

Lemma ceilDiv_pos_bounds (a b : Z) :
  0 < b → (ceilDiv a b - 1) * b < a ≤ ceilDiv a b * b.
Proof.
  intros Hb. unfold ceilDiv.
  pose proof (Z.div_mod (- a) b ltac:(lia)) as Hdm.
  pose proof (Z.mod_pos_bound (- a) b Hb) as Hmod.
  nia.
Qed.

Lemma bucketInstants_snoc (startTime interval : Z) (n : nat) :
  bucketInstants startTime interval (S n)
  = bucketInstants startTime interval n ++ [startTime + Z.of_nat n * interval].
Proof. unfold bucketInstants. rewrite seq_S, map_app. reflexivity. Qed.

(** The loop adds the instants one at a time; with the interval positive
    it stops after [ceil((end - start) / interval)] rounds, and fuel for
    that many rounds is enough. *)
Lemma bucketLoop_runs (endTime interval startTime : Z) :
  0 < interval →
  ∀ (rounds done : nat) (fuel : nat) (buckets : list Z),
    startTime + Z.of_nat (done + rounds) * interval >= endTime →
    (∀ k : nat, (k < done + rounds)%nat → startTime + Z.of_nat k * interval < endTime) →
    (rounds ≤ fuel)%nat →
    bucketLoop fuel endTime interval (startTime + Z.of_nat done * interval)
               (buckets ++ bucketInstants startTime interval done)
    = Some (buckets ++ bucketInstants startTime interval (done + rounds)).
Proof.
  intros Hpos rounds. induction rounds as [|rounds IH]; intros done fuel buckets Hstop Hlt Hfuel.
  - rewrite Nat.add_0_r in *.
    destruct fuel; simpl;
      (destruct (Z.ltb_spec (startTime + Z.of_nat done * interval) endTime); [lia|reflexivity]).
  - destruct fuel as [|fuel]; [lia|]. simpl.
    destruct (Z.ltb_spec (startTime + Z.of_nat done * interval) endTime) as [_|Hge].
    + replace (startTime + Z.of_nat done * interval + interval)
        with (startTime + Z.of_nat (S done) * interval) by lia.
      rewrite <- app_assoc, <- bucketInstants_snoc.
      replace (done + S rounds)%nat with (S done + rounds)%nat in * by lia.
      apply IH; [assumption|assumption|lia].
    + specialize (Hlt done ltac:(lia)). lia.
Qed.

Lemma bucketLoop_from_start (fuel : nat) (startTime endTime interval : Z) :
  0 < interval → startTime ≤ endTime →
  (Z.to_nat (endTime - startTime) ≤ fuel)%nat →
  let n := Z.to_nat (ceilDiv (endTime - startTime) interval) in
  bucketLoop fuel endTime interval startTime [] = Some (bucketInstants startTime interval n)
  ∧ (∀ t, t ∈ bucketInstants startTime interval n → t < endTime)
  ∧ endTime ≤ startTime + Z.of_nat n * interval.
Proof.
  intros Hpos Hle Hfuel n.
  pose proof (ceilDiv_pos_bounds (endTime - startTime) interval Hpos) as [Hlo Hhi].
  assert (Hc : 0 ≤ ceilDiv (endTime - startTime) interval) by nia.
  assert (Hn : Z.of_nat n = ceilDiv (endTime - startTime) interval) by (subst n; lia).
  assert (Hin : ∀ k : nat, (k < n)%nat → startTime + Z.of_nat k * interval < endTime).
  { intros k Hk. nia. }
  split; [|split].
  - pose proof (bucketLoop_runs endTime interval startTime Hpos n 0%nat fuel []) as Hrun.
    simpl in Hrun. rewrite Z.add_0_r in Hrun. apply Hrun; [nia|exact Hin|].
    assert (Z.of_nat n ≤ endTime - startTime) by nia. lia.
  - intros t Ht. unfold bucketInstants in Ht.
    apply list_elem_of_fmap in Ht as (k & -> & Hk).
    apply list_elem_of_In, in_seq in Hk. apply Hin. lia.
  - nia.
Qed.

End Bucketer.

(** C7. On a valid range ([0 ≤ start ≤ end]) with a positive interval, and
    with fuel for [end - start] rounds, the bucketer returns and its result
    is [start, start + interval, ...] up to the last such instant strictly
    below [end], followed by [end]; a null interval is replaced by
    [ceil((end - start) / 30)]; [bucketize(t, t, i)] is [[t]] and
    [bucketize(0, 100, 25)] is [[0; 25; 50; 75; 100]]. *)
Theorem bucketRangeByInterval_instants (fuel : nat) (startTime endTime : Z) :
  0 ≤ startTime → startTime ≤ endTime → (Z.to_nat (endTime - startTime) ≤ fuel)%nat →
  (∀ interval, 0 < interval →
     let n := Z.to_nat (ceilDiv (endTime - startTime) interval) in
     bucketRangeByInterval fuel startTime endTime (Some interval)
     = Some (Ok (bucketInstants startTime interval n ++ [endTime]))
     ∧ (∀ t, t ∈ bucketInstants startTime interval n → t < endTime)
     ∧ endTime ≤ startTime + Z.of_nat n * interval)
  ∧ (let interval := ceilDiv (endTime - startTime) 30 in
     let n := Z.to_nat (ceilDiv (endTime - startTime) interval) in
     bucketRangeByInterval fuel startTime endTime None
     = Some (Ok (bucketInstants startTime interval n ++ [endTime]))
     ∧ (∀ t, t ∈ bucketInstants startTime interval n → t < endTime)
     ∧ endTime ≤ startTime + Z.of_nat n * interval)
  ∧ (∀ periodInterval,
       match periodInterval with Some interval => 0 < interval | None => True end →
       bucketRangeByInterval fuel startTime startTime periodInterval
       = Some (Ok [startTime]))
  ∧ bucketRangeByInterval 100 0 100 (Some 25) = Some (Ok [0; 25; 50; 75; 100]).
Proof.
  intros Hstart Hle Hfuel.
  assert (Hguards : ∀ p, match p with Some i => 0 < i | None => True end →
            bucketRangeByInterval fuel startTime endTime p
            = (buckets ← bucketLoop fuel endTime
                  (match p with
                   | None => ceilDiv (endTime - startTime) DEFAULT_NUMBER_OF_BUCKETS
                   | Some i => i
                   end) startTime [];
               Some (Ok (buckets ++ [endTime])))).
  { intros p Hp. unfold bucketRangeByInterval.
    destruct (Z.ltb_spec startTime 0); [lia|].
    destruct (Z.ltb_spec endTime 0); [lia|].
    destruct (Z.ltb_spec endTime startTime); [lia|].
    destruct p as [i|]; [|reflexivity].
    destruct (Z.leb_spec i 0); [lia|reflexivity]. }
  split; [|split; [|split]].
  - intros interval Hpos n.
    destruct (bucketLoop_from_start fuel startTime endTime interval Hpos Hle Hfuel)
      as (Hrun & Hlt & Hend).
    split; [|split; assumption].
    rewrite (Hguards (Some interval) Hpos). fold n in Hrun. rewrite Hrun. reflexivity.
  - intros interval n. rewrite (Hguards None I).
    unfold DEFAULT_NUMBER_OF_BUCKETS. fold interval.
    destruct (Z.eq_dec startTime endTime) as [->|Hne].
    + assert (Hi : interval = 0) by (subst interval; rewrite Z.sub_diag; reflexivity).
      assert (Hn : n = 0%nat) by (subst n; rewrite Z.sub_diag; reflexivity).
      rewrite Hi, Hn. split; [|split].
      * destruct fuel; simpl; rewrite Z.ltb_irrefl; reflexivity.
      * intros t Ht. inversion Ht.
      * lia.
    + assert (Hpos : 0 < interval).
      { pose proof (ceilDiv_pos_bounds (endTime - startTime) 30 ltac:(lia)). subst interval. lia. }
      destruct (bucketLoop_from_start fuel startTime endTime interval Hpos Hle Hfuel)
        as (Hrun & Hlt & Hend).
      split; [|split; assumption].
      fold n in Hrun. rewrite Hrun. reflexivity.
  - intros periodInterval Hpos. unfold bucketRangeByInterval.
    destruct (Z.ltb_spec startTime 0); [lia|].
    rewrite Z.ltb_irrefl.
    destruct periodInterval as [interval|].
    + destruct (Z.leb_spec interval 0); [lia|].
      destruct fuel; simpl; rewrite Z.ltb_irrefl; reflexivity.
    + destruct fuel; simpl; rewrite Z.ltb_irrefl; reflexivity.
  - reflexivity.
Qed.

(** The bucketer at work on the range [0, 100] with interval 25. *)
Lemma bucketRangeByInterval_instants_witness :
  (∀ interval, 0 < interval →
     let n := Z.to_nat (ceilDiv (100 - 0) interval) in
     bucketRangeByInterval 100 0 100 (Some interval)
     = Some (Ok (bucketInstants 0 interval n ++ [100]))
     ∧ (∀ t, t ∈ bucketInstants 0 interval n → t < 100)
     ∧ 100 ≤ 0 + Z.of_nat n * interval)
  ∧ (let interval := ceilDiv (100 - 0) 30 in
     let n := Z.to_nat (ceilDiv (100 - 0) interval) in
     bucketRangeByInterval 100 0 100 None
     = Some (Ok (bucketInstants 0 interval n ++ [100]))
     ∧ (∀ t, t ∈ bucketInstants 0 interval n → t < 100)
     ∧ 100 ≤ 0 + Z.of_nat n * interval)
  ∧ (∀ periodInterval,
       match periodInterval with Some interval => 0 < interval | None => True end →
       bucketRangeByInterval 100 0 0 periodInterval = Some (Ok [0]))
  ∧ bucketRangeByInterval 100 0 100 (Some 25) = Some (Ok [0; 25; 50; 75; 100]).
Proof.
  apply (bucketRangeByInterval_instants 100 0 100); [lia | lia | vm_compute; lia].
Defined.

(** Rejected ranges throw; no fuel is used. *)
Example bucketRangeByInterval_rejects :
  bucketRangeByInterval 0 5 3 None
  = Some (Throw "endTime must be greater than or equal startTime")
  ∧ bucketRangeByInterval 0 0 10 (Some 0)
    = Some (Throw "periodInterval must be positive integer (seconds)")
  ∧ bucketRangeByInterval 0 (-1) 10 None
    = Some (Throw "startTime must be a valid unix timestamp, greater than 0").
Proof. repeat split. Qed.

(** With a null interval the range [0, 100] is cut every [ceil(100/30) = 4]
    seconds: 25 instants below 100, then 100. *)
Example bucketRangeByInterval_default :
  bucketRangeByInterval 100 0 100 None
  = Some (Ok (map (λ k, 4 * k) (seqZ 0 25) ++ [100])).
Proof. reflexivity. Qed.

(** ** Position calculator *)

Section PositionCalculatorFacts.
Context `{SdkUtils}.

(** C2. With the finalized flag set the calculator returns [unrealized],
    [unrealized24Hr] and [unrealizedCost] equal to 0; [realized] is the
    pre-collapse realized profit plus the pre-collapse unrealized profit;
    [realizedCost] is the pre-collapse unrealized cost plus the pre-collapse
    realized cost; and [averagePrice] is 0 when the net position is exactly
    zero and is the pre-collapse average price otherwise (the test [eq(0)]
    holds of the value zero and of nothing else).  The pre-collapse amounts
    are those of the record, the market and the valuation price
    ([preCollapseRealized] and the like), and they are what the calculator
    returns without the flag. *)
Theorem finalization_collapse
  (profitLossFrame : ProfitLossChangedLog.t) (marketDoc : MarketData.t)
  (onChainOutcomeValue : BigNumber) (onChain24HrOutcomeValue : option BigNumber)
  (timestamp : Z)
  (shareTokenBalancesByMarketAndOutcome : option (gmap string (gmap string BigNumber))) :
  let open :=
    getTradingPositionFromProfitLossFrame profitLossFrame marketDoc onChainOutcomeValue
      onChain24HrOutcomeValue timestamp shareTokenBalancesByMarketAndOutcome false in
  let settled :=
    getTradingPositionFromProfitLossFrame profitLossFrame marketDoc onChainOutcomeValue
      onChain24HrOutcomeValue timestamp shareTokenBalancesByMarketAndOutcome true in
  (TradingPosition.unrealized settled = BigNumber.zero
   ∧ TradingPosition.unrealized24Hr settled = BigNumber.zero
   ∧ TradingPosition.unrealizedCost settled = BigNumber.zero
   ∧ TradingPosition.realized settled
     = BigNumber.plus (preCollapseRealized profitLossFrame)
                      (preCollapseUnrealized profitLossFrame marketDoc onChainOutcomeValue)
   ∧ TradingPosition.realizedCost settled
     = BigNumber.plus (preCollapseUnrealizedCost profitLossFrame marketDoc)
                      (preCollapseRealizedCost profitLossFrame)
   ∧ TradingPosition.averagePrice settled
     = (if BigNumber.eq (ProfitLossChangedLog.netPosition profitLossFrame) BigNumber.zero
        then BigNumber.zero else preCollapseAveragePrice profitLossFrame marketDoc)
   ∧ (BigNumber.eq (ProfitLossChangedLog.netPosition profitLossFrame) BigNumber.zero = true
      ↔ ProfitLossChangedLog.netPosition profitLossFrame = BigNumber.zero))
  ∧ (TradingPosition.realized open = preCollapseRealized profitLossFrame
     ∧ TradingPosition.unrealized open
       = preCollapseUnrealized profitLossFrame marketDoc onChainOutcomeValue
     ∧ TradingPosition.realizedCost open = preCollapseRealizedCost profitLossFrame
     ∧ TradingPosition.unrealizedCost open
       = preCollapseUnrealizedCost profitLossFrame marketDoc
     ∧ TradingPosition.averagePrice open
       = preCollapseAveragePrice profitLossFrame marketDoc)
  ∧ (TradingPosition.realized settled
     = BigNumber.plus (TradingPosition.realized open) (TradingPosition.unrealized open)
     ∧ TradingPosition.realizedCost settled
       = BigNumber.plus (TradingPosition.unrealizedCost open)
                        (TradingPosition.realizedCost open)
     ∧ TradingPosition.averagePrice settled
       = (if BigNumber.eq (ProfitLossChangedLog.netPosition profitLossFrame) BigNumber.zero
          then BigNumber.zero else TradingPosition.averagePrice open)).
Proof.
  intros open settled. subst open settled.
  unfold getTradingPositionFromProfitLossFrame, preCollapseRealized, preCollapseUnrealized,
    preCollapseRealizedCost, preCollapseUnrealizedCost, preCollapseAveragePrice,
    displayValue, displayPrice, marketTickSize.
  simpl.
  split; [|split].
  - do 6 (split; [reflexivity|]). apply BigNumberFacts.eq_zero.
  - repeat split.
  - repeat split.
Qed.

(** C4. Whenever a 24-hour-prior price is supplied, the returned
    [unrealized24Hr] equals the returned [unrealized]: the prior price is
    only tested for presence and the current price is converted in its
    place.  This holds for long and short positions, finalized or not. *)
Theorem unrealized24Hr_reuses_current_price
  (profitLossFrame : ProfitLossChangedLog.t) (marketDoc : MarketData.t)
  (onChainOutcomeValue onChain24HrOutcomeValue : BigNumber) (timestamp : Z)
  (shareTokenBalancesByMarketAndOutcome : option (gmap string (gmap string BigNumber)))
  (finalized : bool) :
  let position :=
    getTradingPositionFromProfitLossFrame profitLossFrame marketDoc onChainOutcomeValue
      (Some onChain24HrOutcomeValue) timestamp shareTokenBalancesByMarketAndOutcome
      finalized in
  TradingPosition.unrealized24Hr position = TradingPosition.unrealized position.
Proof.
  intros position. subst position.
  unfold getTradingPositionFromProfitLossFrame. simpl.
  destruct finalized; reflexivity.
Qed.

(** Without a prior price the 24-hour figure is 0. *)
Lemma unrealized24Hr_without_prior_price
  (profitLossFrame : ProfitLossChangedLog.t) (marketDoc : MarketData.t)
  (onChainOutcomeValue : BigNumber) (timestamp : Z)
  (shareTokenBalancesByMarketAndOutcome : option (gmap string (gmap string BigNumber)))
  (finalized : bool) :
  TradingPosition.unrealized24Hr
    (getTradingPositionFromProfitLossFrame profitLossFrame marketDoc onChainOutcomeValue
       None timestamp shareTokenBalancesByMarketAndOutcome finalized)
  = BigNumber.zero.
Proof. unfold getTradingPositionFromProfitLossFrame. simpl. destruct finalized; reflexivity. Qed.

(** C6. If the amount converter commutes with negation, then negating the
    net position of a non-finalized input, everything else (average price,
    valuation price, market) being the same, negates [unrealized] exactly. *)
Theorem unrealized_sign_symmetry
  (profitLossFrame : ProfitLossChangedLog.t) (marketDoc : MarketData.t)
  (onChainOutcomeValue : BigNumber) (onChain24HrOutcomeValue : option BigNumber)
  (timestamp : Z)
  (shareTokenBalancesByMarketAndOutcome : option (gmap string (gmap string BigNumber))) :
  (∀ onChainAmount tickSize,
     convertOnChainAmountToDisplayAmount (BigNumber.negated onChainAmount) tickSize
     = BigNumber.negated (convertOnChainAmountToDisplayAmount onChainAmount tickSize)) →
  TradingPosition.unrealized
    (getTradingPositionFromProfitLossFrame (negatePosition profitLossFrame) marketDoc
       onChainOutcomeValue onChain24HrOutcomeValue timestamp
       shareTokenBalancesByMarketAndOutcome false)
  = BigNumber.negated
      (TradingPosition.unrealized
         (getTradingPositionFromProfitLossFrame profitLossFrame marketDoc
            onChainOutcomeValue onChain24HrOutcomeValue timestamp
            shareTokenBalancesByMarketAndOutcome false)).
Proof.
  intros Hodd. unfold getTradingPositionFromProfitLossFrame, negatePosition. simpl.
  set (n := ProfitLossChangedLog.netPosition profitLossFrame).
  set (tickSize := numTicksToTickSize _ _ _).
  set (avgPrice := convertOnChainPriceToDisplayPrice (BigNumber.dividedBy _ _) _ _).
  set (lastTradePrice := convertOnChainPriceToDisplayPrice onChainOutcomeValue _ _).
  rewrite Hodd, BigNumberFacts.abs_negated.
  destruct (BigNumber.isNegative n) eqn:Hn.
  - rewrite (BigNumberFacts.isNegative_negated n Hn).
    rewrite (BigNumberFacts.minus_antisym lastTradePrice avgPrice).
    apply BigNumberFacts.times_negated_r.
  - destruct (BigNumber.isNegative (BigNumber.negated n)) eqn:Hn'.
    + rewrite <- BigNumberFacts.times_negated_r, <- BigNumberFacts.minus_antisym.
      reflexivity.
    + assert (Hself : convertOnChainAmountToDisplayAmount n tickSize
                      = BigNumber.negated (convertOnChainAmountToDisplayAmount n tickSize)).
      { rewrite <- Hodd.
        destruct (BigNumberFacts.not_negative_both n Hn Hn') as [-> | ->]; simpl;
          [rewrite BigNumberFacts.Qcopp_0|]; reflexivity. }
      apply BigNumberFacts.self_negated in Hself.
      symmetry. apply BigNumberFacts.times_zero_or_NaN.
      destruct Hself as [-> | ->]; [left|right]; try reflexivity.
      simpl. f_equal. apply Qcabs_pos. apply Qcle_refl.
Qed.

(** The three guarded percentages: 0 on a zero cost, else the quotient
    printed with four decimals ([realizedPercent] over the absolute cost). *)
Lemma guarded_percentages
  (profitLossFrame : ProfitLossChangedLog.t) (marketDoc : MarketData.t)
  (onChainOutcomeValue : BigNumber) (onChain24HrOutcomeValue : option BigNumber)
  (timestamp : Z)
  (shareTokenBalancesByMarketAndOutcome : option (gmap string (gmap string BigNumber)))
  (finalized : bool) :
  let p :=
    getTradingPositionFromProfitLossFrame profitLossFrame marketDoc onChainOutcomeValue
      onChain24HrOutcomeValue timestamp shareTokenBalancesByMarketAndOutcome finalized in
  TradingPosition.realizedPercent p
  = BigNumber.toFixed 4
      (if BigNumber.isZero (TradingPosition.realizedCost p) then BigNumber.zero
       else BigNumber.dividedBy (TradingPosition.realized p)
                                (BigNumber.abs (TradingPosition.realizedCost p)))
  ∧ TradingPosition.unrealizedPercent p
    = BigNumber.toFixed 4
        (if BigNumber.isZero (TradingPosition.unrealizedCost p) then BigNumber.zero
         else BigNumber.dividedBy (TradingPosition.unrealized p)
                                  (TradingPosition.unrealizedCost p))
  ∧ TradingPosition.unrealized24HrPercent p
    = BigNumber.toFixed 4
        (if BigNumber.isZero (TradingPosition.unrealizedCost p) then BigNumber.zero
         else BigNumber.dividedBy (TradingPosition.unrealized24Hr p)
                                  (TradingPosition.unrealizedCost p))
  ∧ TradingPosition.totalPercent p
    = BigNumber.toFixed 4
        (BigNumber.dividedBy (TradingPosition.total p)
           (BigNumber.plus (TradingPosition.realizedCost p)
                           (TradingPosition.unrealizedCost p))).
Proof. intros p. subst p. repeat split. Qed.

(** With no shares held and no realized cost the total cost is zero (or
    NaN), and [totalPercent], which is divided without a test, is not a
    finite number, whatever the converters are. *)
Lemma totalPercent_zero_cost
  (profitLossFrame : ProfitLossChangedLog.t) (marketDoc : MarketData.t)
  (onChainOutcomeValue : BigNumber) (onChain24HrOutcomeValue : option BigNumber)
  (timestamp : Z)
  (shareTokenBalancesByMarketAndOutcome : option (gmap string (gmap string BigNumber)))
  (finalized : bool) :
  ProfitLossChangedLog.netPosition profitLossFrame = BigNumber.zero →
  ProfitLossChangedLog.realizedCost profitLossFrame = BigNumber.zero →
  BigNumber.isFinite
    (TradingPosition.totalPercent
       (getTradingPositionFromProfitLossFrame profitLossFrame marketDoc onChainOutcomeValue
          onChain24HrOutcomeValue timestamp shareTokenBalancesByMarketAndOutcome finalized))
  = false.
Proof.
  intros Hnet Hcost. unfold getTradingPositionFromProfitLossFrame. simpl.
  rewrite Hnet, Hcost.
  apply BigNumberFacts.toFixed_not_finite, BigNumberFacts.dividedBy_zero_not_finite.
  replace (BigNumber.isNegative BigNumber.zero) with false by reflexivity.
  replace (BigNumber.abs BigNumber.zero) with (Num 0%Qc) by (symmetry; bn_decide).
  replace (BigNumber.dividedBy (BigNumber.dividedBy BigNumber.zero tenToThe18) tenToThe18)
    with (Num 0%Qc) by (symmetry; bn_decide).
  set (avgCost := BigNumber.dividedBy (ProfitLossChangedLog.avgPrice profitLossFrame) _).
  assert (Hzero : BigNumber.plus (Num 0%Qc) BigNumber.zero = Num 0%Qc) by bn_decide.
  assert (Hzero' : BigNumber.plus (Num 0%Qc) (Num 0%Qc) = Num 0%Qc) by bn_decide.
  assert (Hdiv : BigNumber.dividedBy (Num 0%Qc) tenToThe18 = Num 0%Qc) by bn_decide.
  destruct (BigNumberFacts.times_zero_l avgCost) as [-> | ->];
    destruct finalized; simpl; rewrite ?Hdiv, ?Hzero', ?Hzero; auto.
Qed.

End PositionCalculatorFacts.

(** The calculator on a long position of 10 shares bought at 0.40 and valued
    at 0.60, and on the mirror short position. *)
Example getTradingPosition_long :
  let p := getTradingPositionFromProfitLossFrame longPosition yesNoMarket
             (BigNumber.ofZ 60) None 1000 None false in
  TradingPosition.netPosition p = BigNumber.ofZ 10
  ∧ TradingPosition.averagePrice p = BigNumber.ofDecimal 4 1
  ∧ TradingPosition.unrealizedCost p = BigNumber.ofZ 4
  ∧ TradingPosition.unrealized p = BigNumber.ofZ 2
  ∧ TradingPosition.unrealizedPercent p = BigNumber.ofDecimal 5 1
  ∧ TradingPosition.currentValue p = BigNumber.ofZ 6
  ∧ TradingPosition.frozenFunds p = BigNumber.ofZ 4.
Proof. repeat split; bn_decide. Qed.

Example getTradingPosition_short :
  let p := getTradingPositionFromProfitLossFrame (negatePosition longPosition) yesNoMarket
             (BigNumber.ofZ 60) None 1000 None false in
  TradingPosition.netPosition p = BigNumber.ofZ (-10)
  ∧ TradingPosition.unrealizedCost p = BigNumber.ofZ 6
  ∧ TradingPosition.unrealized p = BigNumber.ofZ (-2)
  ∧ TradingPosition.currentValue p = BigNumber.ofZ 4.
Proof. repeat split; bn_decide. Qed.

Example getTradingPosition_finalized :
  let p := getTradingPositionFromProfitLossFrame longPosition yesNoMarket
             (BigNumber.ofZ 100) (Some (BigNumber.ofZ 50)) 1000 None true in
  TradingPosition.realized p = BigNumber.ofZ 6
  ∧ TradingPosition.realizedCost p = BigNumber.ofZ 4
  ∧ TradingPosition.unrealized p = BigNumber.zero
  ∧ TradingPosition.unrealizedCost p = BigNumber.zero
  ∧ TradingPosition.averagePrice p = BigNumber.ofDecimal 4 1
  ∧ TradingPosition.realizedPercent p = BigNumber.ofDecimal 15 1.
Proof. repeat split; bn_decide. Qed.

(** The pre-collapse amounts of the short position of 10 shares sold at
    0.40, valued at the winning numerator 100 of its outcome: 2 realized and
    10 * (0.40 - 1) = -6 unrealized, at costs of 3 and 10 * (1 - 0.40) = 6;
    settled, the position has realized 2 - 6 at a cost of 6 + 3. *)
Example finalization_collapse_short :
  let settled :=
    getTradingPositionFromProfitLossFrame shortPosition yesNoMarket (BigNumber.ofZ 100)
      None 1000 None true in
  preCollapseRealized shortPosition = BigNumber.ofZ 2
  ∧ preCollapseUnrealized shortPosition yesNoMarket (BigNumber.ofZ 100) = BigNumber.ofZ (-6)
  ∧ preCollapseRealizedCost shortPosition = BigNumber.ofZ 3
  ∧ preCollapseUnrealizedCost shortPosition yesNoMarket = BigNumber.ofZ 6
  ∧ TradingPosition.realized settled = BigNumber.ofZ (-4)
  ∧ TradingPosition.realizedCost settled = BigNumber.ofZ 9
  ∧ TradingPosition.averagePrice settled = BigNumber.ofDecimal 4 1.
Proof. repeat split; bn_decide. Qed.

(** The sign symmetry at the long position above, with the converters of
    [displayUtils]. *)
Lemma unrealized_sign_symmetry_witness :
  TradingPosition.unrealized
    (getTradingPositionFromProfitLossFrame (negatePosition longPosition) yesNoMarket
       (BigNumber.ofZ 60) None 1000 None false)
  = BigNumber.negated
      (TradingPosition.unrealized
         (getTradingPositionFromProfitLossFrame longPosition yesNoMarket
            (BigNumber.ofZ 60) None 1000 None false)).
Proof.
  apply (unrealized_sign_symmetry longPosition yesNoMarket (BigNumber.ofZ 60) None 1000 None).
  intros onChainAmount tickSize. apply BigNumberFacts.dividedBy_negated_l.
Defined.

(** C3, as the code has it.  On a position with no shares and no realized
    cost the three guarded percentages are 0, but [totalPercent] is the
    quotient 0/0 and is returned as NaN. *)
Theorem totalPercent_zero_cost_NaN :
  let p := getTradingPositionFromProfitLossFrame emptyPosition yesNoMarket
             (BigNumber.ofZ 60) None 1000 None false in
  TradingPosition.realizedCost p = BigNumber.zero
  ∧ TradingPosition.unrealizedCost p = BigNumber.zero
  ∧ TradingPosition.totalCost p = BigNumber.zero
  ∧ TradingPosition.realizedPercent p = BigNumber.zero
  ∧ TradingPosition.unrealizedPercent p = BigNumber.zero
  ∧ TradingPosition.unrealized24HrPercent p = BigNumber.zero
  ∧ TradingPosition.totalPercent p = NaN.
Proof. repeat split; bn_decide. Qed.

(** The rollup of that same position does test the total cost. *)
Example sumTradingPositions_zero_cost :
  let p := getTradingPositionFromProfitLossFrame emptyPosition yesNoMarket
             (BigNumber.ofZ 60) None 1000 None false in
  MarketTradingPosition.totalPercent
    (sumTradingPositions [TradingPosition.asMarketTradingPosition p])
  = BigNumber.zero.
Proof. bn_decide. Qed.

(** ** Latest-before resolver and bucket valuation *)

Section Resolver.
Context {TDoc : Type} `{Timestamped TDoc}.

(** The length test of the resolver is subsumed by [last]. *)
Lemma getLastDocBeforeTimestamp_last (docs : list TDoc) (timestamp : Z) :
  getLastDocBeforeTimestamp docs timestamp
  = last (takeWhile (λ doc, timestampOf doc <=? timestamp) docs).
Proof.
  unfold getLastDocBeforeTimestamp.
  destruct (takeWhile _ docs) as [|doc rest]; reflexivity.
Qed.

Lemma filter_all_later (docs : list TDoc) (timestamp : Z) :
  Forall (λ doc, timestamp < timestampOf doc) docs →
  filter (λ doc, timestampOf doc ≤ timestamp) docs = [].
Proof.
  induction 1 as [|doc rest Hdoc _ IH]; [reflexivity|].
  rewrite filter_cons, decide_False by lia. exact IH.
Qed.

(** On a sequence with monotonic timestamps the prefix taken by
    [_.takeWhile] holds every document at or before the instant. *)
Lemma takeWhile_filter_monotonic (docs : list TDoc) (timestamp : Z) :
  timestampMonotonic docs →
  takeWhile (λ doc, timestampOf doc <=? timestamp) docs
  = filter (λ doc, timestampOf doc ≤ timestamp) docs.
Proof.
  induction 1 as [|doc rest Hsorted IH Hlater]; [reflexivity|].
  simpl. rewrite filter_cons.
  destruct (Z.leb_spec (timestampOf doc) timestamp) as [Hle|Hgt].
  - rewrite decide_True by exact Hle. f_equal. exact IH.
  - rewrite decide_False by lia. symmetry. apply filter_all_later.
    eapply Forall_impl; [exact Hlater|]. simpl. intros later Hle. lia.
Qed.

(** On such a sequence the resolver returns the latest document at or
    before the instant. *)
Lemma getLastDocBeforeTimestamp_latest (docs : list TDoc) (timestamp : Z) :
  timestampMonotonic docs →
  getLastDocBeforeTimestamp docs timestamp = latestAtOrBefore docs timestamp.
Proof.
  intros Hsorted. rewrite getLastDocBeforeTimestamp_last.
  unfold latestAtOrBefore. rewrite (takeWhile_filter_monotonic _ _ Hsorted). reflexivity.
Qed.

End Resolver.

(** Without monotonic timestamps the prefix stops at the first late
    document, and a later document at or before the instant is missed. *)
Example getLastDocBeforeTimestamp_stops_early :
  let early t := {| ParsedOrderEventLog.market := "0xmarket";
                    ParsedOrderEventLog.outcome := "0x01";
                    ParsedOrderEventLog.timestamp := t;
                    ParsedOrderEventLog.price := BigNumber.ofZ t |} in
  getLastDocBeforeTimestamp [early 1; early 9; early 2] 5 = Some (early 1)
  ∧ latestAtOrBefore [early 1; early 9; early 2] 5 = Some (early 2).
Proof. split; reflexivity. Qed.

Section BucketValuationFacts.
Context `{SdkUtils}.

(** C5, as the code has it.  At a bucket instant at which the market is not
    finalized and a position record exists:
    - if the queried window holds fills of the outcome (timestamps
      monotonic), the callback calls the position calculator, not flagged
      finalized, with this valuation price: the market's minimum price
      [prices[0]] when the market has a finalization record in the window
      (dated after the instant); otherwise the price of the latest fill at
      or before the instant, or, when there is none that early, the
      position record's average price divided by [10^18];
    - if the window holds no fill of the outcome, the callback returns the
      unvalued all-zero record. *)
Theorem bucket_valuation_price
  (marketFinalizedByMarket : gmap string MarketFinalizedLog.t)
  (ordersFilledResultsByMarketAndOutcome :
     gmap string (gmap string (list ParsedOrderEventLog.t)))
  (shareTokenBalancesByMarketAndOutcome : gmap string (gmap string BigNumber))
  (ignoreFinalizedMarkets : bool) (marketId : string) (marketDoc : MarketData.t)
  (outcomePLValues : list ProfitLossChangedLog.t) (outcome : string)
  (bucketTimestamp : Z) (latestOutcomePLValue : ProfitLossChangedLog.t) :
  getLastDocBeforeTimestamp outcomePLValues bucketTimestamp = Some latestOutcomePLValue →
  finalizedAt marketFinalizedByMarket marketId bucketTimestamp = false →
  (∀ outcomeValues,
     outcomeFills ordersFilledResultsByMarketAndOutcome marketId outcome = Some outcomeValues →
     timestampMonotonic outcomeValues →
     bucketTradingPosition marketFinalizedByMarket ordersFilledResultsByMarketAndOutcome
       shareTokenBalancesByMarketAndOutcome ignoreFinalizedMarkets marketId marketDoc
       outcomePLValues outcome bucketTimestamp
     = inr (getTradingPositionFromProfitLossFrame latestOutcomePLValue marketDoc
              (match marketFinalizedByMarket !! marketId with
               | Some _ => numberAt (MarketData.prices marketDoc) 0
               | None =>
                   match latestAtOrBefore outcomeValues bucketTimestamp with
                   | Some fill => ParsedOrderEventLog.price fill
                   | None =>
                       BigNumber.dividedBy
                         (ProfitLossChangedLog.avgPrice latestOutcomePLValue) tenToThe18
                   end
               end)
              None bucketTimestamp None false))
  ∧ (outcomeFills ordersFilledResultsByMarketAndOutcome marketId outcome = None →
     bucketTradingPosition marketFinalizedByMarket ordersFilledResultsByMarketAndOutcome
       shareTokenBalancesByMarketAndOutcome ignoreFinalizedMarkets marketId marketDoc
       outcomePLValues outcome bucketTimestamp
     = inl (unvaluedBucketPosition bucketTimestamp)).
Proof.
  intros Hpl Hopen. split.
  - intros outcomeValues Hfills Hsorted.
    unfold bucketTradingPosition. rewrite Hpl, Hopen, Hfills.
    rewrite bool_decide_eq_true_2 by (eexists; reflexivity).
    rewrite andb_false_r. simpl.
    unfold bucketOutcomeValue. rewrite Hfills. simpl.
    rewrite (getLastDocBeforeTimestamp_latest outcomeValues bucketTimestamp Hsorted).
    reflexivity.
  - intros Hnone. unfold bucketTradingPosition. rewrite Hpl, Hopen, Hnone.
    rewrite bool_decide_eq_false_2 by (intros [? ?]; discriminate).
    reflexivity.
Qed.

End BucketValuationFacts.

(** The valuation at bucket 2000 of the long position, with one fill at
    1500 and no finalization record: the fill's price. *)
Lemma bucket_valuation_price_witness :
  (∀ outcomeValues,
     outcomeFills fillsInWindow "0xmarket" "0x01" = Some outcomeValues →
     timestampMonotonic outcomeValues →
     bucketTradingPosition ∅ fillsInWindow ∅ false "0xmarket" yesNoMarket
       [longPosition] "0x01" 2000
     = inr (getTradingPositionFromProfitLossFrame longPosition yesNoMarket
              (match (∅ : gmap string MarketFinalizedLog.t) !! "0xmarket" with
               | Some _ => numberAt (MarketData.prices yesNoMarket) 0
               | None =>
                   match latestAtOrBefore outcomeValues 2000 with
                   | Some fill => ParsedOrderEventLog.price fill
                   | None =>
                       BigNumber.dividedBy
                         (ProfitLossChangedLog.avgPrice longPosition) tenToThe18
                   end
               end)
              None 2000 None false))
  ∧ (outcomeFills fillsInWindow "0xmarket" "0x01" = None →
     bucketTradingPosition ∅ fillsInWindow ∅ false "0xmarket" yesNoMarket
       [longPosition] "0x01" 2000
     = inl (unvaluedBucketPosition 2000)).
Proof.
  apply (bucket_valuation_price ∅ fillsInWindow ∅ false "0xmarket" yesNoMarket
           [longPosition] "0x01" 2000 longPosition); reflexivity.
Defined.

Example bucket_valuation_latest_fill :
  bucketOutcomeValue ∅ fillsInWindow "0xmarket" yesNoMarket longPosition "0x01" false 2000
  = BigNumber.ofZ 70
  ∧ bucketOutcomeValue ∅ fillsInWindow "0xmarket" yesNoMarket longPosition "0x01" false 1200
    = BigNumber.ofZ 40.
Proof. split; bn_decide. Qed.

(** C5, as stated, fails, in two ways.  (1) The market finalizes at 3000,
    inside the window; at bucket 2000 it is not finalized, the position
    record (dated 1000) exists and the latest fill at or before 2000 is the
    one at 1500, priced 70; yet the price passed to the calculator is the
    market's minimum price, 0.  (2) With no fill of the outcome in the
    window and no finalization record, the position record exists but no
    price is used at all: the callback returns the unvalued record instead
    of valuing the position at its average price. *)
Lemma bucket_valuation_counterexample :
  (finalizedAt finalizedAt3000 "0xmarket" 2000 = false
   ∧ getLastDocBeforeTimestamp [longPosition] 2000 = Some longPosition
   ∧ (outcomeFills fillsInWindow "0xmarket" "0x01" ≫= (λ fills, latestAtOrBefore fills 2000))
     = Some fillAt1500
   ∧ bucketTradingPosition finalizedAt3000 fillsInWindow ∅ false "0xmarket" yesNoMarket
       [longPosition] "0x01" 2000
     = inr (getTradingPositionFromProfitLossFrame longPosition yesNoMarket
              BigNumber.zero None 2000 None false)
   ∧ bucketTradingPosition finalizedAt3000 fillsInWindow ∅ false "0xmarket" yesNoMarket
       [longPosition] "0x01" 2000
     ≠ inr (getTradingPositionFromProfitLossFrame longPosition yesNoMarket
              (ParsedOrderEventLog.price fillAt1500) None 2000 None false))
  ∧ (finalizedAt ∅ "0xmarket" 2000 = false
     ∧ getLastDocBeforeTimestamp [longPosition] 2000 = Some longPosition
     ∧ outcomeFills ∅ "0xmarket" "0x01" = None
     ∧ bucketTradingPosition ∅ ∅ ∅ false "0xmarket" yesNoMarket [longPosition] "0x01" 2000
       = inl (unvaluedBucketPosition 2000)
     ∧ bucketTradingPosition ∅ ∅ ∅ false "0xmarket" yesNoMarket [longPosition] "0x01" 2000
       ≠ inr (getTradingPositionFromProfitLossFrame longPosition yesNoMarket
                (BigNumber.dividedBy (ProfitLossChangedLog.avgPrice longPosition)
                                     tenToThe18)
                None 2000 None false)).
Proof.
  split.
  - split; [reflexivity|]. split; [reflexivity|]. split; [reflexivity|].
    split; [reflexivity|].
    intros Heq. apply (f_equal (λ r, match r with
                                     | inr p => TradingPosition.unrealized p
                                     | inl _ => NaN
                                     end)) in Heq.
    revert Heq. apply (bool_decide_eq_false_1 _). vm_compute. reflexivity.
  - split; [reflexivity|]. split; [reflexivity|]. split; [reflexivity|].
    split; [reflexivity|]. discriminate.
Qed.

(** ** Escrow estimator *)

Section EscrowBid.
Variables (order : Order.t) (outcome : string) (market : MarketData.t)
          (userSharesBalances : gmap string BigNumber).

(** The balances the bid branch collects: those held under another
    outcome. *)
Lemma other_balances_elem (v : BigNumber) :
  v ∈ omap (λ entry : string * BigNumber,
              if decide (outcome = entry.1) then None else Some entry.2)
           (map_to_list userSharesBalances)
  ↔ ∃ o, o ≠ outcome ∧ userSharesBalances !! o = Some v.
Proof.
  rewrite list_elem_of_omap. split.
  - intros ([o w] & Hin & Hsome). apply elem_of_map_to_list in Hin. simpl in Hsome.
    destruct (decide (outcome = o)); [discriminate|]. injection Hsome as ->.
    exists o. split; [congruence|exact Hin].
  - intros (o & Hne & Hlookup). exists (o, v). split; [apply elem_of_map_to_list, Hlookup|].
    simpl. rewrite decide_False by congruence. reflexivity.
Qed.

(** The bid branch, one field at a time. *)
Lemma bid_fields :
  let r := addEscrowedAmountsDecrementShares order outcome 0 market userSharesBalances in
  let others :=
    omap (λ entry : string * BigNumber,
            if decide (outcome = entry.1) then None else Some entry.2)
         (map_to_list userSharesBalances) in
  let offset := Order.sharesEscrowed r.1 in
  offset = BigNumber.min2 (Order.amount order)
             (match others with
              | first :: rest => BigNumber.min first rest
              | [] => BigNumber.zero
              end)
  ∧ Order.tokensEscrowed r.1
    = BigNumber.times (BigNumber.minus (Order.amount order) offset)
        (BigNumber.minus (Order.price order)
           (BigNumber.dividedBy (numberAt (MarketData.prices market) 0) QUINTILLION))
  ∧ (∀ o, o ≠ outcome →
       r.2 !! o = (λ balance, BigNumber.minus balance offset) <$> userSharesBalances !! o)
  ∧ r.2 !! outcome = userSharesBalances !! outcome.
Proof.
  unfold addEscrowedAmountsDecrementShares. simpl.
  split; [reflexivity|]. split; [reflexivity|]. split.
  - intros o Hne. rewrite map_lookup_imap.
    destruct (userSharesBalances !! o) as [balance|]; [|reflexivity]. simpl.
    rewrite decide_False by congruence. reflexivity.
  - rewrite map_lookup_imap.
    destruct (userSharesBalances !! outcome) as [balance|]; [|reflexivity]. simpl.
    rewrite decide_True by reflexivity. reflexivity.
Qed.

End EscrowBid.

(** The bid branch on the balances the object tracks.  The escrowed
    shares, the offset, are [min(amount, m)] where [m] is the least balance
    among the entries of the other outcomes (the balances being finite
    numbers and at least one other outcome having an entry; with no other
    entry [m] is 0); the escrowed tokens are
    [(amount - offset) * (price - displayMinPrice)]; every other entry is
    decremented by exactly the offset and the bid's own outcome is left
    alone.  A bid for 10 at 0.60 against entries of 4 and 7 for the other
    outcomes uses 4 shares, escrows tokens for the remaining 6 (3.6) and
    leaves 0 and 3. *)
Lemma bid_escrow (order : Order.t) (outcome : string) (market : MarketData.t)
  (userSharesBalances : gmap string BigNumber) :
  let r := addEscrowedAmountsDecrementShares order outcome 0 market userSharesBalances in
  let offset := Order.sharesEscrowed r.1 in
  ((∀ o balance, o ≠ outcome → userSharesBalances !! o = Some balance →
      BigNumber.isFinite balance = true) →
   (∃ o, o ≠ outcome ∧ is_Some (userSharesBalances !! o)) →
   ∃ m, (∃ o, o ≠ outcome ∧ userSharesBalances !! o = Some m)
        ∧ (∀ o balance, o ≠ outcome → userSharesBalances !! o = Some balance →
             BigNumber.lte m balance = true)
        ∧ offset = BigNumber.min2 (Order.amount order) m)
  ∧ ((∀ o, o ≠ outcome → userSharesBalances !! o = None) →
     offset = BigNumber.min2 (Order.amount order) BigNumber.zero)
  ∧ Order.tokensEscrowed r.1
    = BigNumber.times (BigNumber.minus (Order.amount order) offset)
        (BigNumber.minus (Order.price order)
           (BigNumber.dividedBy (numberAt (MarketData.prices market) 0) QUINTILLION))
  ∧ (∀ o, o ≠ outcome →
       r.2 !! o = (λ balance, BigNumber.minus balance offset) <$> userSharesBalances !! o)
  ∧ r.2 !! outcome = userSharesBalances !! outcome
  ∧ (let example :=
       addEscrowedAmountsDecrementShares bidOrder "0x01" 0 yesNoMarket complementaryShares in
     Order.sharesEscrowed example.1 = BigNumber.ofZ 4
     ∧ Order.tokensEscrowed example.1
       = BigNumber.times (BigNumber.ofZ 6) (BigNumber.ofDecimal 6 1)
     ∧ example.2 !! "0x00" = Some (BigNumber.ofZ 0)
     ∧ example.2 !! "0x02" = Some (BigNumber.ofZ 3)).
Proof.
  intros r offset.
  destruct (bid_fields order outcome market userSharesBalances)
    as (Hoffset & Htokens & Hothers & Hown).
  fold r in Hoffset, Htokens, Hothers, Hown. fold offset in Hoffset, Htokens, Hothers.
  split; [|split; [|split; [exact Htokens|split; [exact Hothers|split; [exact Hown|]]]]].
  - intros Hfinite (o0 & Hne0 & [v0 Hv0]).
    destruct (omap _ (map_to_list userSharesBalances)) as [|first rest] eqn:Hlist.
    { assert (Hin : v0 ∈ omap (λ entry : string * BigNumber,
                                 if decide (outcome = entry.1) then None else Some entry.2)
                               (map_to_list userSharesBalances))
        by (apply other_balances_elem; eauto).
      rewrite Hlist in Hin. inversion Hin. }
    assert (Hall : Forall (λ v, BigNumber.isFinite v = true) (first :: rest)).
    { apply Forall_forall. intros v Hv. rewrite <- Hlist in Hv.
      apply other_balances_elem in Hv as (o & Hne & Hlookup). eauto. }
    destruct (BigNumberFacts.min_finite first rest Hall) as (m & Hm & Hmem & Hle).
    exists (Num m). split; [|split].
    + rewrite <- Hlist in Hmem. apply other_balances_elem in Hmem. exact Hmem.
    + intros o balance Hne Hlookup. rewrite Forall_forall in Hle. apply Hle.
      rewrite <- Hlist. apply other_balances_elem. eauto.
    + rewrite Hoffset, Hm. reflexivity.
  - intros Hnone.
    destruct (omap _ (map_to_list userSharesBalances)) as [|first rest] eqn:Hlist;
      [exact Hoffset|].
    assert (Hin : first ∈ omap (λ entry : string * BigNumber,
                                  if decide (outcome = entry.1) then None else Some entry.2)
                                (map_to_list userSharesBalances))
      by (rewrite Hlist; apply list_elem_of_here).
    apply other_balances_elem in Hin as (o & Hne & Hlookup).
    rewrite (Hnone o Hne) in Hlookup. discriminate.
  - repeat split; bn_decide.
Qed.

(** C8. The bid branch takes the minimum over the entries of the balance
    object only, and an outcome the account never held has no entry.  For a
    bid for 10 at 0.60 on outcome [0x01] of the three-outcome market, by an
    account holding 7 shares of [0x02] and none of [0x00]: the least holding
    over all other outcomes is 0, so the offset should be [min(10, 0) = 0]
    and tokens are due for all 10 units (6); the estimator finds only the
    entry of [0x02], uses an offset of 7, escrows tokens for 3 units (1.8) and
    takes the 7 shares.  With the zero holding written into the object it
    uses no offset and escrows tokens for all 10 units. *)
Theorem bid_escrow_missing_outcome :
  let expected :=
    BigNumber.min2 (Order.amount bidOrder)
                   (leastOtherHolding yesNoOutcomes sharesOfOneOutcome "0x01") in
  let r := addEscrowedAmountsDecrementShares bidOrder "0x01" 0 yesNoMarket
             sharesOfOneOutcome in
  let r0 := addEscrowedAmountsDecrementShares bidOrder "0x01" 0 yesNoMarket
              sharesWithZeroEntry in
  (leastOtherHolding yesNoOutcomes sharesOfOneOutcome "0x01" = BigNumber.ofZ 0
   ∧ expected = BigNumber.ofZ 0
   ∧ leastOtherHolding yesNoOutcomes sharesWithZeroEntry "0x01" = BigNumber.ofZ 0)
  ∧ (Order.sharesEscrowed r.1 = BigNumber.ofZ 7
     ∧ Order.tokensEscrowed r.1 = BigNumber.ofDecimal 18 1
     ∧ r.2 !! "0x02" = Some (BigNumber.ofZ 0)
     ∧ r.2 !! "0x00" = None)
  ∧ Order.sharesEscrowed r.1 ≠ expected
  ∧ (Order.sharesEscrowed r0.1 = BigNumber.ofZ 0
     ∧ Order.tokensEscrowed r0.1 = BigNumber.ofZ 6
     ∧ r0.2 !! "0x02" = Some (BigNumber.ofZ 7)).
Proof.
  cbv zeta.
  split; [repeat split; bn_decide|].
  split; [split; [bn_decide|split; [bn_decide|split; [bn_decide|reflexivity]]]|].
  split; [apply (bool_decide_unpack _); vm_compute; exact I|].
  repeat split; bn_decide.
Qed.

(** An ask for 10 shares at 0.70 with 4 shares of the outcome held: 4 shares
    are escrowed, tokens for the other 6 at [1 - 0.70], and the outcome's
    balance drops to 0; with none held the balance is recorded as 0. *)
Example ask_escrow_example :
  let r := addEscrowedAmountsDecrementShares askOrder "0x00" 1 yesNoMarket
             complementaryShares in
  Order.sharesEscrowed r.1 = BigNumber.ofZ 4
  ∧ Order.tokensEscrowed r.1 = BigNumber.ofDecimal 18 1
  ∧ r.2 !! "0x00" = Some (BigNumber.ofZ 0)
  ∧ r.2 !! "0x02" = Some (BigNumber.ofZ 7)
  ∧ (addEscrowedAmountsDecrementShares askOrder "0x01" 1 yesNoMarket complementaryShares).2
      !! "0x01" = Some BigNumber.zero.
Proof. repeat split; bn_decide. Qed.

Section EscrowInvariant.
Variable market : MarketData.t.

(** One order keeps the balances non-negative: a bid takes from every other
    outcome no more than the least of their balances, an ask takes from its
    own outcome no more than its balance. *)
Lemma addEscrowed_nonNegative (order : Order.t) (outcome : string) (orderType : Z)
  (userSharesBalances : gmap string BigNumber) :
  BigNumber.isFinite (Order.amount order) = true →
  allNonNegative userSharesBalances →
  let r := addEscrowedAmountsDecrementShares order outcome orderType market
             userSharesBalances in
  allNonNegative r.2
  ∧ (orderType = 0 →
     ∀ o balance, o ≠ outcome → userSharesBalances !! o = Some balance →
       BigNumber.lte (Order.sharesEscrowed r.1) balance = true)
  ∧ (orderType ≠ 0 →
     BigNumber.lte (Order.sharesEscrowed r.1)
                   (default BigNumber.zero (userSharesBalances !! outcome)) = true).
Proof.
  intros Hamount Hbalances r. subst r.
  destruct (Order.amount order) as [a| |] eqn:Ha; try discriminate. clear Hamount.
  destruct (Z.eq_dec orderType 0) as [->|Hask].
  - (* bid *)
    destruct (bid_fields order outcome market userSharesBalances)
      as (Hoffset & _ & Hothers & Hown).
    set (r := addEscrowedAmountsDecrementShares order outcome 0 market userSharesBalances) in *.
    rewrite Ha in Hoffset.
    assert (Hcap : ∃ s, Order.sharesEscrowed r.1 = Num s
                        ∧ ∀ o balance, o ≠ outcome →
                            userSharesBalances !! o = Some balance →
                            ∃ v, balance = Num v ∧ (0 ≤ v)%Qc ∧ (s ≤ v)%Qc).
    { destruct (omap _ (map_to_list userSharesBalances)) as [|first rest] eqn:Hlist.
      - rewrite BigNumberFacts.zero_Num in Hoffset.
        destruct (BigNumberFacts.min2_Num_le_l a 0%Qc) as (s & Hs & _ & _).
        exists s. split; [congruence|].
        intros o balance Hne Hlookup. exfalso.
        assert (Hin : balance ∈ omap (λ entry : string * BigNumber,
                                        if decide (outcome = entry.1) then None
                                        else Some entry.2)
                                     (map_to_list userSharesBalances))
          by (apply other_balances_elem; eauto).
        rewrite Hlist in Hin. inversion Hin.
      - assert (Hall : Forall (λ v, BigNumber.isFinite v = true) (first :: rest)).
        { apply Forall_forall. intros v Hv. rewrite <- Hlist in Hv.
          apply other_balances_elem in Hv as (o & _ & Hlookup).
          apply Hbalances, BigNumberFacts.nonNegative_Num in Hlookup as (q & -> & _).
          reflexivity. }
        destruct (BigNumberFacts.min_finite first rest Hall) as (m & Hm & _ & Hle).
        rewrite Hm in Hoffset.
        destruct (BigNumberFacts.min2_Num_le_l a m) as (s & Hs & _ & Hsm).
        exists s. split; [congruence|].
        intros o balance Hne Hlookup.
        pose proof (Hbalances o balance Hlookup) as Hnn.
        apply BigNumberFacts.nonNegative_Num in Hnn as (v & -> & Hv).
        exists v. split; [reflexivity|]. split; [exact Hv|].
        rewrite Forall_forall in Hle.
        assert (Hmv : BigNumber.lte (Num m) (Num v) = true).
        { apply Hle. rewrite <- Hlist. apply other_balances_elem. eauto. }
        apply BigNumberFacts.lte_Num in Hmv. eapply Qcle_trans; eassumption. }
    destruct Hcap as (s & Hs & Hcap). split; [|split; [|congruence]].
    + intros o balance' Hlookup'.
      destruct (decide (o = outcome)) as [->|Hne].
      * rewrite Hown in Hlookup'. exact (Hbalances _ _ Hlookup').
      * rewrite (Hothers o Hne) in Hlookup'.
        destruct (userSharesBalances !! o) as [balance|] eqn:Hlookup; [|discriminate].
        injection Hlookup' as <-.
        destruct (Hcap o balance Hne Hlookup) as (v & -> & _ & Hsv).
        change (nonNegative (BigNumber.minus (Num v) (Order.sharesEscrowed r.1)) = true).
        rewrite Hs. apply BigNumberFacts.minus_nonNegative, Hsv.
    + intros _ o balance Hne Hlookup.
      destruct (Hcap o balance Hne Hlookup) as (v & -> & _ & Hsv).
      rewrite Hs. apply BigNumberFacts.lte_Num, Hsv.
  - (* ask *)
    assert (Hown : ∃ v, default BigNumber.zero (userSharesBalances !! outcome) = Num v
                        ∧ (0 ≤ v)%Qc).
    { destruct (userSharesBalances !! outcome) as [balance|] eqn:Hlookup; simpl.
      - apply BigNumberFacts.nonNegative_Num. exact (Hbalances _ _ Hlookup).
      - apply BigNumberFacts.nonNegative_Num. reflexivity. }
    destruct Hown as (v & Hv & Hv0).
    destruct (BigNumberFacts.min2_Num_le_l a v) as (s & Hs & _ & Hsv).
    unfold addEscrowedAmountsDecrementShares.
    rewrite (proj2 (Z.eqb_neq orderType 0) Hask). simpl.
    rewrite Ha, Hv, Hs. split; [|split; [congruence|]].
    + intros o balance'. rewrite lookup_insert.
      destruct (decide (outcome = o)) as [->|Hne].
      * intros [= <-]. destruct (BigNumber.gt (Num v) BigNumber.zero).
        -- apply BigNumberFacts.minus_nonNegative, Hsv.
        -- apply BigNumberFacts.nonNegative_Num. eauto.
      * intros Hlookup. exact (Hbalances _ _ Hlookup).
    + intros _. apply BigNumberFacts.lte_Num, Hsv.
Qed.

(** A whole run of orders over one balance object keeps it non-negative. *)
Lemma escrowMarketOrders_nonNegative (orders : list (string * Z * Order.t)) :
  Forall (λ entry, BigNumber.isFinite (Order.amount entry.2) = true) orders →
  ∀ (userSharesBalances : gmap string BigNumber) (totalCost : BigNumber),
    allNonNegative userSharesBalances →
    allNonNegative (escrowMarketOrders market orders userSharesBalances totalCost).1.2.
Proof.
  induction 1 as [|[[outcome orderType] order] rest Hfinite _ IH];
    intros userSharesBalances totalCost Hbalances; [exact Hbalances|].
  simpl.
  pose proof (addEscrowed_nonNegative order outcome orderType userSharesBalances
                Hfinite Hbalances) as [Hstep _].
  destruct (addEscrowedAmountsDecrementShares order outcome orderType market
              userSharesBalances) as [order' balances].
  specialize (IH balances (BigNumber.plus totalCost (Order.tokensEscrowed order')) Hstep).
  destruct (escrowMarketOrders market rest balances _) as [[orders' balances'] totalCost'].
  exact IH.
Qed.

End EscrowInvariant.

(** C10. If every tracked balance is a non-negative number, then after one
    order with a numeric amount every balance still is: a bid's offset is
    at most each other outcome's balance, an ask's decrement is at most the
    balance of its own outcome.  Hence the balances stay non-negative along
    any sequence of such orders processed over the same balance object. *)
Theorem escrow_keeps_balances_nonNegative (market : MarketData.t)
  (userSharesBalances : gmap string BigNumber) :
  allNonNegative userSharesBalances →
  (∀ (order : Order.t) (outcome : string) (orderType : Z),
     BigNumber.isFinite (Order.amount order) = true →
     let r := addEscrowedAmountsDecrementShares order outcome orderType market
                userSharesBalances in
     allNonNegative r.2
     ∧ (orderType = 0 →
        ∀ o balance, o ≠ outcome → userSharesBalances !! o = Some balance →
          BigNumber.lte (Order.sharesEscrowed r.1) balance = true)
     ∧ (orderType ≠ 0 →
        BigNumber.lte (Order.sharesEscrowed r.1)
                      (default BigNumber.zero (userSharesBalances !! outcome)) = true))
  ∧ (∀ (orders : list (string * Z * Order.t)) (totalCost : BigNumber),
       Forall (λ entry, BigNumber.isFinite (Order.amount entry.2) = true) orders →
       allNonNegative (escrowMarketOrders market orders userSharesBalances totalCost).1.2).
Proof.
  intros Hbalances. split.
  - intros order outcome orderType Hfinite.
    exact (addEscrowed_nonNegative market order outcome orderType userSharesBalances
             Hfinite Hbalances).
  - intros orders totalCost Hfinite.
    exact (escrowMarketOrders_nonNegative market orders Hfinite userSharesBalances
             totalCost Hbalances).
Qed.

Lemma complementaryShares_nonNegative : allNonNegative complementaryShares.
Proof.
  unfold allNonNegative, complementaryShares.
  apply map_Forall_insert_2; [reflexivity|].
  apply map_Forall_insert_2; [reflexivity|].
  apply map_Forall_empty.
Qed.

(** The invariant on holdings of 4 and 7 shares in [yesNoMarket]. *)
Lemma escrow_keeps_balances_nonNegative_witness :
  (∀ (order : Order.t) (outcome : string) (orderType : Z),
     BigNumber.isFinite (Order.amount order) = true →
     let r := addEscrowedAmountsDecrementShares order outcome orderType yesNoMarket
                complementaryShares in
     allNonNegative r.2
     ∧ (orderType = 0 →
        ∀ o balance, o ≠ outcome → complementaryShares !! o = Some balance →
          BigNumber.lte (Order.sharesEscrowed r.1) balance = true)
     ∧ (orderType ≠ 0 →
        BigNumber.lte (Order.sharesEscrowed r.1)
                      (default BigNumber.zero (complementaryShares !! outcome)) = true))
  ∧ (∀ (orders : list (string * Z * Order.t)) (totalCost : BigNumber),
       Forall (λ entry, BigNumber.isFinite (Order.amount entry.2) = true) orders →
       allNonNegative
         (escrowMarketOrders yesNoMarket orders complementaryShares totalCost).1.2).
Proof.
  apply (escrow_keeps_balances_nonNegative yesNoMarket complementaryShares).
  exact complementaryShares_nonNegative.
Defined.

(** Two bids on outcome [0x01] and an ask on [0x02], in that order, against
    holdings of 4 and 7: the first bid takes the whole offset of 4, the
    second finds none left, the ask is covered by the 3 shares that remain. *)
Example escrowMarketOrders_example :
  let r := escrowMarketOrders yesNoMarket
             [("0x01", 0, bidOrder); ("0x01", 0, bidOrder); ("0x02", 1, askOrder)]
             complementaryShares BigNumber.zero in
  map Order.sharesEscrowed r.1.1 = [BigNumber.ofZ 4; BigNumber.ofZ 0; BigNumber.ofZ 3]
  ∧ map Order.tokensEscrowed r.1.1
    = [BigNumber.ofDecimal 36 1; BigNumber.ofZ 6; BigNumber.ofDecimal 21 1]
  ∧ r.1.2 !! "0x00" = Some (BigNumber.ofZ 0)
  ∧ r.1.2 !! "0x02" = Some (BigNumber.ofZ 0)
  ∧ r.2 = BigNumber.ofDecimal 117 1.
Proof. repeat split; bn_decide. Qed.

(** ** Full-loss detector *)

Section FullLoss.

Local Open Scope Qc_scope.

(** On non-negative numbers the inner reduce computes the payout-weighted
    sum exactly. *)
Lemma reduce_payoutSum (outcomeBalance : gmap string BigNumber)
  (payoutNumerators : list BigNumber) :
  allNonNegative outcomeBalance →
  Forall (λ numerator, nonNegative numerator = true) payoutNumerators →
  ∀ (acc : Qc) (index : nat),
    reduceWithIndex
      (λ sum outcome index,
         let balance := default BigNumber.zero (outcomeBalance !! ("0x0" +:+ pretty index)) in
         BigNumber.plus sum (BigNumber.times balance outcome))
      payoutNumerators (Num acc) index
    = Num (acc + payoutSum (λ i, valueOf (outcomeBalanceAt outcomeBalance i))
                           (map valueOf payoutNumerators) index).
Proof.
  intros Hbalances. induction 1 as [|numerator rest Hnum _ IH]; intros acc index; simpl.
  - f_equal. ring.
  - apply BigNumberFacts.nonNegative_Num in Hnum as (n & -> & _).
    assert (Hbal : ∃ b, default BigNumber.zero (outcomeBalance !! ("0x0" +:+ pretty index))
                        = Num b).
    { destruct (outcomeBalance !! ("0x0" +:+ pretty index)) as [balance|] eqn:Hlookup; simpl.
      - apply Hbalances, BigNumberFacts.nonNegative_Num in Hlookup as (b & -> & _). eauto.
      - rewrite BigNumberFacts.zero_Num. eauto. }
    destruct Hbal as (b & Hb). unfold outcomeBalanceAt at 1. rewrite Hb. simpl.
    rewrite IH. f_equal. ring.
Qed.

Lemma payoutSum_nonNegative (balanceOf : nat → Qc) (payoutNumerators : list Qc) :
  (∀ i, 0 ≤ balanceOf i) → Forall (λ n, 0 ≤ n) payoutNumerators →
  ∀ index, 0 ≤ payoutSum balanceOf payoutNumerators index.
Proof.
  intros Hbalances. induction 1 as [|n rest Hn _ IH]; intros index; simpl.
  - apply Qcle_refl.
  - apply Qcplus_nonneg_nonneg; [apply Qcmult_nonneg_nonneg|]; auto.
Qed.

Lemma totalPositionValue_sum (outcomeBalance : gmap string BigNumber)
  (payoutNumerators : list BigNumber) :
  allNonNegative outcomeBalance →
  Forall (λ numerator, nonNegative numerator = true) payoutNumerators →
  let total := payoutSum (λ i, valueOf (outcomeBalanceAt outcomeBalance i))
                         (map valueOf payoutNumerators) 0 in
  totalPositionValue payoutNumerators outcomeBalance = Num total ∧ 0 ≤ total.
Proof.
  intros Hbalances Hnums total. split.
  - pose proof (reduce_payoutSum outcomeBalance payoutNumerators Hbalances Hnums 0 0%nat)
      as Hreduce.
    rewrite <- BigNumberFacts.zero_Num in Hreduce.
    unfold totalPositionValue. cbv zeta in Hreduce. rewrite Hreduce.
    f_equal. subst total. ring.
  - apply payoutSum_nonNegative.
    + intros i. unfold outcomeBalanceAt.
      destruct (outcomeBalance !! ("0x0" +:+ pretty i)) as [balance|] eqn:Hlookup; simpl.
      * apply Hbalances, BigNumberFacts.nonNegative_Num in Hlookup as (b & -> & Hb).
        exact Hb.
      * bn_decide.
    + apply Forall_fmap. eapply Forall_impl; [exact Hnums|]. simpl.
      intros numerator Hn. apply BigNumberFacts.nonNegative_Num in Hn as (n & -> & Hn).
      exact Hn.
Qed.

(** A non-negative value is "not greater than 0" exactly when it is 0. *)
Lemma gt_zero_nonNegative (total : Qc) :
  0 ≤ total → (BigNumber.gt (Num total) BigNumber.zero = false ↔ Num total = BigNumber.zero).
Proof.
  intros Hnn. rewrite BigNumberFacts.zero_Num. split.
  - intros Hgt. f_equal. apply Qcle_antisym; [|exact Hnn].
    apply Qcnot_lt_le. intros Hlt. apply BigNumberFacts.gt_Num in Hlt. congruence.
  - intros [= ->]. apply not_true_is_false. intros Hgt.
    apply BigNumberFacts.gt_Num in Hgt. exact (Qclt_not_eq _ _ Hgt eq_refl).
Qed.

End FullLoss.

(** The detector appends to its accumulator the finalized markets whose
    position value is 0, and does not throw. *)
Lemma getFullMarketPositionLoss_filter (markets : gmap string MarketData.t)
  (shareTokenBalancesByMarketAndOutcome : gmap string (gmap string BigNumber))
  (finalizedMarketIds : list string) :
  Forall (finalizedMarketData markets shareTokenBalancesByMarketAndOutcome)
         finalizedMarketIds →
  ∀ result,
    getFullMarketPositionLoss finalizedMarketIds markets
      shareTokenBalancesByMarketAndOutcome result
    = Ok (result
          ++ filter (λ marketId,
                       marketPositionValue markets shareTokenBalancesByMarketAndOutcome
                                           marketId = BigNumber.zero)
                    finalizedMarketIds).
Proof.
  induction 1 as [|marketId rest Hdata _ IH]; intros result; simpl.
  - rewrite app_nil_r. reflexivity.
  - destruct Hdata as (marketDoc & outcomeBalance & Hdoc & Hbal & Hnums & Hnn).
    rewrite Hdoc, Hbal. simpl.
    destruct (totalPositionValue_sum outcomeBalance _ Hnn Hnums) as [Htotal Hpos].
    assert (Hval : marketPositionValue markets shareTokenBalancesByMarketAndOutcome marketId
                   = totalPositionValue
                       (default [] (MarketData.winningPayoutNumerators marketDoc))
                       outcomeBalance)
      by (unfold marketPositionValue; rewrite Hdoc, Hbal; reflexivity).
    rewrite filter_cons.
    destruct (decide (marketPositionValue markets shareTokenBalancesByMarketAndOutcome
                        marketId = BigNumber.zero)) as [Hzero|Hvalue];
      rewrite Hval, Htotal in *.
    + rewrite (proj2 (gt_zero_nonNegative _ Hpos) Hzero).
      rewrite IH, <- app_assoc. reflexivity.
    + destruct (BigNumber.gt (Num _) BigNumber.zero) eqn:Hgt; [apply IH|].
      apply gt_zero_nonNegative in Hgt; [contradiction|exact Hpos].
Qed.

(** The detector on well-formed data.  For finalized markets whose market
    document and balance entry are present, with numerators and balances
    non-negative numbers, the detector returns, and it flags a market exactly
    when the market is among the finalized ones and its position value, which
    is the sum over the outcomes of balance times winning payout numerator,
    is 0.  With numerators [0, 1], balances of 5 and 0 are flagged and
    balances of 0 and 3 are not. *)
Lemma full_loss_detector (markets : gmap string MarketData.t)
  (shareTokenBalancesByMarketAndOutcome : gmap string (gmap string BigNumber))
  (finalizedMarketIds : list string) :
  Forall (finalizedMarketData markets shareTokenBalancesByMarketAndOutcome)
         finalizedMarketIds →
  (∃ flagged,
     getFullMarketPositionLoss finalizedMarketIds markets
       shareTokenBalancesByMarketAndOutcome [] = Ok flagged
     ∧ ∀ marketId,
         marketId ∈ flagged
         ↔ marketId ∈ finalizedMarketIds
           ∧ marketPositionValue markets shareTokenBalancesByMarketAndOutcome marketId
             = BigNumber.zero)
  ∧ (∀ marketId marketDoc outcomeBalance,
       marketId ∈ finalizedMarketIds →
       markets !! marketId = Some marketDoc →
       shareTokenBalancesByMarketAndOutcome !! marketId = Some outcomeBalance →
       marketPositionValue markets shareTokenBalancesByMarketAndOutcome marketId
       = Num (payoutSum (λ i, valueOf (outcomeBalanceAt outcomeBalance i))
                (map valueOf (default [] (MarketData.winningPayoutNumerators marketDoc)))
                0))
  ∧ getFullMarketPositionLoss ["0xmarket"] {[ "0xmarket" := resolvedMarket ]}
      losingShares [] = Ok ["0xmarket"]
  ∧ getFullMarketPositionLoss ["0xmarket"] {[ "0xmarket" := resolvedMarket ]}
      winningShares [] = Ok [].
Proof.
  intros Hdata. split; [|split; [|split]].
  - eexists. split.
    + apply (getFullMarketPositionLoss_filter _ _ _ Hdata).
    + intros marketId. simpl. rewrite list_elem_of_filter. tauto.
  - intros marketId marketDoc outcomeBalance Hin Hdoc Hbal.
    rewrite Forall_forall in Hdata.
    destruct (Hdata marketId Hin) as (doc & balances & Hdoc' & Hbal' & Hnums & Hnn).
    rewrite Hdoc in Hdoc'. injection Hdoc' as <-.
    rewrite Hbal in Hbal'. injection Hbal' as <-.
    unfold marketPositionValue. rewrite Hdoc, Hbal. simpl.
    apply (totalPositionValue_sum outcomeBalance _ Hnn Hnums).
  - vm_compute. reflexivity.
  - vm_compute. reflexivity.
Qed.

Lemma resolvedMarket_losing_data :
  finalizedMarketData {[ "0xmarket" := resolvedMarket ]} losingShares "0xmarket".
Proof.
  eexists _, _. split; [reflexivity|]. split; [reflexivity|]. split.
  - simpl. repeat constructor.
  - apply map_Forall_insert_2; [reflexivity|].
    apply map_Forall_insert_2; [reflexivity|]. apply map_Forall_empty.
Qed.

(** The detector on the account that holds only losing shares. *)
Lemma full_loss_detector_witness :
  (∃ flagged,
     getFullMarketPositionLoss ["0xmarket"] {[ "0xmarket" := resolvedMarket ]}
       losingShares [] = Ok flagged
     ∧ ∀ marketId,
         marketId ∈ flagged
         ↔ marketId ∈ ["0xmarket"]
           ∧ marketPositionValue {[ "0xmarket" := resolvedMarket ]} losingShares marketId
             = BigNumber.zero)
  ∧ (∀ marketId marketDoc outcomeBalance,
       marketId ∈ ["0xmarket"] →
       ({[ "0xmarket" := resolvedMarket ]} : gmap string MarketData.t) !! marketId
       = Some marketDoc →
       losingShares !! marketId = Some outcomeBalance →
       marketPositionValue {[ "0xmarket" := resolvedMarket ]} losingShares marketId
       = Num (payoutSum (λ i, valueOf (outcomeBalanceAt outcomeBalance i))
                (map valueOf (default [] (MarketData.winningPayoutNumerators marketDoc)))
                0))
  ∧ getFullMarketPositionLoss ["0xmarket"] {[ "0xmarket" := resolvedMarket ]}
      losingShares [] = Ok ["0xmarket"]
  ∧ getFullMarketPositionLoss ["0xmarket"] {[ "0xmarket" := resolvedMarket ]}
      winningShares [] = Ok [].
Proof.
  apply (full_loss_detector {[ "0xmarket" := resolvedMarket ]} losingShares ["0xmarket"]).
  constructor; [exact resolvedMarket_losing_data|constructor].
Defined.

(** C9. A finalized market of a position for which the account has no
    share balance at all: the sum of balance times winning payout numerator
    over the outcomes is 0, so the market is a total loss, but the detector
    throws a [TypeError] instead of flagging it, because it reads the
    outcome's row from a balance entry that does not exist.  With an entry
    for the market, even one without rows, it flags the market. *)
Theorem full_loss_detector_missing_balances :
  payoutSum (λ i, valueOf (outcomeBalanceAt ∅ i))
            (map valueOf (default [] (MarketData.winningPayoutNumerators resolvedMarket)))
            0
  = 0%Qc
  ∧ marketPositionValue {[ "0xmarket" := resolvedMarket ]} ∅ "0xmarket" = BigNumber.ofZ 0
  ∧ getFullMarketPositionLoss ["0xmarket"] {[ "0xmarket" := resolvedMarket ]} ∅ []
    = Throw "TypeError"
  ∧ getFullMarketPositionLoss ["0xmarket"] {[ "0xmarket" := resolvedMarket ]}
      {[ "0xmarket" := ∅ ]} []
    = Ok ["0xmarket"].
Proof.
  split; [apply (bool_decide_unpack _); vm_compute; exact I|].
  split; [bn_decide|]. split; vm_compute; reflexivity.
Qed.

(** The two position values of the examples: 5*0 + 0*1 and 0*0 + 3*1. *)
Example marketPositionValue_examples :
  marketPositionValue {[ "0xmarket" := resolvedMarket ]} losingShares "0xmarket"
  = BigNumber.ofZ 0
  ∧ marketPositionValue {[ "0xmarket" := resolvedMarket ]} winningShares "0xmarket"
    = BigNumber.ofZ 3.
Proof. split; bn_decide. Qed.

(** * Properties of the further functions *)

(** ** Log grouper *)

Section Grouper.
Context {TDoc : Type} `{MarketOutcomeLog TDoc}.

Lemma groupBy_lookup {A : Type} (iteratee : A → string) (collection : list A) (key : string) :
  groupBy iteratee collection !! key
  = match filter (λ value, iteratee value = key) collection with
    | [] => None
    | group => Some group
    end.
Proof.
  unfold groupBy. induction collection as [|value collection IH] using rev_ind.
  - reflexivity.
  - rewrite foldl_app. simpl. rewrite filter_app, filter_cons, filter_nil.
    rewrite lookup_insert. destruct (decide (iteratee value = key)) as [Heq|Hne].
    + subst key. rewrite IH.
      destruct (filter _ collection) as [|first rest]; reflexivity.
    + rewrite IH, app_nil_r. reflexivity.
Qed.

Lemma logNotAfter_trans (a b c : TDoc) :
  logNotAfter a b → logNotAfter b c → logNotAfter a c.
Proof. unfold logNotAfter, logBefore. intros Hab Hbc. lia. Qed.

Lemma logBefore_notAfter (a b : TDoc) : logBefore a b = true → logNotAfter a b.
Proof. unfold logNotAfter, logBefore. lia. Qed.

Lemma insertByLog_Permutation (x : TDoc) (sorted : list TDoc) :
  insertByLog x sorted ≡ₚ x :: sorted.
Proof.
  induction sorted as [|y rest IH]; simpl; [reflexivity|].
  destruct (logBefore y x); [|reflexivity].
  rewrite IH. apply Permutation_swap.
Qed.

Lemma insertByLog_sorted (x : TDoc) (sorted : list TDoc) :
  StronglySorted logNotAfter sorted → StronglySorted logNotAfter (insertByLog x sorted).
Proof.
  induction 1 as [|y rest Hsorted IH Hall]; simpl.
  - repeat constructor.
  - destruct (logBefore y x) eqn:Hyx.
    + constructor; [exact IH|].
      rewrite insertByLog_Permutation. constructor; [|exact Hall].
      apply logBefore_notAfter, Hyx.
    + constructor; [constructor; assumption|].
      constructor; [exact Hyx|].
      eapply Forall_impl; [exact Hall|]. intros z Hyz. simpl in Hyz.
      eapply logNotAfter_trans; [exact Hyx|exact Hyz].
Qed.

Lemma sortByLog_Permutation (docs : list TDoc) : sortByLog docs ≡ₚ docs.
Proof.
  induction docs as [|x docs IH]; simpl; [reflexivity|].
  rewrite insertByLog_Permutation, IH. reflexivity.
Qed.

Lemma sortByLog_sorted (docs : list TDoc) : StronglySorted logNotAfter (sortByLog docs).
Proof.
  induction docs as [|x docs IH]; simpl; [constructor|].
  apply insertByLog_sorted, IH.
Qed.

(** Sorting is stable: a list already in order is returned as it is, so the
    documents of one key class keep their order of arrival. *)
Lemma sortByLog_sorted_id (docs : list TDoc) :
  StronglySorted logNotAfter docs → sortByLog docs = docs.
Proof.
  induction 1 as [|x rest Hsorted IH Hall]; [reflexivity|].
  simpl. rewrite IH. destruct rest as [|y rest']; [reflexivity|].
  simpl. apply Forall_cons in Hall as [Hxy _]. unfold logNotAfter in Hxy.
  rewrite Hxy. reflexivity.
Qed.

Lemma sortByLog_nil_inv (docs : list TDoc) : sortByLog docs = [] → docs = [].
Proof.
  intros Hnil. apply Permutation_nil. rewrite <- Hnil. apply sortByLog_Permutation.
Qed.

(** The group found under a market and an outcome. *)
Lemma grouped_lookup (docs : list TDoc) (outcomeField : TDoc → string)
  (market outcome : string) :
  (groupDocumentsByMarketAndOutcome docs outcomeField !! market
   ≫= (λ byOutcome : gmap string (list TDoc), byOutcome !! outcome))
  = sortByLog
    <$> groupOf (filter (λ d, outcomeField d = outcome)
                        (filter (λ d, marketOf d = market) docs)).
Proof.
  unfold groupDocumentsByMarketAndOutcome. rewrite lookup_fmap, groupBy_lookup.
  destruct (filter (λ d, marketOf d = market) docs) as [|first rest] eqn:Hmarket;
    [reflexivity|].
  simpl. rewrite lookup_fmap, groupBy_lookup.
  destruct (filter (λ d, outcomeField d = outcome) (first :: rest)); reflexivity.
Qed.

Lemma grouped_group_facts (docs : list TDoc) (outcomeField : TDoc → string)
  (market outcome : string) (group : list TDoc) :
  (groupDocumentsByMarketAndOutcome docs outcomeField !! market
   ≫= (λ byOutcome : gmap string (list TDoc), byOutcome !! outcome)) = Some group →
  group ≠ []
  ∧ group ≡ₚ filter (λ d, marketOf d = market ∧ outcomeField d = outcome) docs.
Proof.
  rewrite grouped_lookup.
  destruct (filter (λ d, outcomeField d = outcome) (filter (λ d, marketOf d = market) docs))
    as [|first rest] eqn:Hfilter; [discriminate|].
  intros [= <-]. split.
  - intros Hnil. apply (sortByLog_nil_inv (first :: rest)) in Hnil. discriminate.
  - etrans; [apply (sortByLog_Permutation (first :: rest))|].
    rewrite <- Hfilter, list_filter_filter.
    apply Permutation_refl'. apply list_filter_iff. tauto.
Qed.

(** X1. The grouper files every document under its market and outcome and
    nowhere else.  What is found under a market and an outcome is the stable
    sort of exactly the input documents with that market and that outcome
    (nothing, not an empty group, when there is none); that group is in
    ascending (blockNumber, logIndex) order, holds each of those documents
    as often as the input does, and sorting it again changes nothing. *)
Theorem groupDocuments_partition (docs : list TDoc) (outcomeField : TDoc → string)
  (market outcome : string) :
  let matching := filter (λ d, marketOf d = market ∧ outcomeField d = outcome) docs in
  (groupDocumentsByMarketAndOutcome docs outcomeField !! market
   ≫= (λ byOutcome : gmap string (list TDoc), byOutcome !! outcome))
  = sortByLog <$> groupOf matching
  ∧ StronglySorted logNotAfter (sortByLog matching)
  ∧ sortByLog matching ≡ₚ matching
  ∧ sortByLog (sortByLog matching) = sortByLog matching.
Proof.
  intros matching. split; [|split; [|split]].
  - subst matching. rewrite grouped_lookup, list_filter_filter.
    do 2 f_equal. apply list_filter_iff. tauto.
  - apply sortByLog_sorted.
  - apply sortByLog_Permutation.
  - apply sortByLog_sorted_id, sortByLog_sorted.
Qed.

End Grouper.

(** ** Latest and prior reducers *)

Section Reducers.
Context {TDoc : Type} `{MarketOutcomeLog TDoc}.

Lemma latestOf_fold (docs : list TDoc) (start : TDoc) :
  ∃ latest,
    foldl (λ latestResult outcomeResult,
             match latestResult with
             | None => Some outcomeResult
             | Some latest =>
                 if (blockNumberOf latest <? blockNumberOf outcomeResult)
                    || ((blockNumberOf latest =? blockNumberOf outcomeResult)
                        && (logIndexOf latest <? logIndexOf outcomeResult))
                 then Some outcomeResult
                 else Some latest
             end)
          (Some start) docs = Some latest
    ∧ (latest = start ∨ latest ∈ docs)
    ∧ logNotAfter start latest
    ∧ Forall (λ d, logNotAfter d latest) docs.
Proof.
  revert start. induction docs as [|d docs IH]; intros start; simpl.
  - exists start. split; [reflexivity|]. split; [left; reflexivity|].
    split; [|constructor]. unfold logNotAfter, logBefore. lia.
  - fold (logBefore start d). destruct (logBefore start d) eqn:Hsd.
    + destruct (IH d) as (latest & Hfold & Hmem & Hd & Hall).
      exists latest. split; [exact Hfold|]. split.
      * right. destruct Hmem as [->|Hmem]; [apply list_elem_of_here|].
        apply list_elem_of_further, Hmem.
      * split; [|constructor; assumption].
        eapply logNotAfter_trans; [apply logBefore_notAfter, Hsd|exact Hd].
    + destruct (IH start) as (latest & Hfold & Hmem & Hs & Hall).
      exists latest. split; [exact Hfold|]. split.
      * destruct Hmem as [->|Hmem]; [left; reflexivity|].
        right. apply list_elem_of_further, Hmem.
      * split; [exact Hs|]. constructor; [|exact Hall].
        eapply logNotAfter_trans; [exact Hsd|exact Hs].
Qed.

(** X2. The latest-reducer returns nothing exactly on an empty group; on a
    non-empty group it returns one of the group's documents, and no document
    of the group has a greater (blockNumber, logIndex). *)
Theorem latestOf_maximal (docs : list TDoc) :
  (latestOf docs = None ↔ docs = [])
  ∧ (∀ latest, latestOf docs = Some latest →
       latest ∈ docs ∧ Forall (λ d, logNotAfter d latest) docs).
Proof.
  unfold latestOf. destruct docs as [|first rest].
  - split; [split; reflexivity|]. intros latest [=].
  - cbn [head].
    destruct (latestOf_fold (first :: rest) first) as (latest & Hfold & Hmem & _ & Hall).
    split.
    + split; [|discriminate]. intros Hnone. rewrite Hfold in Hnone. discriminate.
    + intros latest' Hsome. rewrite Hfold in Hsome. injection Hsome as <-.
      split; [|exact Hall]. destruct Hmem as [->|Hmem]; [apply list_elem_of_here|exact Hmem].
Qed.

(** On a group in ascending order with no two documents at the same block
    and log index the latest document is the last one. *)
Lemma latestOf_last (docs : list TDoc) :
  StronglySorted (λ a b, logBefore a b = true) docs → latestOf docs = last docs.
Proof.
  unfold latestOf. destruct docs as [|first rest]; [reflexivity|]. cbn [head].
  intros Hsorted. simpl.
  assert (Hirrefl : logBefore first first = false) by (unfold logBefore; lia).
  fold (logBefore first first). rewrite Hirrefl.
  revert first Hsorted Hirrefl. induction rest as [|d rest IH]; intros first Hsorted _.
  - reflexivity.
  - apply StronglySorted_inv in Hsorted as [Hrest Hall].
    apply Forall_cons in Hall as [Hfd _].
    simpl. fold (logBefore first d). rewrite Hfd.
    change (last (first :: d :: rest)) with (last (d :: rest)).
    apply IH; [exact Hrest|]. unfold logBefore. lia.
Qed.

End Reducers.

Section PriorReducer.
Context {TDoc : Type} `{MarketOutcomeLog TDoc}.
Variables (latest : gmap string (gmap string (option TDoc))) (e : TDoc).

(** One step of the prior-reducer: the candidate moves to the document at
    hand exactly when that document is from another block than the latest,
    comes strictly after the candidate and does not come after the latest. *)
Lemma priorLatestStep_spec (p d : TDoc) :
  latestFor latest d = Some e →
  ∃ c, priorLatestStep latest (Some p) d = Ok (Some c)
       ∧ ((c = d ∧ eligiblePrior e d ∧ logBefore p d = true)
          ∨ (c = p ∧ (eligiblePrior e d → logNotAfter d p))).
Proof.
  intros Hlookup. unfold priorLatestStep. rewrite Hlookup.
  destruct (String.eqb_spec (blockHashOf e) (blockHashOf d)) as [Hhash|Hhash].
  - exists p. split; [reflexivity|]. right. split; [reflexivity|].
    intros [Hne _]. congruence.
  - unfold eligiblePrior, logNotAfter, logBefore. cbv zeta.
    repeat match goal with
           | |- context [Z.ltb ?a ?b] =>
               lazymatch b with
               | context [if _ then _ else _] => fail
               | _ => destruct (Z.ltb_spec a b); cbn [andb orb]; cbv iota
               end
           | |- context [Z.eqb ?a ?b] =>
               lazymatch b with
               | context [if _ then _ else _] => fail
               | _ => destruct (Z.eqb_spec a b); cbn [andb orb]; cbv iota
               end
           end;
      eexists; (split; [reflexivity|]);
      first [ exfalso; lia
            | left; split; [reflexivity|]; split; [split; [congruence|reflexivity]|reflexivity]
            | right; split; [reflexivity|]; intros [_ Hle]; first [reflexivity|discriminate] ].
Qed.

Lemma priorLatest_fold (docs : list TDoc) :
  (∀ d, d ∈ docs → latestFor latest d = Some e) →
  ∀ p, ∃ c,
    foldl (λ acc outcomeResult,
             match acc with
             | Throw message => Throw message
             | Ok priorResult => priorLatestStep latest priorResult outcomeResult
             end)
          (Ok (Some p)) docs = Ok (Some c)
    ∧ (c = p ∨ (c ∈ docs ∧ eligiblePrior e c))
    ∧ logNotAfter p c
    ∧ (∀ d, d ∈ docs → eligiblePrior e d → logNotAfter d c).
Proof.
  induction docs as [|d docs IH]; intros Hlookup p.
  - exists p. split; [reflexivity|]. split; [left; reflexivity|].
    split; [unfold logNotAfter, logBefore; lia|]. intros d Hd. inversion Hd.
  - simpl.
    destruct (priorLatestStep_spec p d (Hlookup d (list_elem_of_here _ _)))
      as (c1 & Hstep & Hcase).
    rewrite Hstep.
    destruct (IH (λ x Hx, Hlookup x (list_elem_of_further _ _ _ Hx)) c1)
      as (c & Hfold & Hmem & Hc1 & Hmax).
    exists c. split; [exact Hfold|].
    assert (Hpc1 : logNotAfter p c1).
    { destruct Hcase as [(-> & _ & Hpd)|(-> & _)].
      - apply logBefore_notAfter, Hpd.
      - unfold logNotAfter, logBefore. lia. }
    split; [|split].
    + destruct Hmem as [->|[Hmem Helig]].
      * destruct Hcase as [(-> & Helig & _)|(-> & _)].
        -- right. split; [apply list_elem_of_here|exact Helig].
        -- left. reflexivity.
      * right. split; [apply list_elem_of_further, Hmem|exact Helig].
    + eapply logNotAfter_trans; eassumption.
    + intros x Hx Helig. apply elem_of_cons in Hx as [->|Hx].
      * destruct Hcase as [(-> & _)|(-> & Hdp)]; [exact Hc1|].
        eapply logNotAfter_trans; [apply Hdp, Helig|exact Hc1].
      * apply Hmax; assumption.
Qed.

(** X3. When the latest document of the group is [e], the prior-reducer
    does not throw; it returns nothing only on an empty group, and otherwise
    a document of the group that is either the group's first document or a
    document of another block than [e] not after [e], and that no such
    document of the group comes after.  In particular the prior of a
    one-document group is that document itself, even when it is the latest. *)
Theorem priorLatestOf_characterization (docs : list TDoc) :
  (∀ d, d ∈ docs → latestFor latest d = Some e) →
  match docs with
  | [] => priorLatestOf latest docs = Ok None
  | first :: rest =>
      ∃ prior,
        priorLatestOf latest docs = Ok (Some prior)
        ∧ prior ∈ docs
        ∧ (prior = first ∨ eligiblePrior e prior)
        ∧ (∀ d, d ∈ docs → eligiblePrior e d → logNotAfter d prior)
        ∧ (rest = [] → prior = first)
  end.
Proof.
  intros Hlookup. destruct docs as [|first rest]; [reflexivity|].
  destruct (priorLatest_fold (first :: rest) Hlookup first) as (c & Hfold & Hmem & _ & Hmax).
  exists c. split; [exact Hfold|]. split; [|split; [|split]].
  - destruct Hmem as [->|[Hmem _]]; [apply list_elem_of_here|exact Hmem].
  - destruct Hmem as [->|[_ Helig]]; [left; reflexivity|right; exact Helig].
  - exact Hmax.
  - intros ->. destruct Hmem as [->|[Hmem _]]; [reflexivity|].
    apply list_elem_of_singleton in Hmem. exact Hmem.
Qed.

End PriorReducer.

(** The prior-reducer on the sorted group of [threeRecords], whose latest
    document is the one of block 2. *)
Lemma priorLatestOf_characterization_witness :
  ∃ prior,
    priorLatestOf
      (reduceMarketAndOutcomeDocsToOnlyLatest
         (groupDocumentsByMarketAndOutcome threeRecords outcomeOf))
      [loggedAt 1 0 "0xb1"; loggedAt 1 1 "0xb1"; loggedAt 2 0 "0xb2"]
    = Ok (Some prior)
    ∧ prior ∈ [loggedAt 1 0 "0xb1"; loggedAt 1 1 "0xb1"; loggedAt 2 0 "0xb2"]
    ∧ (prior = loggedAt 1 0 "0xb1" ∨ eligiblePrior (loggedAt 2 0 "0xb2") prior)
    ∧ (∀ d, d ∈ [loggedAt 1 0 "0xb1"; loggedAt 1 1 "0xb1"; loggedAt 2 0 "0xb2"] →
         eligiblePrior (loggedAt 2 0 "0xb2") d → logNotAfter d prior)
    ∧ ([loggedAt 1 1 "0xb1"; loggedAt 2 0 "0xb2"] = [] → prior = loggedAt 1 0 "0xb1").
Proof.
  apply (priorLatestOf_characterization
           (reduceMarketAndOutcomeDocsToOnlyLatest
              (groupDocumentsByMarketAndOutcome threeRecords outcomeOf))
           (loggedAt 2 0 "0xb2")
           [loggedAt 1 0 "0xb1"; loggedAt 1 1 "0xb1"; loggedAt 2 0 "0xb2"]).
  intros d Hd.
  repeat (apply elem_of_cons in Hd as [->|Hd]; [vm_compute; reflexivity|]).
  inversion Hd.
Defined.

(** Records at (1,0), (1,1) and (2,0): the latest is the (2,0) record and
    the prior is the (1,1) record; a lone record is its own prior. *)
Example latest_and_prior_example :
  let group := sortByLog threeRecords in
  let latest :=
    reduceMarketAndOutcomeDocsToOnlyLatest
      (groupDocumentsByMarketAndOutcome threeRecords outcomeOf) in
  latestOf group = Some (loggedAt 2 0 "0xb2")
  ∧ priorLatestOf latest group = Ok (Some (loggedAt 1 1 "0xb1"))
  ∧ priorLatestOf
      (reduceMarketAndOutcomeDocsToOnlyLatest
         (groupDocumentsByMarketAndOutcome [loggedAt 2 0 "0xb2"] outcomeOf))
      [loggedAt 2 0 "0xb2"]
    = Ok (Some (loggedAt 2 0 "0xb2")).
Proof. repeat split; vm_compute; reflexivity. Qed.

Section Pipeline.
Context {TDoc : Type} `{MarketOutcomeLog TDoc}.

(** X4. In the pipeline of [getUserTradingPositions] (group the records,
    reduce each group to its latest record, then reduce each group to the
    prior of that latest), the prior-reducer never throws on a group of the
    grouper, and the prior it returns is a record of the group that does not
    come after the group's latest record. *)
Theorem prior_of_grouped_records (docs : list TDoc) (market outcome : string)
  (group : list TDoc) :
  (groupDocumentsByMarketAndOutcome docs outcomeOf !! market
   ≫= (λ byOutcome : gmap string (list TDoc), byOutcome !! outcome)) = Some group →
  ∃ latest prior,
    (reduceMarketAndOutcomeDocsToOnlyLatest (groupDocumentsByMarketAndOutcome docs outcomeOf)
       !! market ≫= (λ byOutcome : gmap string (option TDoc), byOutcome !! outcome))
    = Some (Some latest)
    ∧ latest ∈ group
    ∧ priorLatestOf
        (reduceMarketAndOutcomeDocsToOnlyLatest
           (groupDocumentsByMarketAndOutcome docs outcomeOf)) group
      = Ok (Some prior)
    ∧ prior ∈ group
    ∧ logNotAfter prior latest.
Proof.
  intros Hgroup.
  destruct (grouped_group_facts docs outcomeOf market outcome group Hgroup) as [Hne Hperm].
  destruct group as [|first rest]; [contradiction|].
  destruct (latestOf_fold (first :: rest) first) as (latest & Hlatest & Hmem & _ & Hmax).
  change (latestOf (first :: rest) = Some latest) in Hlatest.
  assert (Hmem' : latest ∈ first :: rest)
    by (destruct Hmem as [->|Hmem]; [apply list_elem_of_here|exact Hmem]).
  assert (Hmap : (reduceMarketAndOutcomeDocsToOnlyLatest
                    (groupDocumentsByMarketAndOutcome docs outcomeOf)
                    !! market ≫= (λ byOutcome : gmap string (option TDoc),
                                    byOutcome !! outcome))
                 = Some (Some latest)).
  { unfold reduceMarketAndOutcomeDocsToOnlyLatest. rewrite lookup_fmap.
    destruct (groupDocumentsByMarketAndOutcome docs outcomeOf !! market)
      as [byOutcome|]; [|discriminate].
    simpl in *. rewrite lookup_fmap, Hgroup. simpl. rewrite Hlatest. reflexivity. }
  assert (Hlookup : ∀ d, d ∈ first :: rest →
            latestFor (reduceMarketAndOutcomeDocsToOnlyLatest
                         (groupDocumentsByMarketAndOutcome docs outcomeOf)) d
            = Some latest).
  { intros d Hd. rewrite Hperm in Hd. apply list_elem_of_filter in Hd as [[Hm Ho] _].
    unfold latestFor. rewrite Hm, Ho, Hmap. reflexivity. }
  destruct (priorLatest_fold _ latest (first :: rest) Hlookup first)
    as (prior & Hfold & Hcase & _ & _).
  exists latest, prior. split; [exact Hmap|]. split; [exact Hmem'|].
  split; [exact Hfold|].
  destruct Hcase as [->|[Hin [_ Hle]]].
  - split; [apply list_elem_of_here|].
    apply Forall_cons in Hmax as [Hfirst _]. exact Hfirst.
  - split; [exact Hin|exact Hle].
Qed.

End Pipeline.

(** The pipeline on [threeRecords]. *)
Lemma prior_of_grouped_records_witness :
  ∃ latest prior,
    (reduceMarketAndOutcomeDocsToOnlyLatest
       (groupDocumentsByMarketAndOutcome threeRecords outcomeOf)
       !! "0xmarket"
     ≫= (λ byOutcome : gmap string (option (Logged.t ProfitLossChangedLog.t)),
           byOutcome !! "0x01"))
    = Some (Some latest)
    ∧ latest ∈ sortByLog threeRecords
    ∧ priorLatestOf
        (reduceMarketAndOutcomeDocsToOnlyLatest
           (groupDocumentsByMarketAndOutcome threeRecords outcomeOf))
        (sortByLog threeRecords)
      = Ok (Some prior)
    ∧ prior ∈ sortByLog threeRecords
    ∧ logNotAfter prior latest.
Proof.
  apply (prior_of_grouped_records threeRecords "0xmarket" "0x01" (sortByLog threeRecords)).
  vm_compute. reflexivity.
Defined.

(** ** Bucket schedule *)

Section Schedule.

Lemma StronglySorted_snoc {A : Type} (R : relation A) (l : list A) (e : A) :
  StronglySorted R l → Forall (λ x, R x e) l → StronglySorted R (l ++ [e]).
Proof.
  induction 1 as [|a l Hsorted IH Hall]; intros Hlt; simpl.
  - repeat constructor.
  - apply Forall_cons in Hlt as [Ha Hlt]. constructor; [auto|].
    apply Forall_app. split; [exact Hall|]. repeat constructor. exact Ha.
Qed.

Lemma seq_sorted (from n : nat) : StronglySorted lt (seq from n).
Proof.
  revert from. induction n as [|n IH]; intros from; simpl; constructor; [apply IH|].
  apply Forall_forall. intros k Hk. apply elem_of_seq in Hk. lia.
Qed.

Lemma bucketInstants_sorted (startTime interval endTime : Z) (n : nat) :
  0 < interval →
  (∀ t, t ∈ bucketInstants startTime interval n → t < endTime) →
  StronglySorted Z.lt (bucketInstants startTime interval n ++ [endTime]).
Proof.
  intros Hpos Hlt. apply StronglySorted_snoc.
  - unfold bucketInstants.
    induction (seq_sorted 0 n) as [|k l Hsorted IH Hall]; simpl; constructor; [exact IH|].
    apply Forall_fmap. eapply Forall_impl; [exact Hall|]. intros j Hj. simpl. nia.
  - apply Forall_forall. exact Hlt.
Qed.

(** The bucketer on a valid range, with all it establishes about the
    instants. *)
Lemma bucketRange_valid (fuel : nat) (startTime endTime : Z) (periodInterval : option Z) :
  0 ≤ startTime → startTime ≤ endTime → (Z.to_nat (endTime - startTime) ≤ fuel)%nat →
  match periodInterval with Some interval => 0 < interval | None => True end →
  let interval :=
    match periodInterval with
    | None => ceilDiv (endTime - startTime) DEFAULT_NUMBER_OF_BUCKETS
    | Some interval => interval
    end in
  ∃ n : nat,
    bucketRangeByInterval fuel startTime endTime periodInterval
    = Some (Ok (bucketInstants startTime interval n ++ [endTime]))
    ∧ (∀ t, t ∈ bucketInstants startTime interval n → t < endTime)
    ∧ (0 < interval → Z.of_nat n = ceilDiv (endTime - startTime) interval)
    ∧ (interval ≤ 0 → n = 0%nat)
    ∧ (startTime < endTime → 0 < interval).
Proof.
  intros Hstart Hle Hfuel Hvalid interval.
  assert (Hguards :
            bucketRangeByInterval fuel startTime endTime periodInterval
            = (buckets ← bucketLoop fuel endTime interval startTime [];
               Some (Ok (buckets ++ [endTime])))).
  { unfold bucketRangeByInterval.
    destruct (Z.ltb_spec startTime 0); [lia|].
    destruct (Z.ltb_spec endTime 0); [lia|].
    destruct (Z.ltb_spec endTime startTime); [lia|].
    destruct periodInterval as [i|]; [|reflexivity].
    destruct (Z.leb_spec i 0); [lia|reflexivity]. }
  assert (Hdefault : startTime < endTime → 0 < interval).
  { intros Hlt. subst interval. destruct periodInterval as [i|]; [exact Hvalid|].
    pose proof (ceilDiv_pos_bounds (endTime - startTime) DEFAULT_NUMBER_OF_BUCKETS
                  ltac:(reflexivity)) as [_ Hhi].
    unfold DEFAULT_NUMBER_OF_BUCKETS in *. lia. }
  destruct (Z.lt_ge_cases 0 interval) as [Hpos|Hnonpos].
  - destruct (bucketLoop_from_start fuel startTime endTime interval Hpos Hle Hfuel)
      as (Hloop & Hbelow & _).
    pose proof (ceilDiv_pos_bounds (endTime - startTime) interval Hpos) as [Hlo Hhi].
    exists (Z.to_nat (ceilDiv (endTime - startTime) interval)).
    rewrite Hguards, Hloop. simpl.
    split; [reflexivity|]. split; [exact Hbelow|].
    split; [intros _; nia|]. split; [lia|exact Hdefault].
  - assert (Heq : startTime = endTime) by lia.
    exists 0%nat. rewrite Hguards. subst endTime.
    destruct fuel; simpl; rewrite Z.ltb_irrefl; simpl.
    all: split; [reflexivity|]; split; [intros t Ht; inversion Ht|];
      split; [lia|]; split; [reflexivity|lia].
Qed.

End Schedule.

(** X5. On a valid range ([0 ≤ start ≤ end], the interval null or positive)
    and with fuel for [end - start] rounds, the bucketer returns a strictly
    increasing list of instants that begins with [start] and ends with
    [end]; with a positive interval [i] it has [ceil((end - start) / i) + 1]
    instants, and with a null interval never more than 31. *)
Theorem bucketRangeByInterval_shape (fuel : nat) (startTime endTime : Z)
  (periodInterval : option Z) :
  0 ≤ startTime → startTime ≤ endTime → (Z.to_nat (endTime - startTime) ≤ fuel)%nat →
  match periodInterval with Some interval => 0 < interval | None => True end →
  ∃ buckets,
    bucketRangeByInterval fuel startTime endTime periodInterval = Some (Ok buckets)
    ∧ StronglySorted Z.lt buckets
    ∧ head buckets = Some startTime
    ∧ last buckets = Some endTime
    ∧ match periodInterval with
      | Some interval =>
          Z.of_nat (length buckets) = ceilDiv (endTime - startTime) interval + 1
      | None => Z.of_nat (length buckets) ≤ DEFAULT_NUMBER_OF_BUCKETS + 1
      end.
Proof.
  intros Hstart Hle Hfuel Hvalid.
  destruct (bucketRange_valid fuel startTime endTime periodInterval Hstart Hle Hfuel Hvalid)
    as (n & Hrun & Hbelow & Hcount & Hzero & Hpos).
  cbv zeta in *.
  set (interval := match periodInterval with
                   | None => ceilDiv (endTime - startTime) DEFAULT_NUMBER_OF_BUCKETS
                   | Some interval => interval
                   end) in *.
  eexists. split; [exact Hrun|].
  split; [|split; [|split]].
  - destruct (Z.lt_ge_cases 0 interval) as [Hi|Hi].
    + apply bucketInstants_sorted; assumption.
    + rewrite (Hzero Hi). simpl. repeat constructor.
  - destruct n as [|n]; simpl.
    + f_equal. destruct (Z.eq_dec startTime endTime) as [|Hne]; [congruence|].
      specialize (Hpos ltac:(lia)). specialize (Hcount Hpos).
      pose proof (ceilDiv_pos_bounds (endTime - startTime) interval Hpos). nia.
    + f_equal. lia.
  - apply last_snoc.
  - rewrite length_app, Nat.add_1_r. unfold bucketInstants. rewrite length_map, length_seq.
    destruct periodInterval as [i|].
    + subst interval. specialize (Hcount Hvalid). lia.
    + destruct (Z.lt_ge_cases 0 interval) as [Hi|Hi].
      * specialize (Hcount Hi).
        pose proof (ceilDiv_pos_bounds (endTime - startTime) interval Hi) as [Hlo _].
        pose proof (ceilDiv_pos_bounds (endTime - startTime) DEFAULT_NUMBER_OF_BUCKETS
                      ltac:(reflexivity)) as [_ Hhi].
        fold interval in Hhi. unfold DEFAULT_NUMBER_OF_BUCKETS in *. nia.
      * rewrite (Hzero Hi). unfold DEFAULT_NUMBER_OF_BUCKETS. lia.
Qed.

(** A hundred seconds at an interval of thirty: five instants. *)
Lemma bucketRangeByInterval_shape_witness :
  ∃ buckets,
    bucketRangeByInterval 100 1000 1100 (Some 30) = Some (Ok buckets)
    ∧ StronglySorted Z.lt buckets
    ∧ head buckets = Some 1000
    ∧ last buckets = Some 1100
    ∧ Z.of_nat (length buckets) = ceilDiv (1100 - 1000) 30 + 1.
Proof.
  apply (bucketRangeByInterval_shape 100 1000 1100 (Some 30)); lia.
Defined.

(** X6. When [endTime] (or, without it, the time of the chain) equals a
    positive [startTime] and no [periodInterval] is given, [getProfitLoss]
    throws the bucketer's complaint about the interval: it derives the
    interval 0 and passes it on as a number, whereas the bucketer called with
    a null interval on the same range returns the single instant. *)
Theorem getProfitLoss_equal_times_rejected (fuel : nat) (now startTime : Z)
  (endTime : option Z) :
  0 < startTime → orElse endTime now = startTime →
  getProfitLossBuckets fuel now (Some startTime) endTime None
  = Some (Throw "periodInterval must be positive integer (seconds)")
  ∧ bucketRangeByInterval fuel startTime startTime None = Some (Ok [startTime]).
Proof.
  intros Hpos Hend. unfold getProfitLossBuckets. rewrite Hend.
  destruct (Z.eqb_spec startTime 0); [lia|].
  unfold bucketRangeByInterval.
  destruct (Z.ltb_spec startTime 0); [lia|].
  rewrite Z.ltb_irrefl, Z.sub_diag. split; [reflexivity|].
  destruct fuel; simpl; rewrite Z.ltb_irrefl; reflexivity.
Qed.

Lemma getProfitLoss_equal_times_rejected_witness :
  getProfitLossBuckets 10 1500 (Some 1500) None None
  = Some (Throw "periodInterval must be positive integer (seconds)")
  ∧ bucketRangeByInterval 10 1500 1500 None = Some (Ok [1500]).
Proof.
  apply (getProfitLoss_equal_times_rejected 10 1500 1500 None); [lia|reflexivity].
Defined.

(** X7. The schedule [getProfitLossSummary] asks for, for a period of
    [days] days ending at [endTime] (the time of the chain when [endTime] is
    absent or 0): when the period begins after the epoch there are exactly
    the two instants [endTime - period] and [endTime]; when it begins at the
    epoch [getProfitLoss] throws for want of a [startTime], and when it
    begins before the epoch the bucketer rejects the negative [startTime]. *)
Theorem getProfitLossSummary_schedule (fuel : nat) (now : Z) (endTime : option Z)
  (days : Z) :
  0 < days →
  let periodInterval := days * 60 * 60 * 24 in
  let effectiveEnd := orElse endTime now in
  getProfitLossSummaryBuckets (S fuel) now endTime days
  = Some (if periodInterval <? effectiveEnd
          then Ok [effectiveEnd - periodInterval; effectiveEnd]
          else if periodInterval =? effectiveEnd
          then Throw "'getProfitLoss' requires a 'startTime' param be provided"
          else Throw "startTime must be a valid unix timestamp, greater than 0").
Proof.
  intros Hdays periodInterval effectiveEnd.
  unfold getProfitLossSummaryBuckets, getProfitLossBuckets.
  fold periodInterval. fold effectiveEnd.
  assert (Hperiod : 0 < periodInterval) by (subst periodInterval; lia).
  assert (Hend : orElse (Some effectiveEnd) now = effectiveEnd).
  { unfold orElse at 1. destruct (Z.eqb_spec effectiveEnd 0) as [Hzero|]; [|reflexivity].
    subst effectiveEnd. unfold orElse in *. destruct endTime as [e|]; [|lia].
    destruct (Z.eqb_spec e 0); lia. }
  rewrite Hend.
  destruct (Z.ltb_spec periodInterval effectiveEnd) as [Hlt|Hge].
  - destruct (Z.eqb_spec (effectiveEnd - periodInterval) 0); [lia|].
    unfold bucketRangeByInterval.
    destruct (Z.ltb_spec (effectiveEnd - periodInterval) 0); [lia|].
    destruct (Z.ltb_spec effectiveEnd 0); [lia|].
    destruct (Z.ltb_spec effectiveEnd (effectiveEnd - periodInterval)); [lia|].
    destruct (Z.leb_spec periodInterval 0); [lia|].
    simpl.
    destruct (Z.ltb_spec (effectiveEnd - periodInterval) effectiveEnd); [|lia].
    replace (effectiveEnd - periodInterval + periodInterval) with effectiveEnd by lia.
    destruct fuel; simpl; rewrite Z.ltb_irrefl; reflexivity.
  - destruct (Z.eqb_spec periodInterval effectiveEnd) as [Heq|Hne].
    + destruct (Z.eqb_spec (effectiveEnd - periodInterval) 0); [reflexivity|lia].
    + destruct (Z.eqb_spec (effectiveEnd - periodInterval) 0); [lia|].
      unfold bucketRangeByInterval.
      destruct (Z.ltb_spec (effectiveEnd - periodInterval) 0); [reflexivity|lia].
Qed.

(** The day and the month ending at instant 5 000 000. *)
Lemma getProfitLossSummary_schedule_witness :
  getProfitLossSummaryBuckets 1 0 (Some 5000000) ONE_DAY = Some (Ok [4913600; 5000000])
  ∧ getProfitLossSummaryBuckets 1 0 (Some 5000000) DAYS_IN_MONTH
    = Some (Ok [2408000; 5000000]).
Proof.
  split.
  - apply (getProfitLossSummary_schedule 0 0 (Some 5000000) ONE_DAY). reflexivity.
  - apply (getProfitLossSummary_schedule 0 0 (Some 5000000) DAYS_IN_MONTH). reflexivity.
Defined.

(** ** Latest-before resolver on any sequence *)

Section ResolverPrefix.
Context {TDoc : Type} `{Timestamped TDoc}.

Lemma takeWhile_split (predicate : TDoc → bool) (docs : list TDoc) :
  ∃ after,
    docs = takeWhile predicate docs ++ after
    ∧ Forall (λ doc, predicate doc = true) (takeWhile predicate docs)
    ∧ match after with [] => True | next :: _ => predicate next = false end.
Proof.
  induction docs as [|doc docs (after & Heq & Hall & Hnext)]; simpl.
  - exists []. repeat split. constructor.
  - destruct (predicate doc) eqn:Hdoc.
    + exists after. split; [simpl; f_equal; exact Heq|]. split; [|exact Hnext].
      constructor; assumption.
    + exists (doc :: docs). split; [reflexivity|]. split; [constructor|exact Hdoc].
Qed.

(** X8. On any sequence of documents, ordered by time or not, the resolver
    returns the last document of the longest prefix whose documents are all
    at or before the instant: the documents up to the returned one are all at
    or before the instant and the next one, if any, is later.  It returns
    nothing exactly when the sequence is empty or begins with a later
    document. *)
Theorem getLastDocBeforeTimestamp_prefix (docs : list TDoc) (timestamp : Z) :
  match getLastDocBeforeTimestamp docs timestamp with
  | Some doc =>
      ∃ before after,
        docs = before ++ doc :: after
        ∧ Forall (λ d, timestampOf d ≤ timestamp) (before ++ [doc])
        ∧ match after with [] => True | next :: _ => timestamp < timestampOf next end
  | None =>
      match docs with [] => True | first :: _ => timestamp < timestampOf first end
  end.
Proof.
  rewrite getLastDocBeforeTimestamp_last.
  destruct (takeWhile_split (λ doc, timestampOf doc <=? timestamp) docs)
    as (after & Heq & Hall & Hnext).
  destruct (takeWhile (λ doc, timestampOf doc <=? timestamp) docs) as [|doc before _]
    using rev_ind.
  - simpl in *. subst after. destruct docs as [|first rest]; [exact I|]. lia.
  - rewrite last_snoc. exists before, after. split; [|split].
    + rewrite Heq, <- app_assoc. reflexivity.
    + eapply Forall_impl; [exact Hall|]. simpl. intros d Hd. lia.
    + destruct after as [|next after]; [exact I|]. lia.
Qed.

End ResolverPrefix.

(** ** Sums of decimal values *)

Module BigNumberSums.

Lemma plus_commutative (a b : BigNumber) : BigNumber.plus a b = BigNumber.plus b a.
Proof.
  destruct a as [x|[]|], b as [y|[]|]; simpl; try reflexivity.
  f_equal. ring.
Qed.

Lemma plus_associative (a b c : BigNumber) :
  BigNumber.plus (BigNumber.plus a b) c = BigNumber.plus a (BigNumber.plus b c).
Proof.
  destruct a as [x|[]|], b as [y|[]|], c as [z|[]|]; simpl; try reflexivity.
  f_equal. ring.
Qed.

Lemma plus_zero_l (a : BigNumber) : BigNumber.plus BigNumber.zero a = a.
Proof.
  rewrite BigNumberFacts.zero_Num. destruct a as [x|s|]; simpl; try reflexivity.
  f_equal. ring.
Qed.

Lemma plus_zero_r (a : BigNumber) : BigNumber.plus a BigNumber.zero = a.
Proof. rewrite plus_commutative. apply plus_zero_l. Qed.

End BigNumberSums.

(** ** Rollups of rollups and of reordered positions *)

Section RollupAlgebra.

Lemma foldl_plus_shift (field : MarketTradingPosition.t → BigNumber)
  (ps : list MarketTradingPosition.t) (acc : BigNumber) :
  foldl (λ a p, BigNumber.plus a (field p)) acc ps = BigNumber.plus acc (sumOf field ps).
Proof.
  unfold sumOf. revert acc. induction ps as [|p ps IH]; intros acc; cbn [foldl].
  - symmetry. apply BigNumberSums.plus_zero_r.
  - rewrite IH, (IH (BigNumber.plus BigNumber.zero (field p))).
    rewrite BigNumberSums.plus_zero_l. apply BigNumberSums.plus_associative.
Qed.

Lemma sumOf_cons (field : MarketTradingPosition.t → BigNumber)
  (p : MarketTradingPosition.t) (ps : list MarketTradingPosition.t) :
  sumOf field (p :: ps) = BigNumber.plus (field p) (sumOf field ps).
Proof.
  unfold sumOf at 1. cbn [foldl]. rewrite foldl_plus_shift, BigNumberSums.plus_zero_l.
  reflexivity.
Qed.

Lemma sumOf_app (field : MarketTradingPosition.t → BigNumber)
  (ps qs : list MarketTradingPosition.t) :
  sumOf field (ps ++ qs) = BigNumber.plus (sumOf field ps) (sumOf field qs).
Proof.
  induction ps as [|p ps IH]; cbn [app].
  - symmetry. apply BigNumberSums.plus_zero_l.
  - rewrite !sumOf_cons, IH. symmetry. apply BigNumberSums.plus_associative.
Qed.

Lemma sumOf_Permutation (field : MarketTradingPosition.t → BigNumber)
  (ps qs : list MarketTradingPosition.t) :
  ps ≡ₚ qs → sumOf field ps = sumOf field qs.
Proof.
  induction 1 as [|p ps qs _ IH|p q ps|ps qs rs _ IH1 _ IH2].
  - reflexivity.
  - rewrite !sumOf_cons, IH. reflexivity.
  - rewrite !sumOf_cons, <- !BigNumberSums.plus_associative.
    f_equal. apply BigNumberSums.plus_commutative.
  - congruence.
Qed.

(** The summed fields of a rollup, each as the sum of the inputs' field. *)
Lemma rollup_sums (ps : list MarketTradingPosition.t) :
  let r := sumTradingPositions ps in
  MarketTradingPosition.frozenFunds r = sumOf MarketTradingPosition.frozenFunds ps
  ∧ MarketTradingPosition.realized r = sumOf MarketTradingPosition.realized ps
  ∧ MarketTradingPosition.unrealized r = sumOf MarketTradingPosition.unrealized ps
  ∧ MarketTradingPosition.unrealized24Hr r = sumOf MarketTradingPosition.unrealized24Hr ps
  ∧ MarketTradingPosition.realizedCost r = sumOf MarketTradingPosition.realizedCost ps
  ∧ MarketTradingPosition.unrealizedCost r = sumOf MarketTradingPosition.unrealizedCost ps
  ∧ MarketTradingPosition.currentValue r = sumOf MarketTradingPosition.currentValue ps.
Proof.
  pose proof (foldl_sumStep_fields ps zeroTradingPosition) as Hfields.
  cbv zeta in *. unfold sumTradingPositions, sumOf. simpl. exact Hfields.
Qed.

(** The figures of a rollup depend on the inputs through the seven sums
    only. *)
Lemma amounts_from_sums (ps qs : list MarketTradingPosition.t) :
  sumOf MarketTradingPosition.frozenFunds ps = sumOf MarketTradingPosition.frozenFunds qs →
  sumOf MarketTradingPosition.realized ps = sumOf MarketTradingPosition.realized qs →
  sumOf MarketTradingPosition.unrealized ps = sumOf MarketTradingPosition.unrealized qs →
  sumOf MarketTradingPosition.unrealized24Hr ps
  = sumOf MarketTradingPosition.unrealized24Hr qs →
  sumOf MarketTradingPosition.realizedCost ps = sumOf MarketTradingPosition.realizedCost qs →
  sumOf MarketTradingPosition.unrealizedCost ps
  = sumOf MarketTradingPosition.unrealizedCost qs →
  sumOf MarketTradingPosition.currentValue ps = sumOf MarketTradingPosition.currentValue qs →
  amounts (sumTradingPositions ps) = amounts (sumTradingPositions qs).
Proof.
  intros H1 H2 H3 H4 H5 H6 H7.
  pose proof (foldl_sumStep_fields ps zeroTradingPosition) as Hps.
  pose proof (foldl_sumStep_fields qs zeroTradingPosition) as Hqs.
  cbv zeta in *.
  destruct Hps as (Hp1 & Hp2 & Hp3 & Hp4 & Hp5 & Hp6 & Hp7).
  destruct Hqs as (Hq1 & Hq2 & Hq3 & Hq4 & Hq5 & Hq6 & Hq7).
  unfold sumOf in H1, H2, H3, H4, H5, H6, H7.
  unfold amounts, sumTradingPositions. cbv zeta. simpl.
  rewrite Hp1, Hp2, Hp3, Hp4, Hp5, Hp6, Hp7, Hq1, Hq2, Hq3, Hq4, Hq5, Hq6, Hq7.
  simpl. rewrite H1, H2, H3, H4, H5, H6, H7. reflexivity.
Qed.

(** A field the rollup passes on as the sum of the inputs' field sums to
    the same over the rollups of groups as over all their positions. *)
Lemma sumOf_rollups (field : MarketTradingPosition.t → BigNumber)
  (groups : list (list MarketTradingPosition.t)) :
  (∀ ps, field (sumTradingPositions ps) = sumOf field ps) →
  sumOf field (sumTradingPositions <$> groups) = sumOf field (concat groups).
Proof.
  intros Hfield. induction groups as [|group groups IH]; [reflexivity|].
  cbn [fmap list_fmap concat]. rewrite sumOf_cons, sumOf_app, Hfield.
  f_equal. exact IH.
Qed.

End RollupAlgebra.

(** X9. The figures of a rollup do not depend on the order of the
    positions: reordering the input changes no sum, no total and no
    percentage (only the timestamp and the market id, which are those of the
    last position, can change). *)
Theorem sumTradingPositions_order_independent
  (tradingPositions reordered : list MarketTradingPosition.t) :
  tradingPositions ≡ₚ reordered →
  amounts (sumTradingPositions tradingPositions)
  = amounts (sumTradingPositions reordered).
Proof.
  intros Hperm. apply amounts_from_sums; apply sumOf_Permutation; exact Hperm.
Qed.

Lemma sumTradingPositions_order_independent_witness :
  amounts (sumTradingPositions [positionOf 5 2 10 4; positionOf (-3) 1 6 2])
  = amounts (sumTradingPositions [positionOf (-3) 1 6 2; positionOf 5 2 10 4]).
Proof.
  apply (sumTradingPositions_order_independent
           [positionOf 5 2 10 4; positionOf (-3) 1 6 2]
           [positionOf (-3) 1 6 2; positionOf 5 2 10 4]).
  apply Permutation_swap.
Defined.

(** X10. Rolling up rollups gives the figures of rolling up all the
    positions at once: for any grouping of the positions (by market, say),
    the rollup of the groups' rollups has the same sums, totals and
    percentages as the rollup of the concatenated groups. *)
Theorem sumTradingPositions_of_rollups (groups : list (list MarketTradingPosition.t)) :
  amounts (sumTradingPositions (sumTradingPositions <$> groups))
  = amounts (sumTradingPositions (concat groups)).
Proof.
  apply amounts_from_sums; apply sumOf_rollups; intros ps; apply (rollup_sums ps).
Qed.

(** Two markets of two positions each. *)
Example sumTradingPositions_of_rollups_example :
  let groups := [[positionOf 5 2 10 4; positionOf (-3) 1 6 2];
                 [positionOf 7 0 3 0; positionOf 0 (-2) 0 8]] in
  MarketTradingPosition.totalPercent
    (sumTradingPositions (sumTradingPositions <$> groups))
  = BigNumber.ofDecimal 3030 4
  ∧ MarketTradingPosition.totalPercent (sumTradingPositions (concat groups))
    = BigNumber.ofDecimal 3030 4.
Proof. split; bn_decide. Qed.

(** ** Totals of the position calculator *)

Section CalculatorTotals.
Context `{SdkUtils}.

(** X11. Settling a position conserves its totals.  The calculator called
    with the finalized flag returns the same [total], [totalCost] and
    [totalPercent] as without it, and the same [netPosition], [rawPosition],
    [frozenFunds] and [currentValue]; with either value of the flag [total]
    is [realized + unrealized] and [totalCost] is
    [unrealizedCost + realizedCost] of the returned record. *)
Theorem finalization_conserves_totals
  (profitLossFrame : ProfitLossChangedLog.t) (marketDoc : MarketData.t)
  (onChainOutcomeValue : BigNumber) (onChain24HrOutcomeValue : option BigNumber)
  (timestamp : Z)
  (shareTokenBalancesByMarketAndOutcome : option (gmap string (gmap string BigNumber))) :
  let position finalized :=
    getTradingPositionFromProfitLossFrame profitLossFrame marketDoc onChainOutcomeValue
      onChain24HrOutcomeValue timestamp shareTokenBalancesByMarketAndOutcome finalized in
  (TradingPosition.total (position true) = TradingPosition.total (position false)
   ∧ TradingPosition.totalCost (position true) = TradingPosition.totalCost (position false)
   ∧ TradingPosition.totalPercent (position true)
     = TradingPosition.totalPercent (position false)
   ∧ TradingPosition.netPosition (position true)
     = TradingPosition.netPosition (position false)
   ∧ TradingPosition.rawPosition (position true)
     = TradingPosition.rawPosition (position false)
   ∧ TradingPosition.frozenFunds (position true)
     = TradingPosition.frozenFunds (position false)
   ∧ TradingPosition.currentValue (position true)
     = TradingPosition.currentValue (position false))
  ∧ ∀ finalized,
      TradingPosition.total (position finalized)
      = BigNumber.plus (TradingPosition.realized (position finalized))
                       (TradingPosition.unrealized (position finalized))
      ∧ TradingPosition.totalCost (position finalized)
        = BigNumber.plus (TradingPosition.unrealizedCost (position finalized))
                         (TradingPosition.realizedCost (position finalized)).
Proof.
  intros position. subst position.
  unfold getTradingPositionFromProfitLossFrame. cbn beta iota zeta delta [
    TradingPosition.total TradingPosition.totalCost TradingPosition.totalPercent
    TradingPosition.netPosition TradingPosition.rawPosition TradingPosition.frozenFunds
    TradingPosition.currentValue TradingPosition.realized TradingPosition.unrealized
    TradingPosition.unrealizedCost TradingPosition.realizedCost].
  split.
  - rewrite !BigNumberSums.plus_zero_r.
    split; [reflexivity|]. split; [reflexivity|].
    split; [|repeat split].
    do 2 f_equal. apply BigNumberSums.plus_commutative.
  - intros [|]; cbn beta iota.
    + rewrite BigNumberSums.plus_zero_l. split; reflexivity.
    + split; reflexivity.
Qed.

(** The display values of a record are the figures the calculator gives
    for it on an open market, whatever the price it is valued at. *)
Lemma getDisplayValuesForPosition_open
  (profitLossFrame : ProfitLossChangedLog.t) (marketDoc : MarketData.t)
  (onChainOutcomeValue : BigNumber) (onChain24HrOutcomeValue : option BigNumber)
  (timestamp : Z)
  (shareTokenBalancesByMarketAndOutcome : option (gmap string (gmap string BigNumber))) :
  let position :=
    getTradingPositionFromProfitLossFrame profitLossFrame marketDoc onChainOutcomeValue
      onChain24HrOutcomeValue timestamp shareTokenBalancesByMarketAndOutcome false in
  getDisplayValuesForPosition profitLossFrame marketDoc
  = {| PriorPosition.unrealizedCost := TradingPosition.unrealizedCost position;
       PriorPosition.avgPrice := TradingPosition.averagePrice position;
       PriorPosition.netPosition := TradingPosition.netPosition position |}.
Proof. reflexivity. Qed.

End CalculatorTotals.

(** ** Period summary *)

(** X12. From a series of exactly two points [getProfitLossSummary] builds
    the period's figure by adding the start to the end: [realized] and
    [unrealized] are the end's plus the start's (the start is not negated),
    every other sum is the end's alone, the percentages are recomputed from
    those, and the timestamp is the start's.  From any other series it
    throws: the message about more than two buckets when there are more, a
    [TypeError] when there are fewer. *)
Theorem summarizePeriod_adds_start (profitLoss : list MarketTradingPosition.t) :
  match profitLoss with
  | [startProfit; endProfit] =>
      ∃ summary,
        summarizePeriod profitLoss = Ok summary
        ∧ MarketTradingPosition.realized summary
          = BigNumber.plus (MarketTradingPosition.realized endProfit)
                           (MarketTradingPosition.realized startProfit)
        ∧ MarketTradingPosition.unrealized summary
          = BigNumber.plus (MarketTradingPosition.unrealized endProfit)
                           (MarketTradingPosition.unrealized startProfit)
        ∧ MarketTradingPosition.frozenFunds summary
          = MarketTradingPosition.frozenFunds endProfit
        ∧ MarketTradingPosition.unrealized24Hr summary
          = MarketTradingPosition.unrealized24Hr endProfit
        ∧ MarketTradingPosition.realizedCost summary
          = MarketTradingPosition.realizedCost endProfit
        ∧ MarketTradingPosition.unrealizedCost summary
          = MarketTradingPosition.unrealizedCost endProfit
        ∧ MarketTradingPosition.currentValue summary
          = MarketTradingPosition.currentValue endProfit
        ∧ MarketTradingPosition.unrealizedPercent summary
          = (if BigNumber.isZero (MarketTradingPosition.unrealizedCost endProfit)
             then BigNumber.zero
             else BigNumber.toFixed 4
                    (BigNumber.dividedBy
                       (BigNumber.plus (MarketTradingPosition.unrealized endProfit)
                                       (MarketTradingPosition.unrealized startProfit))
                       (MarketTradingPosition.unrealizedCost endProfit)))
        ∧ MarketTradingPosition.timestamp summary
          = MarketTradingPosition.timestamp startProfit
  | _ :: _ :: _ :: _ =>
      summarizePeriod profitLoss
      = Throw "PL calculation in summary returning more thant two bucket"
  | _ => summarizePeriod profitLoss = Throw "TypeError"
  end.
Proof.
  destruct profitLoss as [|startProfit [|endProfit [|third rest]]]; try reflexivity.
  eexists. split; [reflexivity|].
  unfold sumTradingPositions. cbn [foldl sumStep negativeStartProfit zeroTradingPosition
    MarketTradingPosition.realized MarketTradingPosition.unrealized
    MarketTradingPosition.frozenFunds MarketTradingPosition.unrealized24Hr
    MarketTradingPosition.realizedCost MarketTradingPosition.unrealizedCost
    MarketTradingPosition.currentValue MarketTradingPosition.unrealizedPercent
    MarketTradingPosition.timestamp].
  rewrite !BigNumberSums.plus_zero_l, !BigNumberSums.plus_zero_r.
  repeat split.
Qed.

(** A period that starts with 3 realized and ends with 5 reports 8. *)
Example summarizePeriod_example :
  MarketTradingPosition.realized
    <$> (match summarizePeriod [positionOf 3 0 10 0; positionOf 5 0 10 0] with
         | Ok summary => Some summary
         | Throw _ => None
         end)
  = Some (BigNumber.ofZ 8).
Proof. bn_decide. Qed.

(** ** Open orders *)

Section OpenOrders.

Lemma totalOf_shift (values : list BigNumber) (acc : BigNumber) :
  foldl BigNumber.plus acc values = BigNumber.plus acc (totalOf values).
Proof.
  unfold totalOf. revert acc. induction values as [|v values IH]; intros acc; cbn [foldl].
  - symmetry. apply BigNumberSums.plus_zero_r.
  - rewrite IH, (IH (BigNumber.plus BigNumber.zero v)), BigNumberSums.plus_zero_l.
    apply BigNumberSums.plus_associative.
Qed.

Lemma totalOf_cons (v : BigNumber) (values : list BigNumber) :
  totalOf (v :: values) = BigNumber.plus v (totalOf values).
Proof.
  unfold totalOf at 1. cbn [foldl]. rewrite totalOf_shift, BigNumberSums.plus_zero_l.
  reflexivity.
Qed.

Lemma totalOf_app (xs ys : list BigNumber) :
  totalOf (xs ++ ys) = BigNumber.plus (totalOf xs) (totalOf ys).
Proof.
  induction xs as [|x xs IH]; cbn [app].
  - symmetry. apply BigNumberSums.plus_zero_l.
  - rewrite !totalOf_cons, IH. symmetry. apply BigNumberSums.plus_associative.
Qed.

(** One order: the estimator writes the two escrow fields and nothing
    else. *)
Lemma addEscrowed_sameOrder (order : Order.t) (outcome : string) (orderType : Z)
  (market : MarketData.t) (userSharesBalances : gmap string BigNumber) :
  sameOrder order
    (addEscrowedAmountsDecrementShares order outcome orderType market userSharesBalances).1.
Proof.
  unfold addEscrowedAmountsDecrementShares.
  destruct (orderType =? 0); split; reflexivity.
Qed.

(** The orders of one market: the running total grows by the escrowed
    tokens of the orders, which come back in the same order. *)
Lemma escrowMarketOrders_total (market : MarketData.t)
  (orders : list (string * Z * Order.t)) :
  ∀ (userSharesBalances : gmap string BigNumber) (totalCost : BigNumber),
    let r := escrowMarketOrders market orders userSharesBalances totalCost in
    r.2 = BigNumber.plus totalCost (totalOf (Order.tokensEscrowed <$> r.1.1))
    ∧ Forall2 (λ entered estimated, sameOrder entered.2 estimated) orders r.1.1.
Proof.
  induction orders as [|[[outcome orderType] order] rest IH];
    intros userSharesBalances totalCost; cbn [escrowMarketOrders].
  - cbn. split; [symmetry; apply BigNumberSums.plus_zero_r|constructor].
  - pose proof (addEscrowed_sameOrder order outcome orderType market userSharesBalances)
      as Hsame.
    destruct (addEscrowedAmountsDecrementShares order outcome orderType market
                userSharesBalances) as [order' balances].
    specialize (IH balances (BigNumber.plus totalCost (Order.tokensEscrowed order'))).
    destruct (escrowMarketOrders market rest balances _) as [[orders' balances'] totalCost'].
    cbn [fst snd] in *. destruct IH as [IHtotal IHsame]. split.
    + rewrite IHtotal. cbn [fmap list_fmap]. rewrite totalOf_cons.
      apply BigNumberSums.plus_associative.
    + constructor; assumption.
Qed.

Lemma escrowOrdersByMarket_total (markets : gmap string MarketData.t)
  (positions : gmap string MarketTradingPosition.t)
  (orders : list (string * list (string * Z * Order.t))) :
  Forall (λ entry, is_Some (markets !! entry.1)) orders →
  ∀ totalCost,
    ∃ result total,
      escrowOrdersByMarket markets positions orders totalCost = Ok (result, total)
      ∧ total
        = BigNumber.plus totalCost
            (totalOf (Order.tokensEscrowed <$> concat (snd <$> result)))
      ∧ Forall2 (λ entered estimated,
                   entered.1 = estimated.1
                   ∧ Forall2 (λ e o, sameOrder e.2 o) entered.2 estimated.2)
                orders result.
Proof.
  induction 1 as [|[marketId marketOrders] rest [market Hmarket] _ IH]; intros totalCost.
  - exists [], totalCost. split; [reflexivity|].
    split; [symmetry; apply BigNumberSums.plus_zero_r|constructor].
  - cbn [escrowOrdersByMarket]. cbn [fst] in Hmarket. rewrite Hmarket.
    set (userSharesBalances :=
           match positions !! marketId with
           | Some marketPositions => MarketTradingPosition.userSharesBalances marketPositions
           | None => ∅
           end).
    pose proof (escrowMarketOrders_total market marketOrders userSharesBalances totalCost)
      as Hmarketrun.
    destruct (escrowMarketOrders market marketOrders userSharesBalances totalCost)
      as [[marketOrders' balances'] totalCost'].
    cbn [fst snd] in Hmarketrun. destruct Hmarketrun as [Htotal Hsame].
    destruct (IH totalCost') as (rest' & total & Hrun & Hsum & Hshape).
    rewrite Hrun. exists ((marketId, marketOrders') :: rest'), total.
    split; [reflexivity|]. split.
    + rewrite Hsum, Htotal. cbn [fmap list_fmap concat snd].
      rewrite fmap_app, totalOf_app. apply BigNumberSums.plus_associative.
    + constructor; [split; [reflexivity|exact Hsame]|exact Hshape].
Qed.

End OpenOrders.

(** X13. When every market of the order book has a market document,
    [getUserOpenOrders] returns, and the total it reports is the sum of the
    [tokensEscrowed] it wrote on the returned orders, over all markets; the
    orders come back market by market in the order of the book with their
    amounts and prices unchanged. *)
Theorem getUserOpenOrders_total
  (orders : list (string * list (string * Z * Order.t)))
  (positions : gmap string MarketTradingPosition.t) (markets : gmap string MarketData.t) :
  Forall (λ entry, is_Some (markets !! entry.1)) orders →
  ∃ result totalOpenOrdersFrozenFunds,
    getUserOpenOrders orders positions markets = Ok (result, totalOpenOrdersFrozenFunds)
    ∧ totalOpenOrdersFrozenFunds
      = totalOf (Order.tokensEscrowed <$> concat (snd <$> result))
    ∧ Forall2 (λ entered estimated,
                 entered.1 = estimated.1
                 ∧ Forall2 (λ e o, sameOrder e.2 o) entered.2 estimated.2)
              orders result.
Proof.
  intros Hmarkets.
  destruct (escrowOrdersByMarket_total markets positions orders Hmarkets BigNumber.zero)
    as (result & total & Hrun & Hsum & Hshape).
  rewrite BigNumberSums.plus_zero_l in Hsum.
  exists result, total. split; [|split; [exact Hsum|exact Hshape]].
  unfold getUserOpenOrders. destruct orders; [|exact Hrun].
  cbn in Hrun. injection Hrun as <- <-. reflexivity.
Qed.

(** A bid and an ask in [yesNoMarket], with no shares held. *)
Lemma getUserOpenOrders_total_witness :
  ∃ result totalOpenOrdersFrozenFunds,
    getUserOpenOrders [("0xmarket", [("0x01", 0, bidOrder); ("0x02", 1, askOrder)])]
                      ∅ {[ "0xmarket" := yesNoMarket ]}
    = Ok (result, totalOpenOrdersFrozenFunds)
    ∧ totalOpenOrdersFrozenFunds
      = totalOf (Order.tokensEscrowed <$> concat (snd <$> result))
    ∧ Forall2 (λ entered estimated,
                 entered.1 = estimated.1
                 ∧ Forall2 (λ e o, sameOrder e.2 o) entered.2 estimated.2)
              [("0xmarket", [("0x01", 0, bidOrder); ("0x02", 1, askOrder)])] result.
Proof.
  apply (getUserOpenOrders_total
           [("0xmarket", [("0x01", 0, bidOrder); ("0x02", 1, askOrder)])]
           ∅ {[ "0xmarket" := yesNoMarket ]}).
  constructor; [|constructor]. vm_compute. eauto.
Defined.

(** With no shares held the bid is paid in full (10 at 0.60) and so is the
    ask (10 at 1 - 0.70); an order in a market without a document throws. *)
Example getUserOpenOrders_example :
  snd <$> (match getUserOpenOrders
                   [("0xmarket", [("0x01", 0, bidOrder); ("0x02", 1, askOrder)])]
                   ∅ {[ "0xmarket" := yesNoMarket ]} with
           | Ok r => Some r
           | Throw _ => None
           end)
  = Some (BigNumber.ofZ 9)
  ∧ getUserOpenOrders [("0xother", [("0x01", 0, bidOrder)])] ∅
                      {[ "0xmarket" := yesNoMarket ]}
    = Throw "TypeError"
  ∧ getUserOpenOrders [] ∅ ∅ = Ok ([], BigNumber.zero).
Proof. split; [bn_decide|split; reflexivity]. Qed.

(** ** Bounds of the escrow estimates *)

Section EscrowBounds.
Variable market : MarketData.t.

Lemma Qc_product_nonNegative (x y : Qc) : (0 ≤ x → 0 ≤ y → 0 ≤ x * y)%Qc.
Proof.
  intros Hx Hy. pose proof (Qcmult_le_compat_r 0 x y Hx Hy) as Hle.
  replace (0 * y)%Qc with 0%Qc in Hle by ring. exact Hle.
Qed.

Lemma min2_between (a m : Qc) :
  (0 ≤ a → 0 ≤ m →
   ∃ s, BigNumber.min2 (Num a) (Num m) = Num s ∧ 0 ≤ s ∧ s ≤ a ∧ s ≤ m)%Qc.
Proof.
  intros Ha Hm. destruct (BigNumberFacts.min2_Num_le_l a m) as (s & Hs & Hsa & Hsm).
  exists s. split; [exact Hs|]. split; [|split; assumption].
  rewrite BigNumberFacts.min2_Num in Hs. injection Hs as <-.
  destruct (decide (a ≤ m)%Qc); assumption.
Qed.

(** The ask branch, one field at a time. *)
Lemma ask_fields (order : Order.t) (outcome : string) (orderType : Z)
  (userSharesBalances : gmap string BigNumber) :
  orderType ≠ 0 →
  let r := addEscrowedAmountsDecrementShares order outcome orderType market
             userSharesBalances in
  let sharesBN := default BigNumber.zero (userSharesBalances !! outcome) in
  let sharesUsed := Order.sharesEscrowed r.1 in
  sharesUsed = BigNumber.min2 (Order.amount order) sharesBN
  ∧ Order.tokensEscrowed r.1
    = BigNumber.times (BigNumber.minus (Order.amount order) sharesUsed)
        (BigNumber.minus
           (BigNumber.dividedBy (numberAt (MarketData.prices market) 1) QUINTILLION)
           (Order.price order))
  ∧ r.2 = <[outcome := if BigNumber.gt sharesBN BigNumber.zero
                       then BigNumber.minus sharesBN sharesUsed
                       else sharesBN]> userSharesBalances.
Proof.
  intros Hask. unfold addEscrowedAmountsDecrementShares.
  rewrite (proj2 (Z.eqb_neq orderType 0) Hask). repeat split.
Qed.

(** The least balance a bid can draw on is a non-negative number. *)
Lemma least_other_balance (outcome : string) (userSharesBalances : gmap string BigNumber) :
  allNonNegative userSharesBalances →
  ∃ m : Qc,
    match omap (λ entry : string * BigNumber,
                  if decide (outcome = entry.1) then None else Some entry.2)
               (map_to_list userSharesBalances) with
    | first :: rest => BigNumber.min first rest
    | [] => BigNumber.zero
    end = Num m
    ∧ (0 ≤ m)%Qc
    ∧ ∀ o v, o ≠ outcome → userSharesBalances !! o = Some (Num v) → (m ≤ v)%Qc.
Proof.
  intros Hbalances.
  destruct (omap _ (map_to_list userSharesBalances)) as [|first rest] eqn:Hlist.
  - exists 0%Qc. split; [apply BigNumberFacts.zero_Num|]. split; [apply Qcle_refl|].
    intros o v Hne Hlookup. exfalso.
    assert (Hin : Num v ∈ omap (λ entry : string * BigNumber,
                                  if decide (outcome = entry.1) then None
                                  else Some entry.2)
                               (map_to_list userSharesBalances))
      by (apply other_balances_elem; eauto).
    rewrite Hlist in Hin. inversion Hin.
  - assert (Hall : Forall (λ v, BigNumber.isFinite v = true) (first :: rest)).
    { apply Forall_forall. intros v Hv. rewrite <- Hlist in Hv.
      apply other_balances_elem in Hv as (o & _ & Hlookup).
      apply Hbalances, BigNumberFacts.nonNegative_Num in Hlookup as (q & -> & _).
      reflexivity. }
    destruct (BigNumberFacts.min_finite first rest Hall) as (m & Hm & Hmem & Hle).
    exists m. split; [exact Hm|]. split.
    + rewrite <- Hlist in Hmem. apply other_balances_elem in Hmem as (o & _ & Hlookup).
      apply Hbalances, BigNumberFacts.nonNegative_Num in Hlookup as (q & [= <-] & Hq).
      exact Hq.
    + intros o v Hne Hlookup. rewrite Forall_forall in Hle.
      apply BigNumberFacts.lte_Num, Hle. rewrite <- Hlist.
      apply other_balances_elem. eauto.
Qed.

(** One order with a non-negative amount, priced inside the market's
    range, against non-negative balances. *)
Lemma escrow_order_bounds (order : Order.t) (outcome : string) (orderType : Z)
  (userSharesBalances : gmap string BigNumber) :
  nonNegative (Order.amount order) = true →
  allNonNegative userSharesBalances →
  pricedWithin market order →
  let r := addEscrowedAmountsDecrementShares order outcome orderType market
             userSharesBalances in
  ∃ amount sharesUsed cost : Qc,
    Order.amount order = Num amount
    ∧ Order.sharesEscrowed r.1 = Num sharesUsed
    ∧ Order.tokensEscrowed r.1 = Num cost
    ∧ (0 ≤ sharesUsed)%Qc ∧ (sharesUsed ≤ amount)%Qc ∧ (0 ≤ cost)%Qc.
Proof.
  intros Hamount Hbalances (lo & hi & p & Hlo & Hhi & Hp & Hlop & Hphi) r.
  apply BigNumberFacts.nonNegative_Num in Hamount as (a & Ha & Ha0).
  destruct (Z.eq_dec orderType 0) as [->|Hask].
  - destruct (bid_fields order outcome market userSharesBalances)
      as (Hoffset & Htokens & _ & _).
    fold r in Hoffset, Htokens.
    destruct (least_other_balance outcome userSharesBalances Hbalances)
      as (m & Hm & Hm0 & _).
    rewrite Hm, Ha in Hoffset.
    destruct (min2_between a m Ha0 Hm0) as (s & Hs & Hs0 & Hsa & _).
    rewrite Hs in Hoffset. rewrite Hoffset, Ha, Hp, Hlo in Htokens.
    exists a, s, ((a + - s) * (p + - lo))%Qc.
    split; [exact Ha|]. split; [exact Hoffset|]. split; [exact Htokens|].
    split; [exact Hs0|]. split; [exact Hsa|].
    apply Qc_product_nonNegative; apply (proj1 (Qcle_minus_iff _ _)); assumption.
  - destruct (ask_fields order outcome orderType userSharesBalances Hask)
      as (Hused & Htokens & _).
    fold r in Hused, Htokens.
    assert (Hown : ∃ v, default BigNumber.zero (userSharesBalances !! outcome) = Num v
                        ∧ (0 ≤ v)%Qc).
    { destruct (userSharesBalances !! outcome) as [balance|] eqn:Hlookup; simpl.
      - apply BigNumberFacts.nonNegative_Num. exact (Hbalances _ _ Hlookup).
      - apply BigNumberFacts.nonNegative_Num. reflexivity. }
    destruct Hown as (v & Hv & Hv0).
    rewrite Hv, Ha in Hused.
    destruct (min2_between a v Ha0 Hv0) as (s & Hs & Hs0 & Hsa & _).
    rewrite Hs in Hused. rewrite Hused, Ha, Hp, Hhi in Htokens.
    exists a, s, ((a + - s) * (hi + - p))%Qc.
    split; [exact Ha|]. split; [exact Hused|]. split; [exact Htokens|].
    split; [exact Hs0|]. split; [exact Hsa|].
    apply Qc_product_nonNegative; apply (proj1 (Qcle_minus_iff _ _)); assumption.
Qed.

End EscrowBounds.

Section EscrowRunBounds.
Variable market : MarketData.t.

Lemma escrowMarketOrders_bounds (orders : list (string * Z * Order.t)) :
  Forall (λ entry, nonNegative (Order.amount entry.2) = true
                   ∧ pricedWithin market entry.2) orders →
  ∀ (userSharesBalances : gmap string BigNumber) (totalCost : Qc),
    allNonNegative userSharesBalances →
    let r := escrowMarketOrders market orders userSharesBalances (Num totalCost) in
    Forall2 (λ entered estimated,
               nonNegative (Order.sharesEscrowed estimated) = true
               ∧ BigNumber.lte (Order.sharesEscrowed estimated) (Order.amount entered.2)
                 = true
               ∧ nonNegative (Order.tokensEscrowed estimated) = true)
            orders r.1.1
    ∧ ∃ total : Qc, r.2 = Num total ∧ (totalCost ≤ total)%Qc.
Proof.
  induction 1 as [|[[outcome orderType] order] rest [Hamount Hprice] _ IH];
    intros userSharesBalances totalCost Hbalances; cbn [escrowMarketOrders].
  - cbn. split; [constructor|]. exists totalCost. split; [reflexivity|apply Qcle_refl].
  - cbn [snd] in Hamount, Hprice.
    pose proof (escrow_order_bounds market order outcome orderType userSharesBalances
                  Hamount Hbalances Hprice) as Hbounds.
    assert (Hfinite : BigNumber.isFinite (Order.amount order) = true).
    { apply BigNumberFacts.nonNegative_Num in Hamount as (a & -> & _). reflexivity. }
    pose proof (addEscrowed_nonNegative market order outcome orderType userSharesBalances
                  Hfinite Hbalances) as [Hstep _].
    cbv zeta in Hbounds.
    destruct (addEscrowedAmountsDecrementShares order outcome orderType market
                userSharesBalances) as [order' balances].
    cbn [fst snd] in Hbounds, Hstep.
    destruct Hbounds as (a & s & c & Ha & Hs & Hc & Hs0 & Hsa & Hc0).
    rewrite Hc. change (BigNumber.plus (Num totalCost) (Num c)) with (Num (totalCost + c)).
    specialize (IH balances (totalCost + c)%Qc Hstep). cbv zeta in IH.
    destruct (escrowMarketOrders market rest balances (Num (totalCost + c)))
      as [[orders' balances'] totalCost'].
    cbn [fst snd] in *. destruct IH as (IHorders & total & Htotal & Hle).
    split.
    + constructor; [|exact IHorders]. cbn [snd]. rewrite Hs, Hc, Ha.
      split; [apply BigNumberFacts.nonNegative_Num; eauto|].
      split; [apply BigNumberFacts.lte_Num, Hsa|].
      apply BigNumberFacts.nonNegative_Num; eauto.
    + exists total. split; [exact Htotal|].
      eapply Qcle_trans; [|exact Hle].
      apply (proj2 (Qcle_minus_iff _ _)).
      replace (totalCost + c + - totalCost)%Qc with c by ring. exact Hc0.
Qed.

End EscrowRunBounds.

(** X14. Along any run of orders of one market over the same balance
    object, when the balances start as non-negative numbers and every order
    has a non-negative amount and a price inside the market's display price
    range: each order's [sharesEscrowed] is a non-negative number no greater
    than the order's amount, each [tokensEscrowed] is a non-negative number,
    and the running total never decreases. *)
Theorem escrow_estimates_bounded (market : MarketData.t)
  (orders : list (string * Z * Order.t)) (userSharesBalances : gmap string BigNumber)
  (totalCost : BigNumber) :
  Forall (λ entry, nonNegative (Order.amount entry.2) = true
                   ∧ pricedWithin market entry.2) orders →
  allNonNegative userSharesBalances →
  nonNegative totalCost = true →
  let r := escrowMarketOrders market orders userSharesBalances totalCost in
  Forall2 (λ entered estimated,
             nonNegative (Order.sharesEscrowed estimated) = true
             ∧ BigNumber.lte (Order.sharesEscrowed estimated) (Order.amount entered.2)
               = true
             ∧ nonNegative (Order.tokensEscrowed estimated) = true)
          orders r.1.1
  ∧ nonNegative r.2 = true
  ∧ BigNumber.lte totalCost r.2 = true.
Proof.
  intros Horders Hbalances Htotal r.
  apply BigNumberFacts.nonNegative_Num in Htotal as (t & -> & Ht).
  destruct (escrowMarketOrders_bounds market orders Horders userSharesBalances t Hbalances)
    as (Hestimates & total & Hfinal & Hle).
  fold r in Hestimates, Hfinal.
  split; [exact Hestimates|]. rewrite Hfinal. split.
  - apply BigNumberFacts.nonNegative_Num. exists total. split; [reflexivity|].
    eapply Qcle_trans; eassumption.
  - apply BigNumberFacts.lte_Num, Hle.
Qed.

Lemma yesNoMarket_prices (price : Z) :
  1 ≤ price ≤ 9 →
  pricedWithin yesNoMarket
    {| Order.amount := BigNumber.ofZ 10;
       Order.price := BigNumber.ofDecimal price 1;
       Order.tokensEscrowed := BigNumber.zero;
       Order.sharesEscrowed := BigNumber.zero |}.
Proof.
  intros Hprice. exists 0%Qc, 1%Qc, (Q2Qc (Qmake price 10)).
  split; [bn_decide|]. split; [bn_decide|]. split; [reflexivity|].
  assert (Hcases : price = 1 ∨ price = 2 ∨ price = 3 ∨ price = 4 ∨ price = 5
                   ∨ price = 6 ∨ price = 7 ∨ price = 8 ∨ price = 9) by lia.
  destruct Hcases as [->|[->|[->|[->|[->|[->|[->|[->| ->]]]]]]]];
    split; apply (bool_decide_unpack _); vm_compute; exact I.
Qed.

(** Two bids and an ask in [yesNoMarket] against holdings of 4 and 7. *)
Lemma escrow_estimates_bounded_witness :
  let r := escrowMarketOrders yesNoMarket
             [("0x01", 0, bidOrder); ("0x01", 0, bidOrder); ("0x02", 1, askOrder)]
             complementaryShares BigNumber.zero in
  Forall2 (λ entered estimated,
             nonNegative (Order.sharesEscrowed estimated) = true
             ∧ BigNumber.lte (Order.sharesEscrowed estimated) (Order.amount entered.2)
               = true
             ∧ nonNegative (Order.tokensEscrowed estimated) = true)
          [("0x01", 0, bidOrder); ("0x01", 0, bidOrder); ("0x02", 1, askOrder)] r.1.1
  ∧ nonNegative r.2 = true
  ∧ BigNumber.lte BigNumber.zero r.2 = true.
Proof.
  apply (escrow_estimates_bounded yesNoMarket
           [("0x01", 0, bidOrder); ("0x01", 0, bidOrder); ("0x02", 1, askOrder)]
           complementaryShares BigNumber.zero).
  - repeat constructor; first [apply (yesNoMarket_prices 6); lia
                             |apply (yesNoMarket_prices 7); lia].
  - exact complementaryShares_nonNegative.
  - reflexivity.
Defined.

(** X15. An ask on an outcome with no tracked balance records the balance 0
    for that outcome and changes nothing else; from then on a bid with a
    non-negative amount on any other outcome of the market finds 0 as the
    least of the other balances: it escrows no shares and is paid for in
    tokens in full, however many shares of the remaining outcomes are
    held. *)
Theorem ask_untracked_then_bid (market : MarketData.t) (ask bid : Order.t)
  (askOutcome bidOutcome : string) (askType : Z)
  (userSharesBalances : gmap string BigNumber) :
  askType ≠ 0 → askOutcome ≠ bidOutcome →
  userSharesBalances !! askOutcome = None →
  allNonNegative userSharesBalances →
  nonNegative (Order.amount bid) = true →
  let afterAsk :=
    (addEscrowedAmountsDecrementShares ask askOutcome askType market userSharesBalances).2 in
  let r := addEscrowedAmountsDecrementShares bid bidOutcome 0 market afterAsk in
  afterAsk = <[askOutcome := BigNumber.zero]> userSharesBalances
  ∧ Order.sharesEscrowed r.1 = BigNumber.zero
  ∧ Order.tokensEscrowed r.1
    = BigNumber.times (Order.amount bid)
        (BigNumber.minus (Order.price bid)
           (BigNumber.dividedBy (numberAt (MarketData.prices market) 0) QUINTILLION)).
Proof.
  intros Hask Hne Hnone Hbalances Hamount afterAsk r.
  assert (Hafter : afterAsk = <[askOutcome := BigNumber.zero]> userSharesBalances).
  { subst afterAsk.
    destruct (ask_fields market ask askOutcome askType userSharesBalances Hask)
      as (_ & _ & ->).
    rewrite Hnone. reflexivity. }
  split; [exact Hafter|].
  assert (Hnonneg : allNonNegative afterAsk).
  { rewrite Hafter. apply map_Forall_insert_2; [reflexivity|exact Hbalances]. }
  destruct (bid_fields bid bidOutcome market afterAsk) as (Hoffset & Htokens & _ & _).
  fold r in Hoffset, Htokens.
  destruct (least_other_balance bidOutcome afterAsk Hnonneg) as (m & Hm & Hm0 & Hleast).
  assert (Hzero : m = 0%Qc).
  { apply Qcle_antisym; [|exact Hm0]. apply (Hleast askOutcome 0%Qc Hne).
    rewrite Hafter, lookup_insert, decide_True by reflexivity.
    rewrite BigNumberFacts.zero_Num. reflexivity. }
  subst m. apply BigNumberFacts.nonNegative_Num in Hamount as (a & Ha & Ha0).
  rewrite Hm, Ha, BigNumberFacts.min2_Num in Hoffset.
  assert (Hshares : Order.sharesEscrowed r.1 = Num 0).
  { rewrite Hoffset. destruct (decide (a ≤ 0)%Qc) as [Hle|_]; [|reflexivity].
    f_equal. apply Qcle_antisym; assumption. }
  split; [rewrite Hshares; symmetry; apply BigNumberFacts.zero_Num|].
  rewrite Htokens, Hshares, Ha. do 2 f_equal.
  change (BigNumber.minus (Num a) (Num 0)) with (Num (a + - 0)). f_equal. ring.
Qed.

Lemma ask_untracked_then_bid_witness :
  let afterAsk :=
    (addEscrowedAmountsDecrementShares askOrder "0x01" 1 yesNoMarket complementaryShares).2 in
  let r := addEscrowedAmountsDecrementShares bidOrder "0x00" 0 yesNoMarket afterAsk in
  afterAsk = <["0x01" := BigNumber.zero]> complementaryShares
  ∧ Order.sharesEscrowed r.1 = BigNumber.zero
  ∧ Order.tokensEscrowed r.1
    = BigNumber.times (Order.amount bidOrder)
        (BigNumber.minus (Order.price bidOrder)
           (BigNumber.dividedBy (numberAt (MarketData.prices yesNoMarket) 0) QUINTILLION)).
Proof.
  apply (ask_untracked_then_bid yesNoMarket askOrder bidOrder "0x01" "0x00" 1
           complementaryShares).
  - lia.
  - discriminate.
  - reflexivity.
  - exact complementaryShares_nonNegative.
  - reflexivity.
Defined.

(** The same bid without the ask before it draws on the 7 shares held under
    the other outcome. *)
Example bid_without_ask_before :
  Order.sharesEscrowed
    (addEscrowedAmountsDecrementShares bidOrder "0x00" 0 yesNoMarket complementaryShares).1
  = BigNumber.ofZ 7.
Proof. bn_decide. Qed.

(** ** Account statistics *)

Section Stats.

Lemma compareArrays_from (lhs rhs : list string) :
  ∀ (equal : Z) (index : nat),
    reduceWithIndex
      (λ equal item index,
         if (length rhs <=? index)%nat || negb (bool_decide (rhs !! index = Some item))
         then 0 else equal)
      lhs equal index
    = if bool_decide (lhs `prefix_of` drop index rhs) then equal else 0.
Proof.
  induction lhs as [|item lhs IH]; intros equal index; cbn [reduceWithIndex].
  - rewrite bool_decide_eq_true_2 by apply prefix_nil. reflexivity.
  - rewrite IH. destruct (rhs !! index) as [found|] eqn:Hfound.
    + apply lookup_lt_Some in Hfound as Hlt.
      rewrite (proj2 (Nat.leb_gt _ _) Hlt). cbn [orb].
      rewrite (drop_S _ _ _ Hfound).
      destruct (decide (found = item)) as [->|Hne].
      * rewrite (bool_decide_eq_true_2 (Some item = Some item)) by reflexivity.
        cbn [negb].
        rewrite (bool_decide_ext (item :: lhs `prefix_of` item :: drop (S index) rhs)
                                 (lhs `prefix_of` drop (S index) rhs)); [reflexivity|].
        split; [apply prefix_cons_inv_2|apply prefix_cons].
      * rewrite (bool_decide_eq_false_2 (Some found = Some item)) by congruence.
        cbn [negb]. rewrite Tauto.if_same.
        rewrite bool_decide_eq_false_2; [reflexivity|].
        intros Hprefix. apply prefix_cons_inv_1 in Hprefix. congruence.
    + apply lookup_ge_None in Hfound as Hge.
      rewrite (proj2 (Nat.leb_le _ _) Hge). cbn [orb]. rewrite Tauto.if_same.
      rewrite drop_ge by exact Hge.
      rewrite bool_decide_eq_false_2; [reflexivity|]. apply prefix_nil_not.
Qed.

(** [_.uniqWith] with the comparator "same key". *)
Lemma uniqWith_key {A K : Type} `{EqDecision K} (key : A → K) (array : list A) :
  ∀ result : list A,
    let kept := foldl (λ result value,
                         if existsb (λ seen, bool_decide (key value = key seen)) result
                         then result else result ++ [value])
                      result array in
    NoDup (key <$> result) →
    NoDup (key <$> kept)
    ∧ (∀ k, k ∈ key <$> kept ↔ k ∈ key <$> result ∨ k ∈ key <$> array)
    ∧ ∃ added, kept = result ++ added ∧ added `sublist_of` array.
Proof.
  induction array as [|value array IH]; intros result kept Hnodup; subst kept; cbn [foldl].
  - split; [exact Hnodup|]. split.
    + intros k. rewrite fmap_nil, elem_of_nil. tauto.
    + exists []. rewrite app_nil_r. split; [reflexivity|constructor].
  - destruct (existsb _ result) eqn:Hseen.
    + apply existsb_exists in Hseen as (seen & Hin & Hkey).
      apply bool_decide_eq_true in Hkey. apply list_elem_of_In in Hin.
      destruct (IH result Hnodup) as (Hnd & Hkeys & added & Hadded & Hsub).
      split; [exact Hnd|]. split.
      * intros k. rewrite Hkeys, fmap_cons, elem_of_cons. split; [tauto|].
        intros [Hk|[->|Hk]]; [tauto| |tauto].
        left. rewrite Hkey. apply list_elem_of_fmap. eauto.
      * exists added. split; [exact Hadded|]. apply sublist_cons, Hsub.
    + assert (Hfresh : key value ∉ key <$> result).
      { intros Hin. apply list_elem_of_fmap in Hin as (seen & Hkey & Hin).
        assert (Hex : existsb (λ seen, bool_decide (key value = key seen)) result = true).
        { apply existsb_exists. exists seen. split; [apply list_elem_of_In, Hin|].
          apply bool_decide_eq_true. exact Hkey. }
        congruence. }
      destruct (IH (result ++ [value])) as (Hnd & Hkeys & added & Hadded & Hsub).
      { rewrite fmap_app. apply NoDup_app. split; [exact Hnodup|]. split.
        - intros k Hk Hk'. apply list_elem_of_singleton in Hk'. subst k. contradiction.
        - apply NoDup_singleton. }
      split; [exact Hnd|]. split.
      * intros k.
        rewrite Hkeys, fmap_app, elem_of_app, !fmap_cons, !elem_of_cons, fmap_nil,
          elem_of_nil.
        tauto.
      * exists (value :: added). rewrite Hadded, <- app_assoc. split; [reflexivity|].
        apply sublist_skip, Hsub.
Qed.

Lemma uniqWith_ext {A : Type} (comparator comparator' : A → A → bool) (array : list A) :
  (∀ a b, comparator a b = comparator' a b) →
  uniqWith comparator array = uniqWith comparator' array.
Proof.
  intros Hext. unfold uniqWith.
  enough (Hfold : ∀ result,
             foldl (λ result value,
                      if existsb (λ seen, comparator value seen) result
                      then result else result ++ [value]) result array
             = foldl (λ result value,
                        if existsb (λ seen, comparator' value seen) result
                        then result else result ++ [value]) result array)
    by apply Hfold.
  induction array as [|value array IH]; intros result; cbn [foldl]; [reflexivity|].
  replace (existsb (λ seen, comparator' value seen) result)
    with (existsb (λ seen, comparator value seen) result).
  - destruct (existsb _ result); apply IH.
  - induction result as [|seen result IHr]; cbn [existsb]; [reflexivity|].
    rewrite Hext, IHr. reflexivity.
Qed.

(** The number of values kept is the number of distinct keys. *)
Lemma uniqWith_count {A K : Type} `{Countable K} (key : A → K) (array : list A) :
  length (uniqWith (λ a b, bool_decide (key a = key b)) array)
  = size (list_to_set (key <$> array) : gset K)
  ∧ uniqWith (λ a b, bool_decide (key a = key b)) array `sublist_of` array.
Proof.
  destruct (uniqWith_key key array []) as (Hnd & Hkeys & added & Hadded & Hsub);
    [constructor|].
  fold (uniqWith (λ a b, bool_decide (key a = key b)) array) in Hnd, Hkeys, Hadded.
  split; [|rewrite Hadded; exact Hsub].
  rewrite <- (length_fmap key), <- (size_list_to_set (C := gset K)) by exact Hnd.
  f_equal. apply set_eq. intros k. rewrite !elem_of_list_to_set, Hkeys.
  rewrite fmap_nil, elem_of_nil. tauto.
Qed.

End Stats.

(** X16. [compareArrays(lhs, rhs)] is 1 exactly when [lhs] is a prefix of
    [rhs], and 0 otherwise.  So it is 1 for an empty [lhs] whatever [rhs]
    is, it tests equality only between arrays of the same length, and it is
    not symmetric: a longer [rhs] is accepted, a longer [lhs] is not. *)
Theorem compareArrays_prefix (lhs rhs : list string) :
  compareArrays lhs rhs = (if bool_decide (lhs `prefix_of` rhs) then 1 else 0)
  ∧ compareArrays [] rhs = 1
  ∧ (length lhs = length rhs → (compareArrays lhs rhs = 1 ↔ lhs = rhs))
  ∧ ((length rhs < length lhs)%nat → compareArrays lhs rhs = 0).
Proof.
  assert (Hprefix : compareArrays lhs rhs
                    = (if bool_decide (lhs `prefix_of` rhs) then 1 else 0)).
  { unfold compareArrays. rewrite compareArrays_from, drop_0. reflexivity. }
  split; [exact Hprefix|]. split; [reflexivity|]. split.
  - intros Hlength. rewrite Hprefix. split.
    + destruct (bool_decide_reflect (lhs `prefix_of` rhs)) as [[tail Htail]|];
        [|discriminate].
      intros _. rewrite Htail, length_app in Hlength. rewrite Htail.
      destruct tail; [symmetry; apply app_nil_r|cbn in Hlength; lia].
    + intros ->. rewrite bool_decide_eq_true_2; reflexivity.
  - intros Hlonger. rewrite Hprefix. rewrite bool_decide_eq_false_2; [reflexivity|].
    intros Hpre. apply prefix_length in Hpre. lia.
Qed.

(** A market with numerators [[0; 100]] against payouts [[0; 100; 0]] and
    the other way round. *)
Example compareArrays_not_symmetric :
  compareArrays ["0x00"; "0x64"] ["0x00"; "0x64"; "0x00"] = 1
  ∧ compareArrays ["0x00"; "0x64"; "0x00"] ["0x00"; "0x64"] = 0.
Proof. split; reflexivity. Qed.

(** X17. The three counts taken with [_.uniqWith] are counts of distinct
    keys: [numberOfTrades] is the number of distinct trade group ids among
    the fills, [marketsTraded] the number of distinct markets among them,
    and [positions] the number of distinct (market, outcome) pairs among the
    profit/loss logs; so fills of one trade group count once, and there are
    never more markets or trades than fills. *)
Theorem uniqWith_counts_distinct (orderFilledLogs : list OrderEvent.t)
  (profitLossChangedLogs : list ProfitLossChangedLog.t) :
  numberOfTrades orderFilledLogs
  = size (list_to_set (OrderEvent.tradeGroupId <$> orderFilledLogs) : gset string)
  ∧ marketsTraded orderFilledLogs
    = size (list_to_set (OrderEvent.market <$> orderFilledLogs) : gset string)
  ∧ positions profitLossChangedLogs
    = size (list_to_set
              ((λ log, (ProfitLossChangedLog.market log, ProfitLossChangedLog.outcome log))
               <$> profitLossChangedLogs) : gset (string * string))
  ∧ (numberOfTrades orderFilledLogs ≤ length orderFilledLogs)%nat
  ∧ (marketsTraded orderFilledLogs ≤ length orderFilledLogs)%nat.
Proof.
  destruct (uniqWith_count OrderEvent.tradeGroupId orderFilledLogs) as [Htrades Hsub1].
  destruct (uniqWith_count OrderEvent.market orderFilledLogs) as [Hmarkets Hsub2].
  destruct (uniqWith_count
              (λ log, (ProfitLossChangedLog.market log, ProfitLossChangedLog.outcome log))
              profitLossChangedLogs) as [Hpositions _].
  split; [exact Htrades|]. split; [exact Hmarkets|]. split; [|split].
  - rewrite <- Hpositions. unfold positions. f_equal. apply uniqWith_ext.
    intros a b. destruct (decide (ProfitLossChangedLog.market a
                                  = ProfitLossChangedLog.market b)) as [Hm|Hm],
                         (decide (ProfitLossChangedLog.outcome a
                                  = ProfitLossChangedLog.outcome b)) as [Ho|Ho].
    + rewrite !bool_decide_eq_true_2 by congruence. reflexivity.
    + rewrite (bool_decide_eq_false_2 (ProfitLossChangedLog.outcome a = _)) by exact Ho.
      rewrite andb_false_r. symmetry. apply bool_decide_eq_false_2. congruence.
    + rewrite (bool_decide_eq_false_2 (ProfitLossChangedLog.market a = _)) by exact Hm.
      symmetry. apply bool_decide_eq_false_2. congruence.
    + rewrite (bool_decide_eq_false_2 (ProfitLossChangedLog.market a = _)) by exact Hm.
      symmetry. apply bool_decide_eq_false_2. congruence.
  - apply sublist_length in Hsub1. exact Hsub1.
  - apply sublist_length in Hsub2. exact Hsub2.
Qed.

(** Three fills of two trade groups in one market. *)
Example numberOfTrades_example :
  let fill tradeGroupId :=
    {| OrderEvent.market := "0xmarket"; OrderEvent.tradeGroupId := tradeGroupId |} in
  numberOfTrades [fill "0xa"; fill "0xb"; fill "0xa"] = 2%nat
  ∧ marketsTraded [fill "0xa"; fill "0xb"; fill "0xa"] = 1%nat.
Proof. split; reflexivity. Qed.

(** ** Frozen funds *)

Section FrozenFunds.

Lemma frozenFunds_fold_filter (flagged : list string)
  (results : list ProfitLossChangedLog.t) :
  ∀ value,
    foldl (λ value tradingPosition,
             if bool_decide (ProfitLossChangedLog.market tradingPosition ∈ flagged)
             then value
             else BigNumber.plus value (ProfitLossChangedLog.frozenFunds tradingPosition))
          value results
    = foldl (λ value tradingPosition,
               BigNumber.plus value (ProfitLossChangedLog.frozenFunds tradingPosition))
            value
            (filter (λ tradingPosition,
                       ProfitLossChangedLog.market tradingPosition ∉ flagged) results).
Proof.
  induction results as [|tradingPosition results IH]; intros value; [reflexivity|].
  cbn [foldl]. rewrite filter_cons.
  destruct (decide (ProfitLossChangedLog.market tradingPosition ∈ flagged)) as [Hin|Hout].
  - rewrite bool_decide_eq_true_2 by exact Hin.
    rewrite decide_False by (intros Hnot; exact (Hnot Hin)). apply IH.
  - rewrite bool_decide_eq_false_2 by exact Hout.
    rewrite decide_True by exact Hout. cbn [foldl]. apply IH.
Qed.

End FrozenFunds.

(** X18. [getTotalOnChainFrozenFunds] never counts the frozen funds of a
    market flagged as a full loss: its result is the one it gives on the
    records of the other markets with nothing flagged.  With nothing flagged
    and no validity bonds it equals the [frozenFundsTotal] that
    [getUserTradingPositions] computes from the same records. *)
Theorem frozen_funds_skip_full_loss (allProfitLossResults : list ProfitLossChangedLog.t)
  (fullTotalLossMarketsPositions : list string) (totalValidityBonds : BigNumber) :
  getTotalOnChainFrozenFunds allProfitLossResults fullTotalLossMarketsPositions
                             totalValidityBonds
  = getTotalOnChainFrozenFunds
      (filter (λ tradingPosition,
                 ProfitLossChangedLog.market tradingPosition
                 ∉ fullTotalLossMarketsPositions) allProfitLossResults)
      [] totalValidityBonds
  ∧ getTotalOnChainFrozenFunds allProfitLossResults [] BigNumber.zero
    = frozenFundsTotal allProfitLossResults.
Proof.
  unfold getTotalOnChainFrozenFunds, frozenFundsTotal. cbv zeta. split.
  - rewrite frozenFunds_fold_filter. reflexivity.
  - rewrite BigNumberSums.plus_zero_l. reflexivity.
Qed.

(** Two records of 3 and 5 frozen tokens (on-chain 3 and 5 times 10^36);
    flagging the market of the first leaves 5. *)
Example frozen_funds_example :
  let record market frozenFunds :=
    {| ProfitLossChangedLog.market := market;
       ProfitLossChangedLog.outcome := "0x01";
       ProfitLossChangedLog.timestamp := 1000;
       ProfitLossChangedLog.netPosition := BigNumber.zero;
       ProfitLossChangedLog.avgPrice := BigNumber.zero;
       ProfitLossChangedLog.realizedProfit := BigNumber.zero;
       ProfitLossChangedLog.realizedCost := BigNumber.zero;
       ProfitLossChangedLog.frozenFunds := BigNumber.ofZ (frozenFunds * 10 ^ 36) |} in
  getTotalOnChainFrozenFunds [record "0xa" 3; record "0xb" 5] [] BigNumber.zero
  = BigNumber.ofZ 8
  ∧ getTotalOnChainFrozenFunds [record "0xa" 3; record "0xb" 5] ["0xa"] BigNumber.zero
    = BigNumber.ofZ 5.
Proof. split; bn_decide. Qed.

(** ** Full-loss detector on any data *)

Section FullLossAny.
Variables (markets : gmap string MarketData.t)
          (shareTokenBalancesByMarketAndOutcome : gmap string (gmap string BigNumber)).

Lemma getFullMarketPositionLoss_any (finalizedMarketIds : list string) :
  ∀ result,
    match getFullMarketPositionLoss finalizedMarketIds markets
            shareTokenBalancesByMarketAndOutcome result with
    | Ok flagged =>
        Forall (readableMarket markets shareTokenBalancesByMarketAndOutcome)
               finalizedMarketIds
        ∧ flagged
          = result
            ++ filter (λ marketId,
                         BigNumber.gt
                           (marketPositionValue markets shareTokenBalancesByMarketAndOutcome
                                                marketId)
                           BigNumber.zero = false)
                      finalizedMarketIds
    | Throw message =>
        message = "TypeError"
        ∧ Exists (λ marketId,
                    ¬ readableMarket markets shareTokenBalancesByMarketAndOutcome marketId)
                 finalizedMarketIds
    end.
Proof.
  induction finalizedMarketIds as [|marketId rest IH]; intros result;
    cbn [getFullMarketPositionLoss].
  - split; [constructor|]. rewrite app_nil_r. reflexivity.
  - assert (Hstep : ∀ result',
              readableMarket markets shareTokenBalancesByMarketAndOutcome marketId →
              result' = (if BigNumber.gt
                              (marketPositionValue markets
                                 shareTokenBalancesByMarketAndOutcome marketId)
                              BigNumber.zero
                         then result else result ++ [marketId]) →
              match getFullMarketPositionLoss rest markets
                      shareTokenBalancesByMarketAndOutcome result' with
              | Ok flagged =>
                  Forall (readableMarket markets shareTokenBalancesByMarketAndOutcome)
                         (marketId :: rest)
                  ∧ flagged
                    = result
                      ++ filter (λ marketId,
                                   BigNumber.gt
                                     (marketPositionValue markets
                                        shareTokenBalancesByMarketAndOutcome marketId)
                                     BigNumber.zero = false)
                                (marketId :: rest)
              | Throw message =>
                  message = "TypeError"
                  ∧ Exists (λ marketId,
                              ¬ readableMarket markets
                                  shareTokenBalancesByMarketAndOutcome marketId)
                           (marketId :: rest)
              end).
    { intros result' Hreadable ->. rewrite filter_cons.
      destruct (BigNumber.gt (marketPositionValue markets
                                shareTokenBalancesByMarketAndOutcome marketId)
                             BigNumber.zero) eqn:Hgt.
      - rewrite decide_False by discriminate. specialize (IH result).
        destruct (getFullMarketPositionLoss rest markets _ result).
        + destruct IH as [Hall ->]. split; [constructor; assumption|reflexivity].
        + destruct IH as [-> Hex]. split; [reflexivity|apply Exists_cons_tl, Hex].
      - rewrite decide_True by reflexivity. specialize (IH (result ++ [marketId])).
        destruct (getFullMarketPositionLoss rest markets _ (result ++ [marketId])).
        + destruct IH as [Hall ->]. split; [constructor; assumption|].
          rewrite <- app_assoc. reflexivity.
        + destruct IH as [-> Hex]. split; [reflexivity|apply Exists_cons_tl, Hex]. }
    unfold readableMarket, marketPositionValue in Hstep.
    destruct (markets !! marketId) as [marketDoc|] eqn:Hdoc.
    2: { split; [reflexivity|]. apply Exists_cons_hd. unfold readableMarket.
         rewrite Hdoc. intros [[? [=]] _]. }
    cbn [mbind option_bind] in Hstep.
    remember (default [] (MarketData.winningPayoutNumerators marketDoc))
      as payoutNumerators eqn:Hnumerators in *.
    destruct (shareTokenBalancesByMarketAndOutcome !! marketId) as [outcomeBalance|]
      eqn:Hbalance.
    + destruct payoutNumerators as [|numerator numerators];
        (apply Hstep; [|reflexivity]); (split; [eauto|]); left; eauto.
    + destruct payoutNumerators as [|numerator numerators].
      * apply Hstep; [|reflexivity]. split; [eauto|]. right. reflexivity.
      * split; [reflexivity|]. apply Exists_cons_hd. unfold readableMarket.
        rewrite Hdoc, Hbalance. cbn [mbind option_bind]. rewrite <- Hnumerators.
        intros [_ [[? [=]]|[=]]].
Qed.

End FullLossAny.

(** X19. On any data: the full-loss detector throws, a [TypeError], exactly
    when some finalized market lacks its market document or, having winning
    payout numerators, lacks a balance entry of the account; otherwise it
    returns, in the order of the finalized markets and with their
    repetitions, those whose position value is not greater than 0.  That
    includes a market whose value is NaN, and every market whose document has
    no winning payout numerators. *)
Theorem full_loss_detector_any (markets : gmap string MarketData.t)
  (shareTokenBalancesByMarketAndOutcome : gmap string (gmap string BigNumber))
  (finalizedMarketIds : list string) :
  let run :=
    getFullMarketPositionLoss finalizedMarketIds markets
      shareTokenBalancesByMarketAndOutcome [] in
  let readable := readableMarket markets shareTokenBalancesByMarketAndOutcome in
  (run = Throw "TypeError" ↔ Exists (λ marketId, ¬ readable marketId) finalizedMarketIds)
  ∧ (run = Ok (filter (λ marketId,
                         BigNumber.gt
                           (marketPositionValue markets shareTokenBalancesByMarketAndOutcome
                                                marketId)
                           BigNumber.zero = false)
                      finalizedMarketIds)
     ↔ Forall readable finalizedMarketIds)
  ∧ (∀ marketId marketDoc,
       markets !! marketId = Some marketDoc →
       default [] (MarketData.winningPayoutNumerators marketDoc) = [] →
       BigNumber.gt
         (marketPositionValue markets shareTokenBalancesByMarketAndOutcome marketId)
         BigNumber.zero = false).
Proof.
  intros run readable.
  pose proof (getFullMarketPositionLoss_any markets shareTokenBalancesByMarketAndOutcome
                finalizedMarketIds []) as Hrun.
  fold run in Hrun. fold readable in Hrun.
  split; [|split].
  - split.
    + intros Hthrow. rewrite Hthrow in Hrun. exact (proj2 Hrun).
    + intros Hex. destruct run as [flagged|message].
      * destruct Hrun as [Hall _]. apply Exists_exists in Hex as (marketId & Hin & Hnot).
        rewrite Forall_forall in Hall. destruct (Hnot (Hall marketId Hin)).
      * destruct Hrun as [-> _]. reflexivity.
  - split.
    + intros Hok. rewrite Hok in Hrun. exact (proj1 Hrun).
    + intros Hall. destruct run as [flagged|message].
      * destruct Hrun as [_ ->]. reflexivity.
      * destruct Hrun as [_ Hex]. apply Exists_exists in Hex as (marketId & Hin & Hnot).
        rewrite Forall_forall in Hall. destruct (Hnot (Hall marketId Hin)).
  - intros marketId marketDoc Hdoc Hnone. unfold marketPositionValue.
    rewrite Hdoc. cbn [mbind option_bind]. rewrite Hnone. reflexivity.
Qed.

(** A finalized market whose document carries no winning payout numerators
    is flagged although the account holds shares in it. *)
Example full_loss_without_numerators :
  getFullMarketPositionLoss ["0xmarket"] {[ "0xmarket" := yesNoMarket ]} winningShares []
  = Ok ["0xmarket"].
Proof. vm_compute. reflexivity. Qed.

(** ** The bucketed profit/loss series *)

Section SeriesFacts.
Context `{SdkUtils}.
Variables (markets : gmap string MarketData.t)
          (marketFinalizedByMarket : gmap string MarketFinalizedLog.t)
          (ordersFilledResultsByMarketAndOutcome :
             gmap string (gmap string (list ParsedOrderEventLog.t)))
          (shareTokenBalancesByMarketAndOutcome : gmap string (gmap string BigNumber)).

Lemma traverse_constant {A B : Type} (callback : A → completion B) (result : B)
  (array : list A) :
  Forall (λ value, callback value = Ok result) array →
  traverse callback array = Ok ((λ _, result) <$> array).
Proof.
  induction 1 as [|value rest Hvalue _ IH]; [reflexivity|].
  cbn [traverse]. rewrite Hvalue, IH. reflexivity.
Qed.

(** A group with no record at or before the instant is not valued,
    whether or not the market has a document. *)
Lemma profitLossOutcomeAt_startsAfter (ignoreFinalizedMarkets : bool) (marketId : string)
  (outcomePLValues : list ProfitLossChangedLog.t) (outcome : string)
  (bucketTimestamp : Z) :
  startsAfter bucketTimestamp outcomePLValues →
  profitLossOutcomeAt markets marketFinalizedByMarket ordersFilledResultsByMarketAndOutcome
    shareTokenBalancesByMarketAndOutcome ignoreFinalizedMarkets marketId outcomePLValues
    outcome bucketTimestamp
  = Ok (inl (unvaluedBucketPosition bucketTimestamp)).
Proof.
  intros Hafter.
  assert (Hnone : getLastDocBeforeTimestamp outcomePLValues bucketTimestamp = None).
  { unfold getLastDocBeforeTimestamp. destruct outcomePLValues as [|first rest];
      [reflexivity|].
    cbn [takeWhile]. unfold timestampOf, ProfitLossChangedLog_timestamped.
    cbn in Hafter. destruct (Z.leb_spec (ProfitLossChangedLog.timestamp first)
                                        bucketTimestamp); [lia|reflexivity]. }
  unfold profitLossOutcomeAt, bucketTradingPosition. cbv zeta. rewrite Hnone.
  destruct (markets !! marketId); reflexivity.
Qed.

(** With [ignoreFinalizedMarkets] an outcome of a market finalized by the
    instant is not valued. *)
Lemma profitLossOutcomeAt_ignored (marketId : string)
  (outcomePLValues : list ProfitLossChangedLog.t) (outcome : string)
  (bucketTimestamp : Z) :
  finalizedAt marketFinalizedByMarket marketId bucketTimestamp = true →
  profitLossOutcomeAt markets marketFinalizedByMarket ordersFilledResultsByMarketAndOutcome
    shareTokenBalancesByMarketAndOutcome true marketId outcomePLValues outcome
    bucketTimestamp
  = Ok (inl (unvaluedBucketPosition bucketTimestamp)).
Proof.
  intros Hfinalized. unfold profitLossOutcomeAt, bucketTradingPosition. cbv zeta.
  rewrite Hfinalized. rewrite !orb_true_r. cbn [negb andb orb].
  destruct (markets !! marketId);
    destruct (getLastDocBeforeTimestamp outcomePLValues bucketTimestamp); reflexivity.
Qed.

Lemma sumStep_unvalued (bucketTimestamp : Z) (acc : MarketTradingPosition.t) :
  sumStep (sumStep acc (unvaluedBucketPosition bucketTimestamp))
          (unvaluedBucketPosition bucketTimestamp)
  = sumStep acc (unvaluedBucketPosition bucketTimestamp).
Proof.
  unfold sumStep. cbn [MarketTradingPosition.frozenFunds MarketTradingPosition.realized
    MarketTradingPosition.unrealized MarketTradingPosition.unrealized24Hr
    MarketTradingPosition.realizedCost MarketTradingPosition.unrealizedCost
    MarketTradingPosition.currentValue MarketTradingPosition.timestamp
    MarketTradingPosition.marketId unvaluedBucketPosition].
  rewrite !BigNumberSums.plus_zero_r. reflexivity.
Qed.

Lemma abs_zero : BigNumber.abs BigNumber.zero = BigNumber.zero.
Proof. bn_decide. Qed.

(** The rollup of unvalued records of one instant is the unvalued record
    of that instant; the rollup of nothing carries the timestamp 0. *)
Lemma sumTradingPositions_unvalued (bucketTimestamp : Z) (n : nat) :
  sumTradingPositions (replicate n (unvaluedBucketPosition bucketTimestamp))
  = unvaluedBucketPosition (match n with O => 0 | S _ => bucketTimestamp end).
Proof.
  assert (Hfold : ∀ n acc,
            foldl sumStep (sumStep acc (unvaluedBucketPosition bucketTimestamp))
                  (replicate n (unvaluedBucketPosition bucketTimestamp))
            = sumStep acc (unvaluedBucketPosition bucketTimestamp)).
  { intros m. induction m as [|m IH]; intros acc; [reflexivity|].
    cbn [replicate foldl]. rewrite sumStep_unvalued. apply IH. }
  unfold sumTradingPositions. cbv zeta. destruct n as [|n].
  - cbn [replicate foldl zeroTradingPosition MarketTradingPosition.frozenFunds
      MarketTradingPosition.realized MarketTradingPosition.unrealized
      MarketTradingPosition.unrealized24Hr MarketTradingPosition.realizedCost
      MarketTradingPosition.unrealizedCost MarketTradingPosition.currentValue
      MarketTradingPosition.timestamp MarketTradingPosition.marketId
      MarketTradingPosition.userSharesBalances].
    rewrite !BigNumberSums.plus_zero_l, abs_zero. reflexivity.
  - cbn [replicate foldl]. rewrite Hfold.
    unfold sumStep. cbn [zeroTradingPosition unvaluedBucketPosition
      MarketTradingPosition.frozenFunds
      MarketTradingPosition.realized MarketTradingPosition.unrealized
      MarketTradingPosition.unrealized24Hr MarketTradingPosition.realizedCost
      MarketTradingPosition.unrealizedCost MarketTradingPosition.currentValue
      MarketTradingPosition.timestamp MarketTradingPosition.marketId
      MarketTradingPosition.userSharesBalances].
    rewrite !BigNumberSums.plus_zero_l, abs_zero. reflexivity.
Qed.

End SeriesFacts.

Section SeriesPoints.
Context `{SdkUtils}.
Variables (markets : gmap string MarketData.t)
          (marketFinalizedByMarket : gmap string MarketFinalizedLog.t)
          (ordersFilledResultsByMarketAndOutcome :
             gmap string (gmap string (list ParsedOrderEventLog.t)))
          (shareTokenBalancesByMarketAndOutcome : gmap string (gmap string BigNumber)).

(** X20. At an instant before the first record of every group the point of
    the series is the record of zeros, whatever the market documents,
    finalization logs and fills, and nothing throws.  Its timestamp is the
    instant when the account has at least one group of records, and 0 when it
    has none. *)
Theorem profitLoss_before_first_record (ignoreFinalizedMarkets : bool)
  (profitLossByMarketAndOutcome :
     list (string * list (string * list ProfitLossChangedLog.t)))
  (bucketTimestamp : Z) :
  Forall (λ byMarket : string * list (string * list ProfitLossChangedLog.t),
            Forall (λ byOutcome : string * list ProfitLossChangedLog.t,
                      startsAfter bucketTimestamp byOutcome.2)
                   byMarket.2)
         profitLossByMarketAndOutcome →
  profitLossAt markets marketFinalizedByMarket ordersFilledResultsByMarketAndOutcome
    shareTokenBalancesByMarketAndOutcome ignoreFinalizedMarkets
    profitLossByMarketAndOutcome bucketTimestamp
  = Ok (unvaluedBucketPosition
          (match concat (snd <$> profitLossByMarketAndOutcome) with
           | [] => 0
           | _ :: _ => bucketTimestamp
           end)).
Proof.
  intros Hafter. unfold profitLossAt.
  assert (Hgroups :
            traverse
              (λ byMarket : string * list (string * list ProfitLossChangedLog.t),
                 traverse
                   (λ byOutcome : string * list ProfitLossChangedLog.t,
                      profitLossOutcomeAt markets marketFinalizedByMarket
                        ordersFilledResultsByMarketAndOutcome
                        shareTokenBalancesByMarketAndOutcome ignoreFinalizedMarkets
                        byMarket.1 byOutcome.2 byOutcome.1 bucketTimestamp)
                   byMarket.2)
              profitLossByMarketAndOutcome
            = Ok ((λ byMarket : string * list (string * list ProfitLossChangedLog.t),
                     (λ _, inl (unvaluedBucketPosition bucketTimestamp)) <$> byMarket.2)
                  <$> profitLossByMarketAndOutcome)).
  { induction Hafter as [|byMarket rest Hmarket _ IH]; [reflexivity|].
    cbn [traverse]. rewrite IH.
    rewrite (traverse_constant _ (inl (unvaluedBucketPosition bucketTimestamp)));
      [reflexivity|].
    eapply Forall_impl; [exact Hmarket|]. intros byOutcome Hstarts.
    apply profitLossOutcomeAt_startsAfter. exact Hstarts. }
  rewrite Hgroups. cbv zeta. f_equal.
  assert (Hflat :
            rollupInput
            <$> concat
                  ((λ byMarket : string * list (string * list ProfitLossChangedLog.t),
                      (λ _, inl (unvaluedBucketPosition bucketTimestamp)
                            : MarketTradingPosition.t + TradingPosition.t)
                      <$> byMarket.2)
                   <$> profitLossByMarketAndOutcome)
            = replicate (length (concat (snd <$> profitLossByMarketAndOutcome)))
                        (unvaluedBucketPosition bucketTimestamp)).
  { clear. induction profitLossByMarketAndOutcome as [|byMarket rest IH]; [reflexivity|].
    cbn [fmap list_fmap concat]. rewrite fmap_app, length_app, replicate_add.
    f_equal; [|exact IH].
    generalize (byMarket.2). intros groups.
    induction groups as [|group groups IHg]; [reflexivity|].
    cbn [fmap list_fmap length replicate rollupInput]. f_equal. exact IHg. }
  rewrite Hflat, sumTradingPositions_unvalued.
  destruct (concat (snd <$> profitLossByMarketAndOutcome)); reflexivity.
Qed.

Lemma sumOf_unvalued (field : MarketTradingPosition.t → BigNumber) (bucketTimestamp : Z)
  {A : Type} (groups : list A) :
  field (unvaluedBucketPosition bucketTimestamp) = BigNumber.zero →
  sumOf field
    (rollupInput
     <$> ((λ _, inl (unvaluedBucketPosition bucketTimestamp)
                : MarketTradingPosition.t + TradingPosition.t) <$> groups))
  = BigNumber.zero.
Proof.
  intros Hzero. induction groups as [|group groups IH]; [reflexivity|].
  cbn [fmap list_fmap rollupInput]. rewrite sumOf_cons, Hzero, BigNumberSums.plus_zero_l.
  exact IH.
Qed.

(** Dropping the markets finalized by the instant changes no sum when they
    are ignored, and throws in the same cases. *)
Lemma traverse_ignores_finalized
  (profitLossByMarketAndOutcome :
     list (string * list (string * list ProfitLossChangedLog.t)))
  (bucketTimestamp : Z) :
  let run groups :=
    traverse
      (λ byMarket : string * list (string * list ProfitLossChangedLog.t),
         traverse
           (λ byOutcome : string * list ProfitLossChangedLog.t,
              profitLossOutcomeAt markets marketFinalizedByMarket
                ordersFilledResultsByMarketAndOutcome
                shareTokenBalancesByMarketAndOutcome true
                byMarket.1 byOutcome.2 byOutcome.1 bucketTimestamp)
           byMarket.2)
      groups in
  match run profitLossByMarketAndOutcome,
        run (filter (λ byMarket : string * list (string * list ProfitLossChangedLog.t),
                       finalizedAt marketFinalizedByMarket byMarket.1 bucketTimestamp
                       = false)
                    profitLossByMarketAndOutcome) with
  | Ok all, Ok open =>
      ∀ field,
        field (unvaluedBucketPosition bucketTimestamp) = BigNumber.zero →
        sumOf field (rollupInput <$> concat all)
        = sumOf field (rollupInput <$> concat open)
  | Throw message, Throw message' => message = message'
  | _, _ => False
  end.
Proof.
  intros run. subst run. cbv beta.
  induction profitLossByMarketAndOutcome as [|byMarket rest IH].
  - cbn. reflexivity.
  - rewrite filter_cons.
    destruct (finalizedAt marketFinalizedByMarket byMarket.1 bucketTimestamp)
      eqn:Hfinalized.
    + rewrite decide_False by discriminate. cbn [traverse].
      rewrite (traverse_constant _ (inl (unvaluedBucketPosition bucketTimestamp)));
        [|apply Forall_forall; intros byOutcome _;
          apply profitLossOutcomeAt_ignored; exact Hfinalized].
      destruct (traverse _ rest) as [all|message],
               (traverse _ (filter _ rest)) as [open|message'];
        try exact IH.
      intros field Hzero. cbn [concat]. rewrite fmap_app, sumOf_app.
      rewrite (sumOf_unvalued field bucketTimestamp _ Hzero), BigNumberSums.plus_zero_l.
      exact (IH field Hzero).
    + rewrite decide_True by reflexivity. cbn [traverse].
      destruct (traverse _ byMarket.2) as [positions|message]; [|exact eq_refl].
      destruct (traverse _ rest) as [all|message],
               (traverse _ (filter _ rest)) as [open|message'];
        try exact IH.
      intros field Hzero. cbn [concat]. rewrite !fmap_app, !sumOf_app.
      f_equal. exact (IH field Hzero).
Qed.

(** X21. With [ignoreFinalizedMarkets] the figures of a point of the series
    are those of the portfolio without the markets finalized at or before
    the instant: leaving out their records changes no sum, total or
    percentage of the point, and the point throws in the same cases. *)
Theorem profitLoss_ignores_finalized
  (profitLossByMarketAndOutcome :
     list (string * list (string * list ProfitLossChangedLog.t)))
  (bucketTimestamp : Z) :
  figures
    (profitLossAt markets marketFinalizedByMarket ordersFilledResultsByMarketAndOutcome
       shareTokenBalancesByMarketAndOutcome true profitLossByMarketAndOutcome
       bucketTimestamp)
  = figures
      (profitLossAt markets marketFinalizedByMarket ordersFilledResultsByMarketAndOutcome
         shareTokenBalancesByMarketAndOutcome true
         (filter (λ byMarket : string * list (string * list ProfitLossChangedLog.t),
                    finalizedAt marketFinalizedByMarket byMarket.1 bucketTimestamp = false)
                 profitLossByMarketAndOutcome)
         bucketTimestamp).
Proof.
  pose proof (traverse_ignores_finalized profitLossByMarketAndOutcome bucketTimestamp)
    as Hrun.
  cbv beta zeta in Hrun. unfold profitLossAt. revert Hrun.
  destruct (traverse _ profitLossByMarketAndOutcome) as [all|message],
           (traverse _ (filter _ profitLossByMarketAndOutcome)) as [open|message'];
    intros Hrun; try contradiction.
  - cbn [figures]. f_equal. apply amounts_from_sums; apply Hrun; reflexivity.
  - cbn [figures]. f_equal. exact Hrun.
Qed.

End SeriesPoints.

(** The long position, recorded at 1000, seen from the instant 500. *)
Lemma profitLoss_before_first_record_witness :
  profitLossAt {[ "0xmarket" := yesNoMarket ]} ∅ fillsInWindow ∅ false
               [("0xmarket", [("0x01", [longPosition])])] 500
  = Ok (unvaluedBucketPosition 500).
Proof.
  apply (profitLoss_before_first_record {[ "0xmarket" := yesNoMarket ]} ∅ fillsInWindow ∅
           false [("0xmarket", [("0x01", [longPosition])])] 500).
  repeat constructor.
Defined.

(** The series of the long position (10 shares bought at 0.40, recorded at
    1000, one fill at 0.70 at 1500) over the instants 500, 1200 and 2000:
    nothing, then the position valued at its average price, then at the
    fill. *)
Example profitLossSeries_example :
  (map MarketTradingPosition.unrealized
   <$> (match profitLossSeries {[ "0xmarket" := yesNoMarket ]} ∅ fillsInWindow ∅ false
                [("0xmarket", [("0x01", [longPosition])])] [500; 1200; 2000] with
        | Ok series => Some series
        | Throw _ => None
        end))
  = Some [BigNumber.ofZ 0; BigNumber.ofZ 0; BigNumber.ofZ 3]
  ∧ profitLossSeries ∅ ∅ fillsInWindow ∅ false
      [("0xmarket", [("0x01", [longPosition])])] [500; 1200; 2000]
    = Throw "TypeError"
  ∧ (map MarketTradingPosition.timestamp
     <$> (match profitLossSeries ∅ ∅ ∅ ∅ false [] [500; 1200] with
          | Ok series => Some series
          | Throw _ => None
          end))
    = Some [0; 0].
Proof. split; [bn_decide|split; vm_compute; reflexivity]. Qed.

(** ** Positions of a finalized market *)

Section FinalizedPositions.
Context `{SdkUtils}.
Variables (markets : gmap string MarketDocument.t)
          (marketFinalizedByMarket : gmap string MarketFinalizedLog.t)
          (ordersFilledResultsByMarketAndOutcome
           allOrdersFilledResultsByMarketAndOutcome
           last24HrFilledOrdersFilledResultsByMarketAndOutcome :
             gmap string (gmap string ParsedOrderEventLog.t))
          (profitLossResultsByMarketAndOutcomePrior :
             gmap string (gmap string ProfitLossChangedLog.t))
          (shareTokenBalancesByMarketAndOutcome : gmap string (gmap string BigNumber)).

Lemma sumOf_zero (field : MarketTradingPosition.t → BigNumber)
  (tradingPositions : list MarketTradingPosition.t) :
  Forall (λ position, field position = BigNumber.zero) tradingPositions →
  sumOf field tradingPositions = BigNumber.zero.
Proof.
  induction 1 as [|position rest Hzero _ IH]; [reflexivity|].
  rewrite sumOf_cons, Hzero, IH. apply BigNumberSums.plus_zero_l.
Qed.

(** A position of a market that has a finalization record is settled. *)
Lemma tradingPositionOf_finalized (profitLossResult : ProfitLossChangedLog.t)
  (marketDoc : MarketDocument.t) (marketFinalized : MarketFinalizedLog.t) :
  markets !! ProfitLossChangedLog.market profitLossResult = Some marketDoc →
  marketFinalizedByMarket !! ProfitLossChangedLog.market profitLossResult
  = Some marketFinalized →
  (is_Some (atMarketAndOutcome ordersFilledResultsByMarketAndOutcome
              (ProfitLossChangedLog.market profitLossResult)
              (ProfitLossChangedLog.outcome profitLossResult)) →
   is_Some (atMarketAndOutcome allOrdersFilledResultsByMarketAndOutcome
              (ProfitLossChangedLog.market profitLossResult)
              (ProfitLossChangedLog.outcome profitLossResult))) →
  ∃ position,
    tradingPositionOf markets marketFinalizedByMarket ordersFilledResultsByMarketAndOutcome
      allOrdersFilledResultsByMarketAndOutcome
      last24HrFilledOrdersFilledResultsByMarketAndOutcome
      profitLossResultsByMarketAndOutcomePrior shareTokenBalancesByMarketAndOutcome
      profitLossResult
    = Ok position
    ∧ match position with
      | None => True
      | Some (tradingPosition, _) =>
          TradingPosition.unrealized tradingPosition = BigNumber.zero
          ∧ TradingPosition.unrealizedCost tradingPosition = BigNumber.zero
          ∧ TradingPosition.unrealized24Hr tradingPosition = BigNumber.zero
      end.
Proof.
  intros Hdoc Hfinalized Hfills. unfold tradingPositionOf. cbv zeta.
  rewrite Hdoc, Hfinalized.
  destruct (atMarketAndOutcome ordersFilledResultsByMarketAndOutcome _ _) as [fill|];
    [|eexists; split; [reflexivity|exact I]].
  destruct (Hfills ltac:(eauto)) as [latestFill ->].
  eexists. split; [reflexivity|].
  rewrite bool_decide_eq_true_2 by eauto.
  unfold getTradingPositionFromProfitLossFrame. cbn [TradingPosition.unrealized
    TradingPosition.unrealizedCost TradingPosition.unrealized24Hr].
  repeat split.
Qed.

(** X22. Whenever the callback of [getUserTradingPositions] returns a
    position, its [priorPosition] is set exactly when the record's net
    position is zero and a prior record is known for the market and outcome;
    it then shows the prior record as the calculator would on an open market,
    at any price: its [netPosition], [avgPrice] and [unrealizedCost] are the
    calculator's [netPosition], [averagePrice] and [unrealizedCost] for the
    prior record without the finalized flag, even when the market is
    finalized. *)
Theorem priorPosition_shows_prior (profitLossResult : ProfitLossChangedLog.t)
  (tradingPosition : TradingPosition.t) (priorPosition : option PriorPosition.t)
  (onChainOutcomeValue : BigNumber) (onChain24HrOutcomeValue : option BigNumber)
  (timestamp : Z) (balances : option (gmap string (gmap string BigNumber))) :
  tradingPositionOf markets marketFinalizedByMarket ordersFilledResultsByMarketAndOutcome
    allOrdersFilledResultsByMarketAndOutcome
    last24HrFilledOrdersFilledResultsByMarketAndOutcome
    profitLossResultsByMarketAndOutcomePrior shareTokenBalancesByMarketAndOutcome
    profitLossResult
  = Ok (Some (tradingPosition, priorPosition)) →
  ∃ marketDoc,
    markets !! ProfitLossChangedLog.market profitLossResult = Some marketDoc
    ∧ priorPosition
      = (if bool_decide (ProfitLossChangedLog.netPosition profitLossResult
                         = BigNumber.zero)
         then
           (λ prior,
              let open :=
                getTradingPositionFromProfitLossFrame prior (MarketDocument.data marketDoc)
                  onChainOutcomeValue onChain24HrOutcomeValue timestamp balances false in
              {| PriorPosition.unrealizedCost := TradingPosition.unrealizedCost open;
                 PriorPosition.avgPrice := TradingPosition.averagePrice open;
                 PriorPosition.netPosition := TradingPosition.netPosition open |})
           <$> atMarketAndOutcome profitLossResultsByMarketAndOutcomePrior
                 (ProfitLossChangedLog.market profitLossResult)
                 (ProfitLossChangedLog.outcome profitLossResult)
         else None).
Proof.
  unfold tradingPositionOf. cbv zeta.
  destruct (atMarketAndOutcome ordersFilledResultsByMarketAndOutcome _ _) as [fill|];
    [|discriminate].
  destruct (atMarketAndOutcome allOrdersFilledResultsByMarketAndOutcome _ _)
    as [latestFill|]; [|discriminate].
  destruct (markets !! ProfitLossChangedLog.market profitLossResult) as [marketDoc|];
    [|discriminate].
  intros [= _ <-]. exists marketDoc. split; [reflexivity|].
  destruct (bool_decide_reflect (ProfitLossChangedLog.netPosition profitLossResult
                                 = BigNumber.zero)) as [Hzero|Hnonzero].
  - rewrite (proj2 (BigNumberFacts.eq_zero _) Hzero).
    destruct (atMarketAndOutcome profitLossResultsByMarketAndOutcomePrior _ _) as [prior|];
      [|reflexivity].
    cbn [fmap option_fmap option_map]. f_equal.
  - destruct (BigNumber.eq (ProfitLossChangedLog.netPosition profitLossResult)
                           BigNumber.zero) eqn:Heq; [|reflexivity].
    apply BigNumberFacts.eq_zero in Heq. contradiction.
Qed.

End FinalizedPositions.

(** X23. In [getUserTradingPositions], for a market that has a finalization
    record and a market document, and whose outcomes traded by the account
    have a latest fill on record: the callback returns for every outcome, and
    the market's rollup shows nothing unrealized: [unrealized],
    [unrealizedCost], [unrealized24Hr] and the two unrealized percentages are
    0 and [total] equals [realized]. *)
Theorem finalized_market_rollup `{SdkUtils} (markets : gmap string MarketDocument.t)
  (marketFinalizedByMarket : gmap string MarketFinalizedLog.t)
  (ordersFilledResultsByMarketAndOutcome
   allOrdersFilledResultsByMarketAndOutcome
   last24HrFilledOrdersFilledResultsByMarketAndOutcome :
     gmap string (gmap string ParsedOrderEventLog.t))
  (profitLossResultsByMarketAndOutcomePrior :
     gmap string (gmap string ProfitLossChangedLog.t))
  (shareTokenBalancesByMarketAndOutcome : gmap string (gmap string BigNumber))
  (market : string)
  (profitLossResultsByOutcome : list (string * ProfitLossChangedLog.t)) :
  is_Some (markets !! market) →
  is_Some (marketFinalizedByMarket !! market) →
  Forall (λ byOutcome : string * ProfitLossChangedLog.t,
            ProfitLossChangedLog.market byOutcome.2 = market
            ∧ (is_Some (atMarketAndOutcome ordersFilledResultsByMarketAndOutcome market
                          (ProfitLossChangedLog.outcome byOutcome.2)) →
               is_Some (atMarketAndOutcome allOrdersFilledResultsByMarketAndOutcome market
                          (ProfitLossChangedLog.outcome byOutcome.2))))
         profitLossResultsByOutcome →
  ∃ rollup,
    marketTradingPosition markets marketFinalizedByMarket
      ordersFilledResultsByMarketAndOutcome allOrdersFilledResultsByMarketAndOutcome
      last24HrFilledOrdersFilledResultsByMarketAndOutcome
      profitLossResultsByMarketAndOutcomePrior shareTokenBalancesByMarketAndOutcome
      profitLossResultsByOutcome
    = Ok rollup
    ∧ MarketTradingPosition.unrealized rollup = BigNumber.zero
    ∧ MarketTradingPosition.unrealizedCost rollup = BigNumber.zero
    ∧ MarketTradingPosition.unrealized24Hr rollup = BigNumber.zero
    ∧ MarketTradingPosition.unrealizedPercent rollup = BigNumber.zero
    ∧ MarketTradingPosition.unrealized24HrPercent rollup = BigNumber.zero
    ∧ MarketTradingPosition.total rollup = MarketTradingPosition.realized rollup.
Proof.
  intros [marketDoc Hdoc] [marketFinalized Hfinalized] Hrecords.
  unfold marketTradingPosition.
  assert (Hrun : ∃ positions,
            traverse (λ byOutcome : string * ProfitLossChangedLog.t,
                        tradingPositionOf markets marketFinalizedByMarket
                          ordersFilledResultsByMarketAndOutcome
                          allOrdersFilledResultsByMarketAndOutcome
                          last24HrFilledOrdersFilledResultsByMarketAndOutcome
                          profitLossResultsByMarketAndOutcomePrior
                          shareTokenBalancesByMarketAndOutcome byOutcome.2)
                     profitLossResultsByOutcome
            = Ok positions
            ∧ Forall (λ position : option (TradingPosition.t * option PriorPosition.t),
                        match position with
                        | None => True
                        | Some (tradingPosition, _) =>
                            TradingPosition.unrealized tradingPosition = BigNumber.zero
                            ∧ TradingPosition.unrealizedCost tradingPosition
                              = BigNumber.zero
                            ∧ TradingPosition.unrealized24Hr tradingPosition
                              = BigNumber.zero
                        end)
                     positions).
  { induction Hrecords as [|byOutcome rest [Hmarket Hfills] _ (positions & Hrest & Hall)].
    - exists []. split; [reflexivity|constructor].
    - rewrite <- Hmarket in Hdoc, Hfinalized, Hfills.
      destruct (tradingPositionOf_finalized markets marketFinalizedByMarket
                  ordersFilledResultsByMarketAndOutcome
                  allOrdersFilledResultsByMarketAndOutcome
                  last24HrFilledOrdersFilledResultsByMarketAndOutcome
                  profitLossResultsByMarketAndOutcomePrior
                  shareTokenBalancesByMarketAndOutcome byOutcome.2 marketDoc
                  marketFinalized Hdoc Hfinalized Hfills) as (position & Hcall & Hsettled).
      exists (position :: positions). cbn [traverse]. rewrite Hcall, Hrest.
      split; [reflexivity|constructor; assumption]. }
  destruct Hrun as (positions & -> & Hall).
  eexists. split; [reflexivity|]. cbv zeta.
  set (tradingPositions :=
         omap (λ position : option (TradingPosition.t * option PriorPosition.t),
                 TradingPosition.asMarketTradingPosition <$> (fst <$> position))
              positions).
  assert (Hzero : Forall (λ position,
                            MarketTradingPosition.unrealized position = BigNumber.zero
                            ∧ MarketTradingPosition.unrealizedCost position
                              = BigNumber.zero
                            ∧ MarketTradingPosition.unrealized24Hr position
                              = BigNumber.zero)
                         tradingPositions).
  { subst tradingPositions. clear -Hall.
    induction Hall as [|[[tradingPosition prior]|] positions Hsettled _ IH];
      cbn [omap list_omap fmap option_fmap option_map fst]; [constructor| |exact IH].
    constructor; [exact Hsettled|exact IH]. }
  destruct (rollup_sums tradingPositions) as (_ & _ & Hunrealized & H24 & _ & Hcost & _).
  rewrite (sumOf_zero MarketTradingPosition.unrealized) in Hunrealized
    by (eapply Forall_impl; [exact Hzero|]; intros p Hp; apply Hp).
  rewrite (sumOf_zero MarketTradingPosition.unrealized24Hr) in H24
    by (eapply Forall_impl; [exact Hzero|]; intros p Hp; apply Hp).
  rewrite (sumOf_zero MarketTradingPosition.unrealizedCost) in Hcost
    by (eapply Forall_impl; [exact Hzero|]; intros p Hp; apply Hp).
  split; [exact Hunrealized|]. split; [exact Hcost|]. split; [exact H24|].
  revert Hunrealized H24 Hcost. unfold sumTradingPositions.
  cbn [MarketTradingPosition.unrealized MarketTradingPosition.unrealized24Hr
       MarketTradingPosition.unrealizedCost MarketTradingPosition.unrealizedPercent
       MarketTradingPosition.unrealized24HrPercent MarketTradingPosition.total
       MarketTradingPosition.realized].
  intros -> _ ->. split; [reflexivity|]. split; [reflexivity|].
  apply BigNumberSums.plus_zero_r.
Qed.

(** The long position in the market finalized at 3000. *)
Lemma finalized_market_rollup_witness :
  ∃ rollup,
    marketTradingPosition {[ "0xmarket" := resolvedMarketDocument ]} finalizedAt3000
      latestFills latestFills ∅ ∅ ∅ [("0x01", longPosition)]
    = Ok rollup
    ∧ MarketTradingPosition.unrealized rollup = BigNumber.zero
    ∧ MarketTradingPosition.unrealizedCost rollup = BigNumber.zero
    ∧ MarketTradingPosition.unrealized24Hr rollup = BigNumber.zero
    ∧ MarketTradingPosition.unrealizedPercent rollup = BigNumber.zero
    ∧ MarketTradingPosition.unrealized24HrPercent rollup = BigNumber.zero
    ∧ MarketTradingPosition.total rollup = MarketTradingPosition.realized rollup.
Proof.
  apply (finalized_market_rollup {[ "0xmarket" := resolvedMarketDocument ]} finalizedAt3000
           latestFills latestFills ∅ ∅ ∅ "0xmarket" [("0x01", longPosition)]).
  - vm_compute. eauto.
  - vm_compute. eauto.
  - constructor; [|constructor]. split; [reflexivity|]. intros _. vm_compute. eauto.
Defined.

(** The long position of 10 shares bought at 0.40: settled at the winning
    numerator 100 of its outcome it realizes 10 * (1 - 0.40); on the open
    market it is valued at the latest fill, 0.70; without a fill of the
    account's own it is no position at all. *)
Example tradingPositionOf_example :
  (TradingPosition.realized ∘ fst
   <$> (match tradingPositionOf {[ "0xmarket" := resolvedMarketDocument ]} finalizedAt3000
                latestFills latestFills ∅ ∅ ∅ longPosition with
        | Ok position => position
        | Throw _ => None
        end))
  = Some (BigNumber.ofZ 6)
  ∧ (TradingPosition.unrealized ∘ fst
     <$> (match tradingPositionOf {[ "0xmarket" := resolvedMarketDocument ]} ∅
                  latestFills latestFills ∅ ∅ ∅ longPosition with
          | Ok position => position
          | Throw _ => None
          end))
    = Some (BigNumber.ofZ 3)
  ∧ tradingPositionOf {[ "0xmarket" := resolvedMarketDocument ]} ∅ ∅ latestFills ∅ ∅ ∅
      longPosition
    = Ok None
  ∧ tradingPositionOf ∅ ∅ latestFills latestFills ∅ ∅ ∅ longPosition = Throw "TypeError".
Proof. split; [bn_decide|split; [bn_decide|split; reflexivity]]. Qed.

(** The closed position (net position 0) whose prior record is the long
    position of 10 shares at 0.40. *)
Lemma priorPosition_shows_prior_witness :
  ∃ marketDoc,
    ({[ "0xmarket" := resolvedMarketDocument ]} : gmap string MarketDocument.t)
      !! ProfitLossChangedLog.market emptyPosition = Some marketDoc
    ∧ Some (getDisplayValuesForPosition longPosition resolvedMarket)
      = (if bool_decide (ProfitLossChangedLog.netPosition emptyPosition = BigNumber.zero)
         then
           (λ prior,
              let open :=
                getTradingPositionFromProfitLossFrame prior (MarketDocument.data marketDoc)
                  (BigNumber.ofZ 60) None 0 None false in
              {| PriorPosition.unrealizedCost := TradingPosition.unrealizedCost open;
                 PriorPosition.avgPrice := TradingPosition.averagePrice open;
                 PriorPosition.netPosition := TradingPosition.netPosition open |})
           <$> atMarketAndOutcome priorRecords
                 (ProfitLossChangedLog.market emptyPosition)
                 (ProfitLossChangedLog.outcome emptyPosition)
         else None).
Proof.
  apply (priorPosition_shows_prior
           {[ "0xmarket" := resolvedMarketDocument ]} finalizedAt3000 latestFills latestFills
           ∅ priorRecords ∅ emptyPosition
           (getTradingPositionFromProfitLossFrame emptyPosition resolvedMarket
              (BigNumber.ofZ 100) None 1000 (Some ∅) true)
           (Some (getDisplayValuesForPosition longPosition resolvedMarket))
           (BigNumber.ofZ 60) None 0 None).
  reflexivity.
Defined.

Example priorPosition_example :
  let prior := getDisplayValuesForPosition longPosition resolvedMarket in
  PriorPosition.unrealizedCost prior = BigNumber.ofZ 4
  ∧ PriorPosition.avgPrice prior = BigNumber.ofDecimal 4 1
  ∧ PriorPosition.netPosition prior = BigNumber.ofZ 10.
Proof. repeat split; bn_decide. Qed.
